(** * ZakatNOW payment flow: a shallow embedding of the SecurePay integration

    The development follows the two source files of the repository:
    - [src/scripts/payment.js], the SecurePay.my integration (module [Payment]);
    - [src/unnamed/part_000], the earlier demo integration (module [Demo]).

    JavaScript values are a tree type [js]; numbers are IEEE binary64 values
    ([spec_float] of the standard library, precision 53, emax 1024); strings
    are sequences of code units below 256.  The page (document, storage,
    location, pending timers and requests) is an explicit [world] threaded
    through a state-and-exception monad; a timer or a request is a pending
    [task], and the function it runs later takes what arrives (the random
    draw, the answer) as an argument.  What the browser provides and the
    repository does not define (the JSON codec, date and URL rendering, the
    text of engine errors) is an interface, [Platform].

    Left out: [event.preventDefault], console output, the script tag and
    the submit listener that [initializePayment] installs, [createPayment]
    and the [window.SecurePay] mock of part_000, and storage running out
    of space. *)

From Stdlib Require Import ZArith String Ascii List Bool Lia.
From Stdlib Require Import SpecFloat.
From stdpp Require Import base option strings gmap pretty.

Local Open Scope string_scope.
Local Open Scope Z_scope.

(** ** Numbers *)

Module Number.

Definition number := spec_float.

Definition prec : Z := 53.
Definition emax : Z := 1024.

Definition NaN : number := S754_nan.
Definition zero : number := S754_zero false.

(** [x <= y] on numbers: false as soon as one side is NaN. *)
Definition leb (x y : number) : bool := SFleb x y.
Definition ltb (x y : number) : bool := SFltb x y.

(** The number nearest to [m * 10^e] (ties to even), as the engine's
    string-to-number conversion computes it. *)
Definition of_decimal (neg : bool) (m : Z) (e : Z) : number :=
  if m =? 0 then S754_zero neg
  else if 0 <=? e then binary_normalize prec emax ((if neg then - m else m) * 10 ^ e) 0 neg
  else SFdiv prec emax (S754_finite neg (Z.to_pos m) 0)
                       (S754_finite false (Z.to_pos (10 ^ (- e))) 0).

Definition of_Z (z : Z) : number := binary_normalize prec emax z 0 false.

(** White space and line terminators among the code units below 256. *)
Definition is_white (c : ascii) : bool :=
  let n := N_of_ascii c in
  ((9 <=? n) && (n <=? 13))%N || (n =? 32)%N || (n =? 160)%N.

Fixpoint trim_start (s : string) : string :=
  match s with
  | String c r => if is_white c then trim_start r else s
  | EmptyString => s
  end.

Definition digit_of (c : ascii) : option Z :=
  let n := N_of_ascii c in
  if ((48 <=? n) && (n <=? 57))%N then Some (Z.of_N n - 48) else None.

(** Longest prefix of decimal digits: its value (continuing [acc]), its
    length (continuing [len]) and what follows it. *)
Fixpoint take_digits (s : string) (acc : Z) (len : Z) : Z * Z * string :=
  match s with
  | String c r =>
      match digit_of c with
      | Some d => take_digits r (10 * acc + d) (len + 1)
      | None => (acc, len, s)
      end
  | EmptyString => (acc, len, s)
  end.

Definition take_sign (s : string) : bool * string :=
  match s with
  | String "+" r => (false, r)
  | String "-" r => (true, r)
  | _ => (false, s)
  end.

(** ExponentPart: [e] or [E], an optional sign and at least one digit;
    anything else leaves the exponent at 0. *)
Definition take_exponent (s : string) : Z :=
  match s with
  | String c r =>
      if (c =? "e")%char || (c =? "E")%char then
        let '(neg, r1) := take_sign r in
        let '(v, len, _) := take_digits r1 0 0 in
        if len =? 0 then 0 else if neg then - v else v
      else 0
  | EmptyString => 0
  end.

Fixpoint starts_with (p s : string) : bool :=
  match p, s with
  | EmptyString, _ => true
  | String a p', String b s' => (a =? b)%char && starts_with p' s'
  | String _ _, EmptyString => false
  end.

(** [parseFloat]: leading white space is skipped, the longest prefix that
    is a decimal literal is converted, and NaN is returned when there is
    none. *)
Definition parseFloat (input : string) : number :=
  let '(neg, s1) := take_sign (trim_start input) in
  if starts_with "Infinity" s1 then S754_infinity neg
  else
    let '(ip, ni, s2) := take_digits s1 0 0 in
    let '(m, n, s3) :=
      match s2 with
      | String "." r => take_digits r ip ni
      | _ => (ip, ni, s2)
      end in
    if n =? 0 then NaN
    else of_decimal neg m (take_exponent s3 - (n - ni)).

(** [10^21], below which [toFixed] prints plain decimal digits. *)
Definition fixed_limit : Z := 10 ^ 21.

(** For a positive finite [m * 2^e], the integer [n] with [n / 100]
    nearest to it, the larger one when two are equally near. *)
Definition hundredths (m : positive) (e : Z) : Z :=
  if 0 <=? e then Z.pos m * 2 ^ e * 100
  else (Z.pos m * 200 + 2 ^ (- e)) / 2 ^ (- e + 1).

Definition pad3 (digits : string) : string :=
  match String.length digits with
  | 1%nat => "00" ++ digits
  | 2%nat => "0" ++ digits
  | _ => digits
  end.

(** Decimal digits of [n >= 0] with a point before the last two. *)
Definition two_decimals (n : Z) : string :=
  let d := pad3 (pretty (Z.to_N n)) in
  let k := (String.length d - 2)%nat in
  substring 0 k d ++ "." ++ substring k 2 d.

Definition at_least_limit (m : positive) (e : Z) : bool :=
  if 0 <=? e then fixed_limit <=? Z.pos m * 2 ^ e
  else fixed_limit * 2 ^ (- e) <=? Z.pos m.

Section Render.
(** Decimal rendering of the positive number [m * 2^e] by the engine's
    number-to-string conversion (shortest digits that read back). *)
Variable finite_toString : positive -> Z -> string.

Definition toString (x : number) : string :=
  match x with
  | S754_nan => "NaN"
  | S754_zero _ => "0"
  | S754_infinity false => "Infinity"
  | S754_infinity true => "-Infinity"
  | S754_finite s m e => (if s then "-" else "") ++ finite_toString m e
  end.

(** [x.toFixed(2)] *)
Definition toFixed2 (x : number) : string :=
  match x with
  | S754_finite s m e =>
      if at_least_limit m e then toString x
      else (if s then "-" else "") ++ two_decimals (hundredths m e)
  | S754_zero _ => "0.00"
  | _ => toString x
  end.
End Render.

(** [Math.floor] *)
Definition floor (x : number) : number :=
  match x with
  | S754_finite s m e =>
      if 0 <=? e then x
      else
        let q := Z.pos m / 2 ^ (- e) in
        if s then
          (if Z.pos m mod 2 ^ (- e) =? 0 then binary_normalize prec emax (- q) 0 true
           else binary_normalize prec emax (- (q + 1)) 0 true)
        else binary_normalize prec emax q 0 false
  | _ => x
  end.

Definition mul (x y : number) : number := SFmul prec emax x y.

End Number.

Import Number.


(** ** Values, exceptions and the browser interface *)

#[local] Set Warnings "-register-all".

Inductive js :=
| Undefined
| Null
| Bool (b : bool)
| Num (n : number)
| Str (s : string)
| Arr (items : list js)
| Obj (props : list (string * js))
| Builtin (name : string).
(** [Obj] lists own properties in property order; [Builtin name] is the
    function or object that [Object.prototype] holds under [name]. *)

Inductive exn :=
| Error (message : string)
| TypeError (detail : string)
| SyntaxError (detail : string).

Inductive outcome (A : Type) :=
| Ok (a : A)
| Throw (e : exn).
Arguments Ok {A} a.
Arguments Throw {A} e.

Record url := mk_url {
  page : string;
  query : list (string * string);
  fragment : string
}.

Class Platform := {
  (** [JSON.parse]; [None] when it throws a SyntaxError. *)
  JSON_parse : string -> option js;
  JSON_stringify : js -> string;
  (** digits of a positive finite number, see [Number.toString] *)
  finite_toString : positive -> Z -> string;
  (** string conversion of an array, object or built-in, which runs its
      [toString]/[valueOf] and may throw *)
  object_toString : js -> outcome string;
  (** [new Date(v).toLocaleDateString('ms-MY', {day, month, year, hour, minute})]
      for a primitive [v] *)
  toLocaleDateString : js -> string;
  (** [new Date(t).toISOString()] *)
  toISOString : Z -> string;
  (** serialisation of the location, [window.location.href] *)
  href : url -> string;
  (** the [message] of an error the engine itself throws *)
  engine_message : exn -> string;
  (** the text parses as an address, relative to the page *)
  is_url : string -> bool
}.

Definition is_primitive (v : js) : bool :=
  match v with
  | Arr _ | Obj _ | Builtin _ => false
  | _ => true
  end.

(** ToBoolean *)
Definition truthy (v : js) : bool :=
  match v with
  | Undefined | Null => false
  | Bool b => b
  | Num (S754_zero _) | Num S754_nan => false
  | Num _ => true
  | Str s => negb (String.eqb s "")
  | Arr _ | Obj _ | Builtin _ => true
  end.

(** [a || b] *)
Definition or_else (a b : js) : js := if truthy a then a else b.

(** Names that every object inherits from [Object.prototype]. *)
Definition object_prototype : list string :=
  [ "constructor"; "__defineGetter__"; "__defineSetter__"; "hasOwnProperty";
    "__lookupGetter__"; "__lookupSetter__"; "isPrototypeOf";
    "propertyIsEnumerable"; "toString"; "valueOf"; "__proto__";
    "toLocaleString" ].

Definition inherited (key : string) : js :=
  if existsb (String.eqb key) object_prototype then Builtin key else Undefined.

Fixpoint own (props : list (string * js)) (key : string) : option js :=
  match props with
  | (k, v) :: rest => if String.eqb k key then Some v else own rest key
  | [] => None
  end.

(** [o[key]] on an ordinary object with own properties [props]. *)
Definition lookup_prop (props : list (string * js)) (key : string) : js :=
  match own props key with
  | Some v => v
  | None => inherited key
  end.

(** [v.key] for the names the code reads ([success], [status], [message],
    [checkout_url], [transaction_id], [id], [amount], [method], [date]):
    none of them is a property of an array or of a wrapped primitive. *)
Definition get_prop (v : js) (key : string) : outcome js :=
  match v with
  | Undefined | Null => Throw (TypeError ("Cannot read properties: " ++ key))
  | Obj props => Ok (lookup_prop props key)
  | _ => Ok (inherited key)
  end.

(** [o[key] = v] on the own properties: in place when [key] is there,
    appended otherwise. *)
Fixpoint set_prop (props : list (string * js)) (key : string) (v : js)
  : list (string * js) :=
  match props with
  | (k, old) :: rest =>
      if String.eqb k key then (k, v) :: rest else (k, old) :: set_prop rest key v
  | [] => [(key, v)]
  end.

Fixpoint indexed (items : list js) (i : N) : list (string * js) :=
  match items with
  | x :: rest => (pretty i, x) :: indexed rest (N.succ i)
  | [] => []
  end.

Fixpoint chars (s : string) : list js :=
  match s with
  | String c r => Str (String c EmptyString) :: chars r
  | EmptyString => []
  end.

(** What [{...v}] copies. *)
Definition spread (v : js) : list (string * js) :=
  match v with
  | Obj props => props
  | Arr items => indexed items 0
  | Str s => indexed (chars s) 0
  | _ => []
  end.

Section Conversions.
Context `{Platform}.

Definition ToString (v : js) : outcome string :=
  match v with
  | Undefined => Ok "undefined"
  | Null => Ok "null"
  | Bool true => Ok "true"
  | Bool false => Ok "false"
  | Num n => Ok (Number.toString finite_toString n)
  | Str s => Ok s
  | _ => object_toString v
  end.

Definition toFixed (x : number) : string := Number.toFixed2 finite_toString x.

Definition message_of (e : exn) : string :=
  match e with
  | Error m => m
  | _ => engine_message e
  end.
End Conversions.

(** ** The page *)

Record element := mk_element {
  value : string;
  display : string;
  textContent : string;
  className : string;
  innerHTML : string
}.

Record request := mk_request {
  req_url : string;
  req_method : string;
  req_headers : list (string * string);
  req_body : option string
}.

(** The functions handed to [setTimeout] and to promise chains, with the
    variables they close over. *)
Inductive callback :=
| HideMessage
| Simulate (paymentAmount paymentMethod : string)
| SimulateComplete (paymentAmount paymentMethod : string)
| DemoSimulate (paymentAmount paymentMethod : string)
| SessionCreated
| StatusChecked.

Inductive task :=
| Timeout (cb : callback) (ms : Z)
| Fetch (req : request) (cb : callback).

Record world := mk_world {
  document : gmap string element;
  (** value of [input[name="paymentMethod"]:checked], when one is checked *)
  checked : option string;
  localStorage : gmap string string;
  location : url;
  (** address the window was sent to by an assignment to [location.href] *)
  navigation : option string;
  (** timers set and requests sent that have not fired yet *)
  tasks : list task;
  (** the clock, in milliseconds *)
  now : Z
}.

#[export] Instance outcome_ret : MRet outcome := fun A a => Ok a.
#[export] Instance outcome_bind : MBind outcome := fun A B f o =>
  match o with
  | Ok a => f a
  | Throw e => Throw e
  end.

Definition M (A : Type) : Type := world -> outcome A * world.

#[export] Instance M_ret : MRet M := fun A a w => (Ok a, w).
#[export] Instance M_bind : MBind M := fun A B f m w =>
  match m w with
  | (Ok a, w') => f a w'
  | (Throw e, w') => (Throw e, w')
  end.

Definition throw {A} (e : exn) : M A := fun w => (Throw e, w).
Definition lift {A} (o : outcome A) : M A := fun w => (o, w).
Definition read {A} (f : world -> A) : M A := fun w => (Ok (f w), w).
Definition write (f : world -> world) : M unit := fun w => (Ok tt, f w).

(** [try { m } catch (e) { h(e) }], also a promise chain [.then(m).catch(h)]
    once the promise has settled. *)
Definition catch {A} (m : M A) (h : exn -> M A) : M A := fun w =>
  match m w with
  | (Ok a, w') => (Ok a, w')
  | (Throw e, w') => h e w'
  end.

Definition when (b : bool) (m : M unit) : M unit := if b then m else mret tt.

Definition set_document (d : gmap string element) (w : world) : world :=
  mk_world d (checked w) (localStorage w) (location w) (navigation w) (tasks w) (now w).
Definition set_localStorage (s : gmap string string) (w : world) : world :=
  mk_world (document w) (checked w) s (location w) (navigation w) (tasks w) (now w).
Definition set_location (u : url) (w : world) : world :=
  mk_world (document w) (checked w) (localStorage w) u (navigation w) (tasks w) (now w).
Definition set_navigation (a : string) (w : world) : world :=
  mk_world (document w) (checked w) (localStorage w) (location w) (Some a) (tasks w) (now w).
Definition add_task (t : task) (w : world) : world :=
  mk_world (document w) (checked w) (localStorage w) (location w) (navigation w)
           (tasks w ++ [t]) (now w).

(** [document.getElementById(id)]: the element is handed around by its id;
    [None] is [null]. *)
Definition getElementById (id : string) : M (option string) :=
  read (fun w => match document w !! id with Some _ => Some id | None => None end).

Definition present (e : option string) : bool :=
  match e with Some _ => true | None => false end.

Definition update (e : option string) (f : element -> element) : M unit :=
  match e with
  | Some id => write (fun w => set_document (alter f id (document w)) w)
  | None => throw (TypeError "Cannot set properties of null")
  end.

Definition set_display (v : string) (el : element) : element :=
  mk_element (value el) v (textContent el) (className el) (innerHTML el).
Definition set_textContent (v : string) (el : element) : element :=
  mk_element (value el) (display el) v (className el) (innerHTML el).
Definition set_className (v : string) (el : element) : element :=
  mk_element (value el) (display el) (textContent el) v (innerHTML el).
Definition set_innerHTML (v : string) (el : element) : element :=
  mk_element (value el) (display el) (textContent el) (className el) v.

(** [document.getElementById(id).value] *)
Definition value_of (id : string) : M string :=
  fun w => match document w !! id with
           | Some el => (Ok (value el), w)
           | None => (Throw (TypeError "Cannot read properties of null"), w)
           end.

(** [document.getElementById(id)?.value]; [None] is [undefined]. *)
Definition optional_value_of (id : string) : M (option string) :=
  read (fun w => value <$> document w !! id).

Definition setTimeout (cb : callback) (ms : Z) : M unit :=
  write (add_task (Timeout cb ms)).

Definition fetch (req : request) (cb : callback) : M unit :=
  write (add_task (Fetch req cb)).

(** What a request comes to once [response.json()] has run: no answer, an
    answer whose body is not JSON, or the parsed body. *)
Inductive fetched :=
| NetworkFailure
| NotJson
| Body (v : js).

(** [new URLSearchParams(location.search).get(name)] *)
Fixpoint searchParams_get (q : list (string * string)) (name : string) : option string :=
  match q with
  | (k, v) :: rest => if String.eqb k name then Some v else searchParams_get rest name
  | [] => None
  end.

(** [url.searchParams.delete(name)] *)
Definition searchParams_delete (name : string) (u : url) : url :=
  mk_url (page u) (List.filter (fun kv => negb (String.eqb (fst kv) name)) (query u)) (fragment u).

(** A string that is neither [undefined] nor empty, that is, truthy. *)
Definition filled (s : option string) : option string :=
  match s with
  | Some "" => None
  | _ => s
  end.

(** [a === b] against a string literal. *)
Definition is_string (v : js) (lit : string) : bool :=
  match v with
  | Str s => String.eqb s lit
  | _ => false
  end.

(** [a === lit] for what [URLSearchParams.get] returns ([None] is [null]). *)
Definition same (a : option string) (lit : string) : bool :=
  match a with
  | Some s => String.eqb s lit
  | None => false
  end.

Definition quote : string := String (ascii_of_N 34) EmptyString.
Definition newline : string := String (ascii_of_N 10) EmptyString.

Record SecurePayService := mk_service {
  apiKey : string;
  merchantId : string;
  apiEndpoint : string;
  isTestMode : bool
}.

Definition historyKey : string := "zakatPaymentHistory".

(** ** Functions that the two files share word for word *)

Section Shared.
Context `{Platform}.

Definition showPaymentProcessing (isProcessing : bool) : M unit :=
  processingIndicator ← getElementById "paymentProcessing";
  paymentForm ← getElementById "paymentForm";
  paymentSuccess ← getElementById "paymentSuccess";
  when (present processingIndicator)
    (update processingIndicator (set_display (if isProcessing then "block" else "none")));;
  when (present paymentForm)
    (update paymentForm (set_display (if isProcessing then "none" else "block")));;
  when (present paymentSuccess)
    (update paymentSuccess (set_display "none")).

Definition showPaymentMessage (type message : string) : M unit :=
  paymentMessage ← getElementById "paymentMessage";
  when (present paymentMessage)
    (update paymentMessage (set_textContent message);;
     update paymentMessage (set_className ("payment-message " +:+ type));;
     update paymentMessage (set_display "block");;
     setTimeout HideMessage 5000).

(** the function [showPaymentMessage] hands to [setTimeout] *)
Definition hideMessage : M unit :=
  update (Some "paymentMessage") (set_display "none").

(** [localStorage.getItem(key) || fallback] *)
Definition getItem_or (key fallback : string) : M string :=
  read (fun w => default fallback (filled (localStorage w !! key))).

Definition setItem (key v : string) : M unit :=
  write (fun w => set_localStorage (<[key := v]> (localStorage w)) w).

Definition parse (text : string) : M js :=
  match JSON_parse text with
  | Some v => mret v
  | None => throw (SyntaxError text)
  end.

(** [a.push(x)], giving the array afterwards *)
Definition push (a x : js) : M js :=
  match a with
  | Arr items => mret (Arr (items ++ [x]))
  | Undefined | Null => throw (TypeError "Cannot read properties: push")
  | _ => throw (TypeError "push is not a function")
  end.

(** [{...payment, timestamp: t}] *)
Definition stamped (payment : js) (t : Z) : js :=
  Obj (set_prop (spread payment) "timestamp" (Num (Number.of_Z t))).

Definition savePaymentToHistory (payment : js) : M unit :=
  text ← getItem_or historyKey "[]";
  paymentHistory ← parse text;
  t ← read now;
  paymentHistory ← push paymentHistory (stamped payment t);
  setItem historyKey (JSON_stringify paymentHistory).

(** [new Date(v).toLocaleDateString('ms-MY', ...)] *)
Definition formatDate (v : js) : outcome string :=
  if is_primitive v then Ok (toLocaleDateString v)
  else s ← object_toString v; Ok (toLocaleDateString (Str s)).

(** The log as a reader finds it: the array stored under the key, the
    empty array when nothing is stored, [None] when what is stored is not
    an array. *)
Definition history (w : world) : option (list js) :=
  match JSON_parse (default "[]" (filled (localStorage w !! historyKey))) with
  | Some (Arr items) => Some items
  | _ => None
  end.
End Shared.

(** ** src/scripts/payment.js *)

Module Payment.
Section Service.
Context `{Platform}.

(** [new SecurePayService(apiKey, merchantId)] *)
Definition constructor (apiKey merchantId : string) : SecurePayService :=
  mk_service apiKey merchantId "https://api.securepay.my" true.

Definition methodMapping : list (string * js) :=
  [ ("fpx", Str "fpx"); ("card", Str "card"); ("wallet", Str "boost");
    ("qr", Str "duitnow_qr") ].

Definition mapPaymentMethod (internalMethod : string) : js :=
  or_else (lookup_prop methodMapping internalMethod) (Str "fpx").

Definition createPaymentSession (this : SecurePayService) (paymentDetails : js)
    (next : callback) : M unit :=
  fetch (mk_request (apiEndpoint this ++ "/v1/payments") "POST"
           [ ("Content-Type", "application/json");
             ("Authorization", "Bearer " ++ apiKey this);
             ("X-Merchant-ID", merchantId this) ]
           (Some (JSON_stringify paymentDetails)))
        next.

(** [window.location.href = target] *)
Definition assign_href (target : string) : M unit :=
  if is_url target then write (set_navigation target)
  else throw (SyntaxError target).

(** what the promise of [createPaymentSession] settles to *)
Definition createPaymentSession_settled (r : fetched) : outcome js :=
  match r with
  | Body v => Ok v
  | _ => Throw (Error "Network error when connecting to payment gateway")
  end.

Definition checkPaymentStatus (this : SecurePayService) (paymentId : string)
    (next : callback) : M unit :=
  fetch (mk_request (apiEndpoint this ++ "/v1/payments/" ++ paymentId) "GET"
           [ ("Authorization", "Bearer " ++ apiKey this);
             ("X-Merchant-ID", merchantId this) ]
           None)
        next.

Definition checkPaymentStatus_settled (r : fetched) : outcome js :=
  match r with
  | Body v => Ok v
  | _ => Throw (Error "Network error when checking payment status")
  end.

Definition methods : list (string * js) :=
  [ ("fpx", Str "FPX Online Banking"); ("card", Str "Kad Kredit/Debit");
    ("wallet", Str "E-Wallet"); ("boost", Str "Boost e-Wallet");
    ("tng", Str "Touch n Go e-Wallet"); ("grabpay", Str "GrabPay");
    ("duitnow_qr", Str "DuitNow QR"); ("qr", Str "QR Pay") ].

Definition formatPaymentMethod (methodCode : js) : outcome js :=
  key ← ToString methodCode;
  Ok (or_else (lookup_prop methods key) methodCode).

Definition indent : string := newline ++ "                ".

(** the template that [showPaymentComplete] assigns to [innerHTML] *)
Definition details (paymentResult : js) (formattedDate : string) : outcome string :=
  transaction_id ← get_prop paymentResult "transaction_id";
  id ← (if truthy transaction_id then Ok transaction_id else get_prop paymentResult "id");
  shown_id ← ToString (or_else (or_else transaction_id id) (Str "N/A"));
  amount ← get_prop paymentResult "amount";
  amount_text ← ToString amount;
  method ← get_prop paymentResult "method";
  method_name ← formatPaymentMethod method;
  method_text ← ToString method_name;
  Ok (indent ++ "<p><strong>ID Transaksi:</strong> " ++ shown_id ++ "</p>"
      ++ indent ++ "<p><strong>Jumlah:</strong> RM "
      ++ toFixed (parseFloat amount_text) ++ "</p>"
      ++ indent ++ "<p><strong>Kaedah:</strong> " ++ method_text ++ "</p>"
      ++ indent ++ "<p><strong>Tarikh:</strong> " ++ formattedDate ++ "</p>"
      ++ indent ++ "<p><strong>Status:</strong> <span style=" ++ quote
      ++ "color: green; font-weight: bold;" ++ quote ++ ">Berjaya</span></p>"
      ++ newline ++ "            ")%string.

Definition showPaymentComplete (paymentResult : js) : M unit :=
  processingIndicator ← getElementById "paymentProcessing";
  paymentForm ← getElementById "paymentForm";
  paymentSuccess ← getElementById "paymentSuccess";
  paymentDetails ← getElementById "paymentDetails";
  when (present processingIndicator) (update processingIndicator (set_display "none"));;
  when (present paymentForm) (update paymentForm (set_display "none"));;
  when (present paymentSuccess)
    (update paymentSuccess (set_display "block");;
     date ← lift (get_prop paymentResult "date");
     formattedDate ← lift (formatDate date);
     html ← lift (details paymentResult formattedDate);
     update paymentDetails (set_innerHTML html);;
     savePaymentToHistory paymentResult).

Definition customer (customerName customerPhone : option string)
    (customerEmail : string) : js :=
  Obj [ ("name", Str (default "Pembayar Zakat" (filled customerName)));
        ("email", Str customerEmail);
        ("phone", Str (default "" (filled customerPhone))) ].

(** the object literal [payload] of [handlePaymentSubmit] *)
Definition payload (paymentAmount paymentMethod : string)
    (customerName customerPhone : option string) (customerEmail : string)
    (t : Z) (here : string) : js :=
  Obj [ ("amount", Str (toFixed (parseFloat paymentAmount)));
        ("currency", Str "MYR");
        ("reference_id", Str ("ZAKAT-" ++ pretty t));
        ("description", Str "Pembayaran Zakat");
        ("customer", customer customerName customerPhone customerEmail);
        ("payment", Obj [ ("method", mapPaymentMethod paymentMethod) ]);
        ("redirect", Obj [ ("return_url", Str (here ++ "?payment_status=completed"));
                           ("cancel_url", Str (here ++ "?payment_status=cancelled")) ]);
        ("metadata", Obj [ ("source", Str "ZakatNOW Calculator") ]) ].

Definition handlePaymentSubmit (this : SecurePayService) : M unit :=
  paymentForm ← getElementById "paymentForm";
  paymentAmount ← value_of "paymentAmount";
  paymentMethod ← read checked;
  customerName ← optional_value_of "customerName";
  customerEmail ← optional_value_of "customerEmail";
  customerPhone ← optional_value_of "customerPhone";
  if String.eqb paymentAmount "" || Number.leb (parseFloat paymentAmount) Number.zero then
    showPaymentMessage "error" "Sila masukkan jumlah pembayaran yang sah."
  else
    match filled paymentMethod with
    | None => showPaymentMessage "error" "Sila pilih kaedah pembayaran."
    | Some method =>
        match filled customerEmail with
        | None => showPaymentMessage "error" "Sila masukkan alamat emel."
        | Some email =>
            showPaymentProcessing true;;
            t ← read now;
            here ← read (fun w => href (location w));
            let payload := payload paymentAmount method customerName customerPhone email t here in
            if isTestMode this then setTimeout (Simulate paymentAmount method) 2000
            else createPaymentSession this payload SessionCreated
        end
    end.

(** [Math.random() > 0.2], for the draw [r] *)
Definition lucky (r : number) : bool := Number.ltb (Number.of_decimal false 2 (-1)) r.

(** the outer timer of the test mode, fired with the draw [r] *)
Definition simulate (paymentAmount paymentMethod : string) (r : number) : M unit :=
  if lucky r then
    showPaymentMessage "info" "Mengalihkan ke gateway pembayaran...";;
    setTimeout (SimulateComplete paymentAmount paymentMethod) 1500
  else
    showPaymentMessage "error" "Pembayaran gagal. Sila cuba lagi.";;
    showPaymentProcessing false.

(** the inner timer of the test mode, fired with the draw [r] *)
Definition simulateComplete (paymentAmount paymentMethod : string) (r : number) : M unit :=
  t ← read now;
  showPaymentComplete
    (Obj [ ("status", Str "success");
           ("transaction_id",
            Str ("SPM" ++ Number.toString finite_toString
                            (Number.floor (Number.mul r (Number.of_Z 1000000)))));
           ("amount", Str paymentAmount);
           ("method", Str paymentMethod);
           ("date", Str (toISOString t)) ]).

(** the [.then(...).catch(...)] that [handlePaymentSubmit] hangs on
    [createPaymentSession], run once the request has come to [r] *)
Definition sessionCreated (r : fetched) : M unit :=
  catch
    (response ← lift (createPaymentSession_settled r);
     success ← lift (get_prop response "success");
     both ← lift (if truthy success then get_prop response "checkout_url" else Ok success);
     if truthy both then
       checkout_url ← lift (get_prop response "checkout_url");
       target ← lift (ToString checkout_url);
       assign_href target
     else
       message ← lift (get_prop response "message");
       text ← lift (ToString (or_else message (Str "Payment creation failed")));
       throw (Error text))
    (fun error =>
       showPaymentMessage "error" ("Pembayaran gagal: " ++ message_of error);;
       showPaymentProcessing false).

Definition strip_status (u : url) : url := searchParams_delete "payment_status" u.
Definition strip_both (u : url) : url :=
  searchParams_delete "payment_id" (searchParams_delete "payment_status" u).

(** the [.then(...).catch(...)] of [checkPaymentStatusFromUrl], run once
    the request has come to [r] *)
Definition statusChecked (r : fetched) : M unit :=
  catch
    (result ← lift (checkPaymentStatus_settled r);
     success ← lift (get_prop result "success");
     paid ← lift (if truthy success
                  then status ← get_prop result "status"; Ok (is_string status "paid")
                  else Ok false);
     if (paid : bool) then
       showPaymentComplete result;;
       write (fun w => set_location (strip_both (location w)) w)
     else
       showPaymentMessage "error"
         "Pengesahan pembayaran gagal. Sila hubungi pihak pentadbir.")
    (fun error => showPaymentMessage "error" ("Ralat pengesahan: " ++ message_of error)).

Definition checkPaymentStatusFromUrl (this : SecurePayService) : M unit :=
  paymentStatus ← read (fun w => searchParams_get (query (location w)) "payment_status");
  paymentId ← read (fun w => searchParams_get (query (location w)) "payment_id");
  if same paymentStatus "completed" && present (filled paymentId) then
    checkPaymentStatus this (default "" paymentId) StatusChecked
  else if same paymentStatus "cancelled" then
    showPaymentMessage "info" "Pembayaran dibatalkan.";;
    write (fun w => set_location (strip_status (location w)) w)
  else mret tt.
End Service.
End Payment.

(** ** src/unnamed/part_000

    The demo integration: the same page and helpers, a submission handler
    that only simulates, and its own success summary.  [createPayment],
    which nothing on the page calls, is left out. *)

Module Demo.
Section Service.
Context `{Platform}.

Definition constructor (apiKey merchantId : string) : SecurePayService :=
  mk_service apiKey merchantId "https://api.securepay.my/v1/payments" true.

Definition methods : list (string * js) :=
  [ ("fpx", Str "FPX Online Banking"); ("card", Str "Kad Kredit/Debit");
    ("wallet", Str "E-Wallet"); ("qr", Str "QR Pay") ].

Definition formatPaymentMethod (methodCode : js) : outcome js :=
  key ← ToString methodCode;
  Ok (or_else (lookup_prop methods key) methodCode).

Definition indent : string := newline ++ "                ".

Definition details (paymentResult : js) (formattedDate : string) : outcome string :=
  transactionId ← get_prop paymentResult "transactionId";
  shown_id ← ToString transactionId;
  amount ← get_prop paymentResult "amount";
  amount_text ← ToString amount;
  method ← get_prop paymentResult "method";
  method_name ← formatPaymentMethod method;
  method_text ← ToString method_name;
  Ok (indent ++ "<p><strong>ID Transaksi:</strong> " ++ shown_id ++ "</p>"
      ++ indent ++ "<p><strong>Jumlah:</strong> RM "
      ++ toFixed (parseFloat amount_text) ++ "</p>"
      ++ indent ++ "<p><strong>Kaedah:</strong> " ++ method_text ++ "</p>"
      ++ indent ++ "<p><strong>Tarikh:</strong> " ++ formattedDate ++ "</p>"
      ++ newline ++ "            ")%string.

Definition showPaymentComplete (paymentResult : js) : M unit :=
  processingIndicator ← getElementById "paymentProcessing";
  paymentForm ← getElementById "paymentForm";
  paymentSuccess ← getElementById "paymentSuccess";
  paymentDetails ← getElementById "paymentDetails";
  when (present processingIndicator) (update processingIndicator (set_display "none"));;
  when (present paymentForm) (update paymentForm (set_display "none"));;
  when (present paymentSuccess)
    (update paymentSuccess (set_display "block");;
     date ← lift (get_prop paymentResult "date");
     formattedDate ← lift (formatDate date);
     html ← lift (details paymentResult formattedDate);
     update paymentDetails (set_innerHTML html);;
     savePaymentToHistory paymentResult).

Definition handlePaymentSubmit (this : SecurePayService) : M unit :=
  paymentForm ← getElementById "paymentForm";
  paymentAmount ← value_of "paymentAmount";
  paymentMethod ← read checked;
  if String.eqb paymentAmount "" || Number.leb (parseFloat paymentAmount) Number.zero then
    showPaymentMessage "error" "Sila masukkan jumlah pembayaran yang sah."
  else
    match filled paymentMethod with
    | None => showPaymentMessage "error" "Sila pilih kaedah pembayaran."
    | Some method =>
        showPaymentProcessing true;;
        setTimeout (DemoSimulate paymentAmount method) 2000
    end.

Definition lucky (r : number) : bool := Number.ltb (Number.of_decimal false 2 (-1)) r.

(** the timer of [handlePaymentSubmit], fired with the draws [r], [r'] *)
Definition simulate (paymentAmount paymentMethod : string) (r r' : number) : M unit :=
  if lucky r then
    t ← read now;
    showPaymentComplete
      (Obj [ ("status", Str "success");
             ("transactionId",
              Str ("TRX" ++ Number.toString finite_toString
                              (Number.floor (Number.mul r' (Number.of_Z 1000000)))));
             ("amount", Str paymentAmount);
             ("method", Str paymentMethod);
             ("date", Str (toISOString t)) ])
  else
    showPaymentMessage "error" "Pembayaran gagal. Sila cuba lagi.";;
    showPaymentProcessing false.
End Service.
End Demo.

(** ** The listeners of the load handler

    The three listeners that the load handler of both files installs, word
    for word the same in payment.js (lines 353 to 375) and in part_000
    (lines 243 to 265): the click on the pay button, the click on the
    close button, and the click anywhere in the window. *)

Module Listeners.

Definition set_value (v : string) (el : element) : element :=
  mk_element v (display el) (textContent el) (className el) (innerHTML el).

(** [\d] *)
Definition is_digit (c : ascii) : bool :=
  match Number.digit_of c with
  | Some _ => true
  | None => false
  end.

(** [[\d,]] *)
Definition digit_or_comma (c : ascii) : bool := is_digit c || Ascii.eqb c ",".

(** The longest prefix of [s] whose characters satisfy [p], and what
    follows it: how a greedy [+] reads when the character after it is not
    in its class. *)
Fixpoint span (p : ascii -> bool) (s : string) : string * string :=
  match s with
  | String c r =>
      if p c then let '(taken, rest) := span p r in (String c taken, rest)
      else (EmptyString, s)
  | EmptyString => (EmptyString, EmptyString)
  end.

(** [/RM\s+([\d,]+\.\d{2})/] tried at the start of [s]: the group it
    captures. *)
Definition match_here (s : string) : option string :=
  match s with
  | String "R" (String "M" r) =>
      let '(blanks, r1) := span Number.is_white r in
      if String.eqb blanks "" then None
      else
        let '(body, r2) := span digit_or_comma r1 in
        if String.eqb body "" then None
        else
          match r2 with
          | String "." (String d1 (String d2 _)) =>
              if is_digit d1 && is_digit d2
              then Some (body ++ String "." (String d1 (String d2 EmptyString)))
              else None
          | _ => None
          end
  | _ => None
  end.

(** [text.match(/RM\s+([\d,]+\.\d{2})/)?.[1]]: the first place from the
    left where the pattern matches. *)
Fixpoint search (text : string) : option string :=
  match match_here text with
  | Some group => Some group
  | None =>
      match text with
      | String _ r => search r
      | EmptyString => None
      end
  end.

(** [s.replace(/,/g, '')] *)
Fixpoint remove_commas (s : string) : string :=
  match s with
  | String c r => if Ascii.eqb c "," then remove_commas r else String c (remove_commas r)
  | EmptyString => EmptyString
  end.

(** [e.style.display = v]: on [null] it is the reading of [style] that
    throws. *)
Definition style_display (e : option string) (v : string) : M unit :=
  match e with
  | Some _ => update e (set_display v)
  | None => throw (TypeError "Cannot read properties of null")
  end.

(** the click on [payZakatButton] *)
Definition payZakatButton_click : M unit :=
  zakatAmount ← read (fun w => match document w !! "zakatResult" with
                               | Some zakatResult => search (textContent zakatResult)
                               | None => None
                               end);
  match filled zakatAmount with
  | Some amount =>
      paymentAmount ← getElementById "paymentAmount";
      update paymentAmount (set_value (remove_commas amount));;
      paymentModal ← getElementById "paymentModal";
      style_display paymentModal "block"
  | None => mret tt
  end.

(** the click on [closePayment] *)
Definition closePayment_click : M unit :=
  paymentModal ← getElementById "paymentModal";
  style_display paymentModal "none".

(** the click in the window, on the element with id [target] ([None]: on
    something that is not an element of the page with an id) *)
Definition window_click (target : option string) : M unit :=
  modal ← getElementById "paymentModal";
  match modal, target with
  | Some m, Some t => if String.eqb m t then style_display modal "none" else mret tt
  | _, _ => mret tt
  end.

End Listeners.

(** ** Pending tasks and the functions they run

    A timer fires once its time has elapsed, with the numbers its function
    draws from [Math.random]; a request fires with what it came to. *)

Inductive arrival :=
| Elapsed
| Drawn (r : number)
| DrawnTwice (r r' : number)
| Settled (r : fetched).

Definition fire `{Platform} (cb : callback) (a : arrival) : option (M unit) :=
  match cb, a with
  | HideMessage, Elapsed => Some hideMessage
  | Simulate paymentAmount paymentMethod, Drawn r =>
      Some (Payment.simulate paymentAmount paymentMethod r)
  | SimulateComplete paymentAmount paymentMethod, Drawn r =>
      Some (Payment.simulateComplete paymentAmount paymentMethod r)
  | DemoSimulate paymentAmount paymentMethod, DrawnTwice r r' =>
      Some (Demo.simulate paymentAmount paymentMethod r r')
  | SessionCreated, Settled r => Some (Payment.sessionCreated r)
  | StatusChecked, Settled r => Some (Payment.statusChecked r)
  | _, _ => None
  end.

(** ** A reference browser

    An executable [Platform]: compact JSON text with its reader, exact
    decimal digits for numbers, and plain renderings of dates and
    locations.  It runs the model on concrete pages. *)

Module Reference.

Fixpoint reduce (k : nat) (n : Z) : nat * Z :=
  match k with
  | O => (O, n)
  | S k' => if n mod 10 =? 0 then reduce k' (n / 10) else (k, n)
  end.

Fixpoint zeros (k : nat) : string :=
  match k with
  | O => ""
  | S k' => "0" ++ zeros k'
  end.

(** exact decimal digits of [m * 2^e] *)
Definition digits (m : positive) (e : Z) : string :=
  if 0 <=? e then pretty (Z.pos m * 2 ^ e)
  else
    let '(k, n) := reduce (Z.to_nat (- e)) (Z.pos m * 5 ^ (- e)) in
    let whole := pretty (n / 10 ^ Z.of_nat k) in
    match k with
    | O => whole
    | _ =>
        let part := pretty (n mod 10 ^ Z.of_nat k) in
        whole ++ "." ++ zeros (k - String.length part) ++ part
    end.

Definition hex_digit (n : N) : ascii :=
  if (n <? 10)%N then ascii_of_N (48 + n) else ascii_of_N (87 + n).

Definition dq : ascii := ascii_of_N 34.
Definition backslash : ascii := ascii_of_N 92.

Fixpoint escape (s : string) : string :=
  match s with
  | EmptyString => ""
  | String c r =>
      let n := N_of_ascii c in
      (if Ascii.eqb c dq then String backslash (String dq "")
       else if Ascii.eqb c backslash then String backslash (String backslash "")
       else if (n <? 32)%N then
         String backslash ("u00" ++ String (hex_digit (n / 16)) (String (hex_digit (n mod 16)) ""))
       else String c "") ++ escape r
  end.

Definition quoted (s : string) : string := String dq (escape s) ++ String dq "".

Definition join (sep : string) (parts : list string) : string :=
  match parts with
  | [] => ""
  | p :: rest => fold_left (fun acc q => acc ++ sep ++ q) rest p
  end.

Definition number_text (n : number) : string :=
  match n with
  | S754_finite s m e => (if s then "-" else "") ++ digits m e
  | S754_zero _ => "0"
  | _ => "null"
  end.

(** [JSON.stringify]: [undefined] and functions become [null] in an array
    and are left out of an object. *)
Fixpoint stringify (v : js) : string :=
  match v with
  | Undefined | Builtin _ | Null => "null"
  | Bool true => "true"
  | Bool false => "false"
  | Num n => number_text n
  | Str s => quoted s
  | Arr items => "[" ++ join "," (map stringify items) ++ "]"
  | Obj props =>
      "{" ++ join ","
               ((fix members (ps : list (string * js)) : list string :=
                   match ps with
                   | [] => []
                   | (k, Undefined) :: rest | (k, Builtin _) :: rest => members rest
                   | (k, x) :: rest => (quoted k ++ ":" ++ stringify x) :: members rest
                   end) props)
          ++ "}"
  end.

Fixpoint skip (s : string) : string :=
  match s with
  | String c r =>
      let n := N_of_ascii c in
      if (n =? 32)%N || (n =? 9)%N || (n =? 10)%N || (n =? 13)%N then skip r else s
  | EmptyString => s
  end.

Definition hex_value (c : ascii) : option N :=
  let n := N_of_ascii c in
  if ((48 <=? n) && (n <=? 57))%N then Some (n - 48)%N
  else if ((97 <=? n) && (n <=? 102))%N then Some (n - 87)%N
  else if ((65 <=? n) && (n <=? 70))%N then Some (n - 55)%N
  else None.

(** the characters of a string literal after its opening quote *)
Fixpoint read_string (s : string) : option (string * string) :=
  match s with
  | EmptyString => None
  | String c r =>
      if Ascii.eqb c dq then Some ("", r)
      else if Ascii.eqb c backslash then
        match r with
        | String "u" (String a (String b (String x (String y r')))) =>
            match hex_value a, hex_value b, hex_value x, hex_value y with
            | Some 0%N, Some 0%N, Some h, Some l =>
                '(t, rest) ← read_string r'; Some (String (ascii_of_N (16 * h + l)) t, rest)
            | _, _, _, _ => None
            end
        | String e r' =>
            let plain (c : ascii) := '(t, rest) ← read_string r'; Some (String c t, rest) in
            if Ascii.eqb e dq then plain dq
            else if Ascii.eqb e backslash then plain backslash
            else if Ascii.eqb e "/" then plain "/"%char
            else if Ascii.eqb e "n" then plain (ascii_of_N 10)
            else if Ascii.eqb e "t" then plain (ascii_of_N 9)
            else if Ascii.eqb e "r" then plain (ascii_of_N 13)
            else if Ascii.eqb e "b" then plain (ascii_of_N 8)
            else if Ascii.eqb e "f" then plain (ascii_of_N 12)
            else None
        | EmptyString => None
        end
      else if (N_of_ascii c <? 32)%N then None
      else '(t, rest) ← read_string r; Some (String c t, rest)
  end.

(** a JSON number: sign, digits, fraction, exponent *)
Definition read_number (s : string) : option (js * string) :=
  let '(neg, s1) := match s with String "-" r => (true, r) | _ => (false, s) end in
  let '(ip, ni, s2) := Number.take_digits s1 0 0 in
  if ni =? 0 then None
  else
    let '(m, n, s3) :=
      match s2 with
      | String "." r => Number.take_digits r ip ni
      | _ => (ip, ni, s2)
      end in
    let '(ex, s4) :=
      match s3 with
      | String c r =>
          if Ascii.eqb c "e" || Ascii.eqb c "E" then
            let '(eneg, r1) := Number.take_sign r in
            let '(v, len, r2) := Number.take_digits r1 0 0 in
            if len =? 0 then (0, s3) else (if eneg then - v else v, r2)
          else (0, s3)
      | EmptyString => (0, s3)
      end in
    Some (Num (Number.of_decimal neg m (ex - (n - ni))), s4).

Definition expect (word : string) (v : js) (s : string) : option (js * string) :=
  if Number.starts_with word s
  then Some (v, substring (String.length word) (String.length s - String.length word) s)
  else None.

Fixpoint read_value (fuel : nat) (s : string) : option (js * string) :=
  match fuel with
  | O => None
  | S fuel =>
      match skip s with
      | EmptyString => None
      | String c r as t =>
          if Ascii.eqb c dq then '(x, rest) ← read_string r; Some (Str x, rest)
          else if Ascii.eqb c "[" then
            match skip r with
            | String "]" rest => Some (Arr [], rest)
            | _ => '(items, rest) ← read_items fuel r; Some (Arr items, rest)
            end
          else if Ascii.eqb c "{" then
            match skip r with
            | String "}" rest => Some (Obj [], rest)
            | _ => '(props, rest) ← read_members fuel r; Some (Obj props, rest)
            end
          else if Ascii.eqb c "n" then expect "null" Null t
          else if Ascii.eqb c "t" then expect "true" (Bool true) t
          else if Ascii.eqb c "f" then expect "false" (Bool false) t
          else read_number t
      end
  end
with read_items (fuel : nat) (s : string) : option (list js * string) :=
  match fuel with
  | O => None
  | S fuel =>
      '(v, r) ← read_value fuel s;
      match skip r with
      | String "," rest => '(more, rest') ← read_items fuel rest; Some (v :: more, rest')
      | String "]" rest => Some ([v], rest)
      | _ => None
      end
  end
with read_members (fuel : nat) (s : string) : option (list (string * js) * string) :=
  match fuel with
  | O => None
  | S fuel =>
      match skip s with
      | String c r =>
          if Ascii.eqb c dq then
            '(k, r1) ← read_string r;
            match skip r1 with
            | String ":" r2 =>
                '(v, r3) ← read_value fuel r2;
                match skip r3 with
                | String "," rest =>
                    '(more, rest') ← read_members fuel rest;
                    Some ((k, default v (own more k))
                          :: List.filter (fun kv => negb (String.eqb (fst kv) k)) more, rest')
                | String "}" rest => Some ([(k, v)], rest)
                | _ => None
                end
            | _ => None
            end
          else None
      | EmptyString => None
      end
  end.

Definition parse (text : string) : option js :=
  '(v, rest) ← read_value (2 * String.length text + 2) text;
  match skip rest with
  | EmptyString => Some v
  | _ => None
  end.

Fixpoint text_of (v : js) : outcome string :=
  match v with
  | Arr items =>
      parts ← (fix each (l : list js) : outcome (list string) :=
                 match l with
                 | [] => Ok []
                 | (Undefined | Null) :: rest => ps ← each rest; Ok ("" :: ps)
                 | Num n :: rest => ps ← each rest; Ok (Number.toString digits n :: ps)
                 | Str s :: rest => ps ← each rest; Ok (s :: ps)
                 | Bool b :: rest => ps ← each rest; Ok ((if b then "true" else "false") :: ps)
                 | x :: rest => p ← text_of x; ps ← each rest; Ok (p :: ps)
                 end) items;
      Ok (join "," parts)
  | Obj props =>
      match own props "toString" with
      | Some _ => Throw (TypeError "Cannot convert object to primitive value")
      | None => Ok "[object Object]"
      end
  | Builtin name => Ok ("function " ++ name ++ "() { [native code] }")
  | _ => Ok ""
  end.

Definition address (u : url) : string :=
  page u
  ++ match query u with
     | [] => ""
     | q => "?" ++ join "&" (map (fun kv => fst kv ++ "=" ++ snd kv) q)
     end
  ++ fragment u.

#[export] Instance browser : Platform := {|
  JSON_parse := parse;
  JSON_stringify := stringify;
  finite_toString := digits;
  object_toString := text_of;
  toLocaleDateString := fun v => match v with Str s => s | _ => "Invalid Date" end;
  toISOString := fun t => pretty t;
  href := address;
  engine_message := fun e =>
    match e with
    | Error m => m
    | TypeError d => d
    | SyntaxError d => "The string did not match the expected pattern."
    end;
  is_url := fun a => negb (String.eqb a "") && negb (existsb (Ascii.eqb " ") (list_ascii_of_string a))
|}.

End Reference.

(** * The pages the functions leave

    The worlds, predicates and example pages in which the theorems below
    are stated. *)

Local Open Scope list_scope.

Section Outcomes.
Context `{Platform}.

(** The page after [showPaymentMessage type message]. *)
Definition message_shown (type message : string) (w : world) : world :=
  match document w !! "paymentMessage" with
  | Some _ =>
      add_task (Timeout HideMessage 5000)
        (set_document
           (alter (set_display "block") "paymentMessage"
              (alter (set_className ("payment-message " +:+ type)) "paymentMessage"
                 (alter (set_textContent message) "paymentMessage" (document w))))
           w)
  | None => w
  end.

(** The message region exists and displays [message] in style [type]. *)
Definition shows (w : world) (type message : string) : Prop :=
  exists el, document w !! "paymentMessage" = Some el
             /\ textContent el = message
             /\ className el = "payment-message " +:+ type
             /\ display el = "block".

(** [document.getElementById(id)] on the page [w] *)
Definition handle (w : world) (id : string) : option string :=
  match document w !! id with Some _ => Some id | None => None end.

Definition restyle (id : string) (f : element -> element) (w : world) : world :=
  set_document (alter f id (document w)) w.

Definition processing_shown (isProcessing : bool) (w : world) : world :=
  restyle "paymentSuccess" (set_display "none")
    (restyle "paymentForm" (set_display (if isProcessing then "none" else "block"))
       (restyle "paymentProcessing"
          (set_display (if isProcessing then "block" else "none")) w)).

(** The codec writes the array [l] as a text that is not empty and that
    reads back as [l]. *)
Definition stable (l : list js) : Prop :=
  JSON_stringify (Arr l) <> "" /\ JSON_parse (JSON_stringify (Arr l)) = Some (Arr l).

Definition set_now (t : Z) (w : world) : world :=
  mk_world (document w) (checked w) (localStorage w) (location w) (navigation w)
           (tasks w) t.

(** Payments saved one after the other, the clock reading [t] when
    payment [p] of a pair [(p, t)] is saved. *)
Fixpoint save_each (ps : list (js * Z)) : M unit :=
  match ps with
  | [] => mret tt
  | (p, t) :: rest => write (set_now t);; savePaymentToHistory p;; save_each rest
  end.

Definition records (ps : list (js * Z)) : list js :=
  map (fun pt => stamped (fst pt) (snd pt)) ps.

(** The page after [savePaymentToHistory payment] on a log holding [h]. *)
Definition saved (payment : js) (h : list js) (w : world) : world :=
  set_localStorage
    (<[historyKey := JSON_stringify (Arr (h ++ [stamped payment (now w)]))]> (localStorage w))
    w.

(** The specification's names for the three messages with which the
    handler turns a submission down. *)
Inductive ValidationError := InvalidAmount | MissingMethod | MissingEmail.

Definition error_text (e : ValidationError) : string :=
  match e with
  | InvalidAmount => "Sila masukkan jumlah pembayaran yang sah."
  | MissingMethod => "Sila pilih kaedah pembayaran."
  | MissingEmail => "Sila masukkan alamat emel."
  end.

(** [document.getElementById(id)?.value] on the page [w] *)
Definition field (w : world) (id : string) : option string :=
  value <$> document w !! id.

(** The first test of the handlers passes the amount [a]. *)
Definition amount_passes (a : string) : bool :=
  negb (String.eqb a "" || Number.leb (parseFloat a) Number.zero).

(** The page after a submission was turned down with [e]. *)
Definition rejected (e : ValidationError) (w : world) : world :=
  message_shown "error" (error_text e) w.

(** What the handler sends or schedules for a submission it accepts. *)
Definition started (this : SecurePayService) (a m : string)
    (name phone : option string) (email : string) (w : world) : task :=
  if isTestMode this then Timeout (Simulate a m) 2000
  else Fetch (mk_request (apiEndpoint this +:+ "/v1/payments") "POST"
                [ ("Content-Type", "application/json");
                  ("Authorization", "Bearer " +:+ apiKey this);
                  ("X-Merchant-ID", merchantId this) ]
                (Some (JSON_stringify
                         (Payment.payload a m name phone email (now w) (href (location w))))))
             SessionCreated.

(** The page after a submission was accepted. *)
Definition submitted (this : SecurePayService) (a m : string)
    (name phone : option string) (email : string) (w : world) : world :=
  add_task (started this a m name phone email w) (processing_shown true w).

(** The page after the demo handler accepted a submission. *)
Definition demo_submitted (a m : string) (w : world) : world :=
  add_task (Timeout (DemoSimulate a m) 2000) (processing_shown true w).

(** The four codes of the table. *)
Definition supported : list string := ["fpx"; "card"; "wallet"; "qr"].

(** The page after a live submission failed with the message [text]. *)
Definition failed (text : string) (w : world) : world :=
  processing_shown false (message_shown "error" ("Pembayaran gagal: " +:+ text) w).

Definition network_error : string := "Network error when connecting to payment gateway".

(** The status lookup for the payment [id]. *)
Definition status_request (this : SecurePayService) (id : string) : request :=
  mk_request (apiEndpoint this +:+ "/v1/payments/" +:+ id) "GET"
    [ ("Authorization", "Bearer " +:+ apiKey this); ("X-Merchant-ID", merchantId this) ]
    None.

(** [result.success && result.status === 'paid'] holds of the answer. *)
Definition paid (r : fetched) : bool :=
  match r with
  | Body result =>
      match get_prop result "success", get_prop result "status" with
      | Ok success, Ok status => truthy success && is_string status "paid"
      | _, _ => false
      end
  | _ => false
  end.

(** The text that [showPaymentComplete] puts in the details region. *)
Definition summary (paymentResult : js) : outcome string :=
  date ← get_prop paymentResult "date";
  formattedDate ← formatDate date;
  Payment.details paymentResult formattedDate.

(** The page after [showPaymentComplete paymentResult] with a success
    region and a details region, on a log holding [h]. *)
Definition completed (paymentResult : js) (html : string) (h : list js) (w : world)
  : world :=
  saved paymentResult h
    (restyle "paymentDetails" (set_innerHTML html)
       (restyle "paymentSuccess" (set_display "block")
          (restyle "paymentForm" (set_display "none")
             (restyle "paymentProcessing" (set_display "none") w)))).

Definition verification_failed : string :=
  "Pengesahan pembayaran gagal. Sila hubungi pihak pentadbir.".

(** The page after [checkPaymentStatusFromUrl] found a cancelled payment. *)
Definition cancelled (w : world) : world :=
  set_location (Payment.strip_status (location w))
               (message_shown "info" "Pembayaran dibatalkan." w).

End Outcomes.

(** ** Pages to run the model on *)

Module Pages.
#[local] Existing Instance Reference.browser.

Definition blank : element := mk_element "" "" "" "" "".
Definition input (v : string) : element := mk_element v "" "" "" "".

(** The payment page with [amount] typed in, [email] (when there is an
    e-mail field) typed in, [method] checked, and query [q]. *)
Definition page (amount : string) (email : option string) (method : option string)
    (q : list (string * string)) : world :=
  mk_world
    (let common : gmap string element :=
       <["paymentForm" := blank]> (<["paymentAmount" := input amount]>
       (<["customerName" := blank]> (<["customerPhone" := blank]>
       (<["paymentProcessing" := blank]> (<["paymentSuccess" := blank]>
       (<["paymentDetails" := blank]> (<["paymentMessage" := blank]> ∅))))))) in
     match email with
     | Some e => <["customerEmail" := input e]> common
     | None => common
     end)
    method ∅ (mk_url "https://zakatnow.example/kalkulator" q "") None [] 1700000000000.

Definition test : SecurePayService := Payment.constructor "sp_test_yourApiKey" "M12345678".
Definition live : SecurePayService :=
  mk_service "sp_test_yourApiKey" "M12345678" "https://api.securepay.my" false.

Definition non_numeric : world := page "abc" (Some "a@b.com") (Some "card") [].
Definition no_email : world := page "150.00" None (Some "card") [].
Definition empty_email : world := page "150.00" (Some "") (Some "card") [].
Definition card_150 : world := page "150.00" (Some "a@b.com") (Some "card") [].
Definition no_method_code : world := page "150.00" (Some "a@b.com") (Some "") [].
Definition other_code : world := page "150.00" (Some "a@b.com") (Some "cash") [].
End Pages.

(** ** Answers of the gateway to a submission *)

Module GatewayExample.
Definition checkout : js :=
  Obj [("success", Bool true); ("checkout_url", Str "https://gw/x")].
Definition declined : js :=
  Obj [("success", Bool false); ("message", Str "Card declined")].
End GatewayExample.

(** ** Pages the gateway sends the visitor back to *)

Module Return.
Definition completed_with_id : world :=
  Pages.page "" (Some "") None
    [("lang", "ms"); ("payment_status", "completed"); ("payment_id", "PAY123")].
Definition completed_bare : world :=
  Pages.page "" (Some "") None [("payment_status", "completed")].
Definition completed_empty_id : world :=
  Pages.page "" (Some "") None [("payment_status", "completed"); ("payment_id", "")].
Definition cancelled_page : world :=
  Pages.page "" (Some "") None [("payment_status", "cancelled"); ("lang", "ms")].

Definition paid_answer : js :=
  Obj [ ("success", Bool true); ("status", Str "paid"); ("id", Str "PAY123");
        ("amount", Str "150.00"); ("method", Str "fpx"); ("date", Str "1 Mei 2024") ].
Definition pending_answer : js :=
  Obj [ ("success", Bool true); ("status", Str "pending"); ("id", Str "PAY123") ].

Definition paid_html : string :=
  Eval vm_compute in
    match summary (H := Reference.browser) paid_answer with
    | Ok html => html
    | Throw _ => ""
    end.

Definition first_payment : js :=
  Obj [ ("status", Str "success"); ("transaction_id", Str "SPM123456");
        ("amount", Str "150.00"); ("method", Str "card");
        ("date", Str "2023-11-14T22:13:20.000Z") ].
End Return.

(** ** Parts of the page that a function leaves alone *)

Section Frames.
Context `{Platform}.

(** [m] leaves the part [f] of the page as it found it, whether it
    returns or throws. *)
Definition preserves {A B} (f : world -> B) (m : M A) : Prop :=
  forall w, f (snd (m w)) = f w.

(** The requests among the pending tasks, oldest first. *)
Fixpoint sent (ts : list task) : list request :=
  match ts with
  | Fetch req _ :: rest => req :: sent rest
  | Timeout _ _ :: rest => sent rest
  | [] => []
  end.

Definition requests (w : world) : list request := sent (tasks w).

(** The values typed in the fields of the page. *)
Definition values (w : world) : gmap string string := value <$> document w.

(** The summary of part_000, as [summary] is the one of payment.js. *)
Definition demo_summary (paymentResult : js) : outcome string :=
  date ← get_prop paymentResult "date";
  formattedDate ← formatDate date;
  Demo.details paymentResult formattedDate.

(** The page after [showPaymentComplete] of either file hid the indicator
    and the form. *)
Definition regions_hidden (w : world) : world :=
  restyle "paymentForm" (set_display "none")
    (restyle "paymentProcessing" (set_display "none") w).

(** The record that the inner timer of the test mode shows and saves. *)
Definition simulated (paymentAmount paymentMethod : string) (r : number) (t : Z) : js :=
  Obj [ ("status", Str "success");
        ("transaction_id",
         Str ("SPM" +:+ Number.toString finite_toString
                          (Number.floor (Number.mul r (Number.of_Z 1000000)))));
        ("amount", Str paymentAmount);
        ("method", Str paymentMethod);
        ("date", Str (toISOString t)) ].

(** The record that the timer of part_000 shows and saves. *)
Definition demo_simulated (paymentAmount paymentMethod : string) (r' : number) (t : Z) : js :=
  Obj [ ("status", Str "success");
        ("transactionId",
         Str ("TRX" +:+ Number.toString finite_toString
                          (Number.floor (Number.mul r' (Number.of_Z 1000000)))));
        ("amount", Str paymentAmount);
        ("method", Str paymentMethod);
        ("date", Str (toISOString t)) ].

(** The page after the pay button filled in [amount] and opened the modal. *)
Definition prefilled (amount : string) (w : world) : world :=
  restyle "paymentModal" (set_display "block")
    (restyle "paymentAmount" (Listeners.set_value (Listeners.remove_commas amount)) w).

(** [zakatAmount] of the click on the pay button: the amount found in
    the result region, [None] when there is no region or no amount. *)
Definition zakatAmount (w : world) : option string :=
  filled (match document w !! "zakatResult" with
          | Some zakatResult => Listeners.search (textContent zakatResult)
          | None => None
          end).

(** No character of [s] is [c]. *)
Fixpoint without (c : ascii) (s : string) : bool :=
  match s with
  | String x r => negb (Ascii.eqb x c) && without c r
  | EmptyString => true
  end.

(** Every character of [s] satisfies [p]. *)
Fixpoint all_chars (p : ascii -> bool) (s : string) : bool :=
  match s with
  | String c r => p c && all_chars p r
  | EmptyString => true
  end.

End Frames.

(** A part of the page that does not depend on the document, on the
    pending timers, on the storage, on the location. *)
Class OffDocument {B} (f : world -> B) : Prop :=
  off_document : forall d w, f (set_document d w) = f w.
Class OffTimers {B} (f : world -> B) : Prop :=
  off_timers : forall cb ms w, f (add_task (Timeout cb ms) w) = f w.
Class OffStorage {B} (f : world -> B) : Prop :=
  off_storage : forall st w, f (set_localStorage st w) = f w.
Class OffLocation {B} (f : world -> B) : Prop :=
  off_location : forall u w, f (set_location u w) = f w.

(** ** More pages *)

Module Calculator.
Definition result (text : string) : element := mk_element "" "" text "" "".

(** The calculator page showing [text] as its result, with the payment
    form and its modal. *)
Definition page (text : string) : world :=
  mk_world
    (<["zakatResult" := result text]> (<["paymentModal" := Pages.blank]>
       (document (Pages.page "" (Some "") None []))))
    None ∅ (mk_url "https://zakatnow.example/kalkulator" [] "") None [] 1700000000000.

Definition with_result : world := page "Zakat anda: RM 1,234.56 setahun".
Definition without_result : world := page "Sila isi pendapatan anda.".

(** the payment page without its success region, without its details
    region, and with a log that is not an array *)
Definition drop (id : string) (w : world) : world :=
  set_document (delete id (document w)) w.
Definition store (text : string) (w : world) : world :=
  set_localStorage (<[historyKey := text]> (localStorage w)) w.
End Calculator.

(** * Theorems *)

(** ** What the helpers do to the page *)

Section Effects.
Context `{Platform}.

Lemma showPaymentMessage_run type message w :
  showPaymentMessage type message w = (Ok tt, message_shown type message w).
Proof.
  unfold showPaymentMessage, message_shown, getElementById, read, mbind, M_bind.
  destruct (document w !! "paymentMessage") as [el|] eqn:E; reflexivity.
Qed.
End Effects.

Section Running.
Context `{Platform}.

Lemma bind_ok {A B} (m : M A) (f : A -> M B) w a w' :
  m w = (Ok a, w') -> (m ≫= f) w = f a w'.
Proof. intros E. unfold mbind, M_bind. rewrite E. reflexivity. Qed.

Lemma bind_throw {A B} (m : M A) (f : A -> M B) w e w' :
  m w = (Throw e, w') -> (m ≫= f) w = (Throw e, w').
Proof. intros E. unfold mbind, M_bind. rewrite E. reflexivity. Qed.

Lemma set_document_same w : set_document (document w) w = w.
Proof. destruct w; reflexivity. Qed.

(** A guarded update is an update of the element when there is one. *)
Lemma when_update w0 w id f :
  (document w0 !! id = None -> document w !! id = None) ->
  when (present (handle w0 id)) (update (handle w0 id) f) w = (Ok tt, restyle id f w).
Proof.
  intros Hsame. unfold handle, restyle.
  destruct (document w0 !! id) as [el|] eqn:E0; simpl; [reflexivity|].
  rewrite alter_id' by (apply Hsame; reflexivity).
  rewrite set_document_same. reflexivity.
Qed.

Lemma showPaymentProcessing_run isProcessing w :
  showPaymentProcessing isProcessing w = (Ok tt, processing_shown isProcessing w).
Proof.
  unfold showPaymentProcessing, processing_shown, getElementById, read.
  repeat (erewrite bind_ok by reflexivity).
  fold (handle w "paymentProcessing") (handle w "paymentForm") (handle w "paymentSuccess").
  erewrite bind_ok by (apply when_update; auto).
  erewrite bind_ok.
  2:{ apply when_update. unfold restyle; simpl. intros E.
      rewrite lookup_alter_ne by done. exact E. }
  apply when_update. unfold restyle; simpl. intros E.
  rewrite !lookup_alter_ne by done. exact E.
Qed.
End Running.

(** ** The payment log *)

Section Log.
Context `{Platform}.

Lemma savePaymentToHistory_run payment h w :
  history w = Some h ->
  savePaymentToHistory payment w = (Ok tt, saved payment h w).
Proof.
  unfold history, savePaymentToHistory, getItem_or, parse, read. intros Hh.
  erewrite bind_ok by reflexivity.
  destruct (JSON_parse (default "[]" (filled (localStorage w !! historyKey))))
    as [[]|] eqn:E; try discriminate.
  injection Hh as ->. reflexivity.
Qed.

Lemma filled_text (s : string) : s <> "" -> filled (Some s) = Some s.
Proof. destruct s; [congruence | reflexivity]. Qed.

Lemma history_saved payment h w :
  stable (h ++ [stamped payment (now w)]) ->
  history (saved payment h w) = Some (h ++ [stamped payment (now w)]).
Proof.
  intros [Hne Hback]. unfold history, saved. simpl.
  rewrite lookup_insert_eq, (filled_text _ Hne). simpl. rewrite Hback. reflexivity.
Qed.

Lemma saved_other payment h w key :
  key <> historyKey -> localStorage (saved payment h w) !! key = localStorage w !! key.
Proof. intros Hk. unfold saved. simpl. apply lookup_insert_ne. congruence. Qed.

Lemma save_each_run ps : forall w h,
  history w = Some h ->
  (forall k, (0 < k <= length ps)%nat -> stable (h ++ take k (records ps))) ->
  exists w', save_each ps w = (Ok tt, w')
             /\ history w' = Some (h ++ records ps)
             /\ forall key, key <> historyKey -> localStorage w' !! key = localStorage w !! key.
Proof.
  induction ps as [|[p t] rest IH]; intros w h Hh Hst.
  - exists w. simpl. rewrite app_nil_r. auto.
  - pose proof (Hst 1%nat ltac:(simpl; lia)) as H1. simpl in H1.
    set (w1 := set_now t w).
    assert (Hh1 : history w1 = Some h) by exact Hh.
    destruct (IH (saved p h w1) (h ++ [stamped p t])) as (w' & Hrun & Hlog & Hkeys).
    + apply (history_saved p h w1). exact H1.
    + intros k Hk. rewrite <- app_assoc. apply (Hst (S k)). simpl. lia.
    + exists w'. split; [|split].
      * simpl. unfold write at 1.
        erewrite bind_ok by reflexivity.
        erewrite bind_ok by (apply savePaymentToHistory_run; exact Hh1).
        exact Hrun.
      * rewrite Hlog, <- app_assoc. reflexivity.
      * intros key Hk. rewrite (Hkeys key Hk). apply (saved_other p h w1 key Hk).
Qed.

(** ** C6

    The log only grows: payments saved one after the other on a log
    that holds [h] leave a log that reads back as [h] followed by the
    new records in the order they were saved, each save returns
    normally, and no other storage entry changes; a page with no log
    stored reads as the empty log.  The codec is assumed to read back
    what it writes for the arrays written, and to read the text [[]]
    as the empty array. *)
Theorem savePaymentToHistory_appends (w : world) (h : list js) (ps : list (js * Z)) :
  history w = Some h ->
  (forall k, (0 < k <= length ps)%nat -> stable (h ++ take k (records ps))) ->
  JSON_parse "[]" = Some (Arr []) ->
  (exists w', save_each ps w = (Ok tt, w')
              /\ history w' = Some (h ++ records ps)
              /\ (forall key, key <> historyKey ->
                              localStorage w' !! key = localStorage w !! key))
  /\ (forall payment, stable (h ++ [stamped payment (now w)]) ->
        savePaymentToHistory payment w = (Ok tt, saved payment h w)
        /\ history (saved payment h w) = Some (h ++ [stamped payment (now w)]))
  /\ (localStorage w !! historyKey = None -> h = []).
Proof.
  intros Hh Hst Hempty. split; [|split].
  - apply save_each_run; assumption.
  - intros payment Hp. split.
    + apply savePaymentToHistory_run; exact Hh.
    + apply history_saved; exact Hp.
  - intros Habsent. unfold history in Hh. rewrite Habsent in Hh. simpl in Hh.
    rewrite Hempty in Hh. congruence.
Qed.
End Log.

(** ** Submitting the form (src/scripts/payment.js) *)

Section Submit.
Context `{Platform}.

Lemma value_of_run w id a :
  field w id = Some a -> value_of id w = (Ok a, w).
Proof.
  unfold field, value_of. destruct (document w !! id); simpl; [|discriminate].
  intros [= ->]. reflexivity.
Qed.

(** The handler, case by case. *)
Lemma handlePaymentSubmit_run this w a :
  field w "paymentAmount" = Some a ->
  Payment.handlePaymentSubmit this w =
  (Ok tt,
   if amount_passes a then
     match filled (checked w) with
     | None => rejected MissingMethod w
     | Some m =>
         match filled (field w "customerEmail") with
         | None => rejected MissingEmail w
         | Some email =>
             submitted this a m (field w "customerName") (field w "customerPhone") email w
         end
     end
   else rejected InvalidAmount w).
Proof.
  intros Ha. unfold Payment.handlePaymentSubmit, amount_passes.
  erewrite bind_ok by reflexivity.
  erewrite bind_ok by (apply value_of_run; exact Ha).
  repeat (erewrite bind_ok by reflexivity).
  destruct (String.eqb a "" || Number.leb (parseFloat a) Number.zero); simpl.
  { apply showPaymentMessage_run. }
  destruct (filled (checked w)) as [m|]; [|apply showPaymentMessage_run].
  fold (field w "customerEmail").
  destruct (filled (field w "customerEmail")) as [email|]; [|apply showPaymentMessage_run].
  erewrite bind_ok by apply showPaymentProcessing_run.
  unfold submitted, started, read, Payment.createPaymentSession, fetch, setTimeout, write.
  repeat (erewrite bind_ok by reflexivity).
  destruct (isTestMode this); reflexivity.
Qed.
End Submit.

Section Messages.
Context `{Platform}.

Lemma message_shown_storage type message w :
  localStorage (message_shown type message w) = localStorage w.
Proof. unfold message_shown. destruct (document w !! "paymentMessage"); reflexivity. Qed.

Lemma message_shown_location type message w :
  location (message_shown type message w) = location w.
Proof. unfold message_shown. destruct (document w !! "paymentMessage"); reflexivity. Qed.

Lemma message_shown_navigation type message w :
  navigation (message_shown type message w) = navigation w.
Proof. unfold message_shown. destruct (document w !! "paymentMessage"); reflexivity. Qed.

Lemma message_shown_history type message w :
  history (message_shown type message w) = history w.
Proof. unfold history. rewrite message_shown_storage. reflexivity. Qed.

(** A message adds no request: at most the timer that hides it again. *)
Lemma message_shown_tasks type message w :
  tasks (message_shown type message w) = tasks w
  \/ tasks (message_shown type message w) = tasks w ++ [Timeout HideMessage 5000].
Proof.
  unfold message_shown. destruct (document w !! "paymentMessage"); [right|left]; reflexivity.
Qed.

Lemma message_shown_no_request type message w req cb :
  In (Fetch req cb) (tasks (message_shown type message w)) -> In (Fetch req cb) (tasks w).
Proof.
  destruct (message_shown_tasks type message w) as [-> | ->]; [tauto|].
  rewrite in_app_iff. intros [Hin | [Heq | []]]; [exact Hin | discriminate].
Qed.

Lemma message_shown_shows type message w :
  is_Some (document w !! "paymentMessage") ->
  shows (message_shown type message w) type message.
Proof.
  intros [el Hel]. unfold message_shown, shows. rewrite Hel. simpl.
  rewrite !lookup_alter_eq, Hel. simpl. eexists. split; [reflexivity|]. auto.
Qed.

Lemma processing_shown_document_other isProcessing w id :
  id <> "paymentProcessing" -> id <> "paymentForm" -> id <> "paymentSuccess" ->
  document (processing_shown isProcessing w) !! id = document w !! id.
Proof.
  intros H1 H2 H3. unfold processing_shown, restyle. simpl.
  rewrite !lookup_alter_ne by congruence. reflexivity.
Qed.

Lemma processing_shown_history isProcessing w :
  history (processing_shown isProcessing w) = history w.
Proof. reflexivity. Qed.
End Messages.

Section SubmitClaims.
Context `{Platform}.

(** ** C3

    A submission whose amount passes the first test and whose method is
    selected, but whose e-mail field is missing or empty, is turned down
    with the e-mail message: nothing is sent and, when the page has a
    message region, the region shows the message.  The two tests before
    it come first and in this order: an amount that does not pass gives
    the amount message, and a passing amount without a selected method
    gives the method message, whatever the e-mail field holds. *)
Theorem missing_email_rejected (this : SecurePayService) (w : world) (a m : string) :
  field w "paymentAmount" = Some a ->
  amount_passes a = true ->
  filled (checked w) = Some m ->
  filled (field w "customerEmail") = None ->
  Payment.handlePaymentSubmit this w = (Ok tt, rejected MissingEmail w)
  /\ (forall req cb, In (Fetch req cb) (tasks (rejected MissingEmail w)) ->
                     In (Fetch req cb) (tasks w))
  /\ history (rejected MissingEmail w) = history w
  /\ navigation (rejected MissingEmail w) = navigation w
  /\ (is_Some (document w !! "paymentMessage") ->
      shows (rejected MissingEmail w) "error" "Sila masukkan alamat emel.")
  /\ (forall w' a', field w' "paymentAmount" = Some a' -> amount_passes a' = false ->
        Payment.handlePaymentSubmit this w' = (Ok tt, rejected InvalidAmount w'))
  /\ (forall w' a', field w' "paymentAmount" = Some a' -> amount_passes a' = true ->
        filled (checked w') = None ->
        Payment.handlePaymentSubmit this w' = (Ok tt, rejected MissingMethod w')).
Proof.
  intros Ha Hpass Hm He. repeat split.
  - rewrite (handlePaymentSubmit_run this w a Ha), Hpass, Hm, He. reflexivity.
  - apply message_shown_no_request.
  - apply message_shown_history.
  - apply message_shown_navigation.
  - apply message_shown_shows.
  - intros w' a' Ha' Hfail.
    rewrite (handlePaymentSubmit_run this w' a' Ha'), Hfail. reflexivity.
  - intros w' a' Ha' Hpass' Hm'.
    rewrite (handlePaymentSubmit_run this w' a' Ha'), Hpass', Hm'. reflexivity.
Qed.
End SubmitClaims.

Lemma missing_email_rejected_witness :
  field Pages.no_email "paymentAmount" = Some "150.00"
  /\ filled (field Pages.no_email "customerEmail") = None
  /\ filled (field Pages.empty_email "customerEmail") = None
  /\ Payment.handlePaymentSubmit (H := Reference.browser) Pages.live Pages.no_email
     = (Ok tt, rejected MissingEmail Pages.no_email)
  /\ Payment.handlePaymentSubmit (H := Reference.browser) Pages.live Pages.empty_email
     = (Ok tt, rejected MissingEmail Pages.empty_email).
Proof.
  split; [reflexivity|]. split; [reflexivity|]. split; [reflexivity|]. split.
  - apply (missing_email_rejected (H := Reference.browser) Pages.live Pages.no_email
             "150.00" "card"); reflexivity.
  - apply (missing_email_rejected (H := Reference.browser) Pages.live Pages.empty_email
             "150.00" "card"); reflexivity.
Defined.

(** ** C1

    The amount test lets a text that is not a number through.  On the
    payment page with [abc] typed as amount, the card method checked and
    an e-mail address given, [parseFloat] gives NaN, NaN is not [<= 0],
    and the handler does not show the amount message: in test mode it
    schedules the simulated payment, in live mode it sends the request,
    and the amount of the payload is the text [NaN]. *)
Theorem non_numeric_amount_accepted :
  parseFloat "abc" = Number.NaN
  /\ amount_passes "abc" = true
  /\ Payment.handlePaymentSubmit (H := Reference.browser) Pages.test Pages.non_numeric
     = (Ok tt, submitted (H := Reference.browser) Pages.test "abc" "card"
                 (Some "") (Some "") "a@b.com" Pages.non_numeric)
  /\ Payment.handlePaymentSubmit (H := Reference.browser) Pages.live Pages.non_numeric
     = (Ok tt, submitted (H := Reference.browser) Pages.live "abc" "card"
                 (Some "") (Some "") "a@b.com" Pages.non_numeric)
  /\ Payment.handlePaymentSubmit (H := Reference.browser) Pages.live Pages.non_numeric
     <> (Ok tt, rejected InvalidAmount Pages.non_numeric)
  /\ tasks (submitted (H := Reference.browser) Pages.test "abc" "card"
              (Some "") (Some "") "a@b.com" Pages.non_numeric)
     = [Timeout (Simulate "abc" "card") 2000]
  /\ get_prop (Payment.payload (H := Reference.browser) "abc" "card" (Some "") (Some "")
                 "a@b.com" 1700000000000 "https://zakatnow.example/kalkulator") "amount"
     = Ok (Str "NaN").
Proof.
  split; [reflexivity|]. split; [reflexivity|].
  assert (Hlive : Payment.handlePaymentSubmit (H := Reference.browser) Pages.live
                    Pages.non_numeric
                  = (Ok tt, submitted (H := Reference.browser) Pages.live "abc" "card"
                              (Some "") (Some "") "a@b.com" Pages.non_numeric)).
  { rewrite (handlePaymentSubmit_run (H := Reference.browser) Pages.live
               Pages.non_numeric "abc" eq_refl). reflexivity. }
  split; [|split; [exact Hlive|split; [|split; reflexivity]]].
  - rewrite (handlePaymentSubmit_run (H := Reference.browser) Pages.test
               Pages.non_numeric "abc" eq_refl). reflexivity.
  - rewrite Hlive. intros E.
    apply (f_equal (fun p => tasks (snd p))) in E. vm_compute in E. discriminate.
Qed.

Section Amounts.
Context `{Platform}.

(** An empty amount, and an amount that reads as a number [<= 0], are
    turned down with the amount message. *)
Lemma invalid_amount_rejected this w a :
  field w "paymentAmount" = Some a ->
  a = "" \/ Number.leb (parseFloat a) Number.zero = true ->
  Payment.handlePaymentSubmit this w = (Ok tt, rejected InvalidAmount w).
Proof.
  intros Ha Hbad. rewrite (handlePaymentSubmit_run this w a Ha).
  unfold amount_passes. destruct Hbad as [-> | ->]; [reflexivity|].
  rewrite orb_true_r. reflexivity.
Qed.

(** The amount of the payload is the amount read and printed with two
    decimals. *)
Lemma payload_amount a m name phone email t here :
  get_prop (Payment.payload a m name phone email t here) "amount"
  = Ok (Str (toFixed (parseFloat a))).
Proof. reflexivity. Qed.

Lemma payload_method a m name phone email t here :
  get_prop (Payment.payload a m name phone email t here) "payment"
  = Ok (Obj [("method", Payment.mapPaymentMethod m)]).
Proof. reflexivity. Qed.
End Amounts.

(** Below [10^21] the two decimals printed are those of the nearest
    hundredth: [n = hundredths m e] is within half a hundredth of
    [m * 2^e], that is [|100 * m * 2^e - n| <= 1/2]. *)
Lemma hundredths_nearest (m : positive) (e : Z) :
  let n := Number.hundredths m e in
  if 0 <=? e then n = Z.pos m * 2 ^ e * 100
  else 2 * n * 2 ^ (- e) <= 2 * (Z.pos m * 100) + 2 ^ (- e)
       /\ 2 * (Z.pos m * 100) - 2 ^ (- e) < 2 * n * 2 ^ (- e).
Proof.
  unfold Number.hundredths. destruct (0 <=? e) eqn:E; [reflexivity|].
  apply Z.leb_gt in E.
  assert (Hpow : 0 < 2 ^ (- e)) by (apply Z.pow_pos_nonneg; lia).
  replace (2 ^ (- e + 1)) with (2 * 2 ^ (- e)) by (rewrite Z.pow_add_r by lia; lia).
  set (d := 2 ^ (- e)) in *.
  pose proof (Z.div_mod (Z.pos m * 200 + d) (2 * d) ltac:(lia)) as Hdm.
  pose proof (Z.mod_pos_bound (Z.pos m * 200 + d) (2 * d) ltac:(lia)) as Hb.
  set (q := (Z.pos m * 200 + d) / (2 * d)) in *. nia.
Qed.

(** The inner timer of the test mode on the page with 150.00 and the card
    method: the summary is rendered and the log holds the one record. *)
Example simulated_payment_recorded :
  let w := snd (Payment.simulateComplete (H := Reference.browser) "150.00" "card"
                  (parseFloat "0.5") Pages.card_150) in
  history (H := Reference.browser) w
  = Some [ Obj [ ("status", Str "success"); ("transaction_id", Str "SPM500000");
                 ("amount", Str "150.00"); ("method", Str "card");
                 ("date", Str "1700000000000");
                 ("timestamp", Num (Number.of_Z 1700000000000)) ] ]
  /\ display <$> document w !! "paymentSuccess" = Some "block".
Proof. vm_compute. split; reflexivity. Qed.

Example toFixed_examples :
  map (fun a => toFixed (H := Reference.browser) (parseFloat a))
      ["150.00"; "150"; "0.005"; "1.005"; "2.5"; "10.235"; "7"; "abc"; "Infinity"]
  = ["150.00"; "150.00"; "0.01"; "1.00"; "2.50"; "10.23"; "7.00"; "NaN"; "Infinity"].
Proof. vm_compute. reflexivity. Qed.

Example amount_test_examples :
  map amount_passes ["150.00"; ""; "0"; "-5"; "0.00"; "-0"; "abc"; " "; "12abc"; "1e-400"]
  = [true; false; false; false; false; false; true; true; true; false].
Proof. vm_compute. reflexivity. Qed.

(** ** Submitting the form (src/unnamed/part_000) *)

Section DemoSubmit.
Context `{Platform}.

Lemma demo_handlePaymentSubmit_run this w a :
  field w "paymentAmount" = Some a ->
  Demo.handlePaymentSubmit this w =
  (Ok tt,
   if amount_passes a then
     match filled (checked w) with
     | None => rejected MissingMethod w
     | Some m => demo_submitted a m w
     end
   else rejected InvalidAmount w).
Proof.
  intros Ha. unfold Demo.handlePaymentSubmit, amount_passes.
  erewrite bind_ok by reflexivity.
  erewrite bind_ok by (apply value_of_run; exact Ha).
  erewrite bind_ok by reflexivity.
  destruct (String.eqb a "" || Number.leb (parseFloat a) Number.zero); simpl.
  { apply showPaymentMessage_run. }
  destruct (filled (checked w)) as [m|]; [|apply showPaymentMessage_run].
  erewrite bind_ok by apply showPaymentProcessing_run. reflexivity.
Qed.

(** ** C9

    The handler of part_000 has no e-mail test: a submission whose
    amount passes and whose method is selected is accepted although the
    e-mail field is missing or empty.  The processing indicator is put
    up, the simulated payment is scheduled, and the page is not the one
    that the e-mail message would leave; the handler of payment.js
    turns the same page down. *)
Theorem demo_accepts_without_email (this : SecurePayService) (w : world) (a m : string) :
  field w "paymentAmount" = Some a ->
  amount_passes a = true ->
  filled (checked w) = Some m ->
  filled (field w "customerEmail") = None ->
  Demo.handlePaymentSubmit this w = (Ok tt, demo_submitted a m w)
  /\ tasks (demo_submitted a m w) = tasks w ++ [Timeout (DemoSimulate a m) 2000]
  /\ (forall el, document w !! "paymentProcessing" = Some el ->
        display <$> document (demo_submitted a m w) !! "paymentProcessing" = Some "block")
  /\ demo_submitted a m w <> rejected MissingEmail w
  /\ Payment.handlePaymentSubmit this w = (Ok tt, rejected MissingEmail w).
Proof.
  intros Ha Hpass Hm He. repeat split.
  - rewrite (demo_handlePaymentSubmit_run this w a Ha), Hpass, Hm. reflexivity.
  - intros el Hel. unfold demo_submitted, processing_shown, restyle. simpl.
    rewrite !lookup_alter_ne by done. rewrite lookup_alter_eq, Hel. reflexivity.
  - intros E. apply (f_equal tasks) in E. unfold demo_submitted in E. simpl in E.
    destruct (message_shown_tasks "error" (error_text MissingEmail) w) as [Ht | Ht];
      unfold rejected in E; rewrite Ht in E.
    + apply (f_equal (@length task)) in E. rewrite length_app in E. simpl in E. lia.
    + apply app_inv_head in E. discriminate.
  - rewrite (handlePaymentSubmit_run this w a Ha), Hpass, Hm, He. reflexivity.
Qed.
End DemoSubmit.

Lemma demo_accepts_without_email_witness :
  filled (field Pages.no_email "customerEmail") = None
  /\ Demo.handlePaymentSubmit
       (Demo.constructor "YOUR_API_KEY" "YOUR_MERCHANT_ID") Pages.no_email
     = (Ok tt, demo_submitted "150.00" "card" Pages.no_email)
  /\ Demo.handlePaymentSubmit
       (Demo.constructor "YOUR_API_KEY" "YOUR_MERCHANT_ID") Pages.empty_email
     = (Ok tt, demo_submitted "150.00" "card" Pages.empty_email).
Proof.
  split; [reflexivity|]. split.
  - apply (demo_accepts_without_email (H := Reference.browser)
             (Demo.constructor "YOUR_API_KEY" "YOUR_MERCHANT_ID") Pages.no_email
             "150.00" "card"); reflexivity.
  - apply (demo_accepts_without_email (H := Reference.browser)
             (Demo.constructor "YOUR_API_KEY" "YOUR_MERCHANT_ID") Pages.empty_email
             "150.00" "card"); reflexivity.
Defined.

(** ** The method table *)

Lemma own_methodMapping code :
  ~ In code supported -> own Payment.methodMapping code = None.
Proof.
  intros Hout. unfold Payment.methodMapping. cbn [own].
  repeat match goal with
         | |- context [String.eqb ?k code] =>
             destruct (String.eqb_spec k code) as [E | _];
             [exfalso; apply Hout; rewrite <- E; simpl; tauto|]
         end.
  reflexivity.
Qed.

Lemma inherited_outside key :
  ~ In key object_prototype -> inherited key = Undefined.
Proof.
  intros Hout. unfold inherited.
  destruct (existsb (String.eqb key) object_prototype) eqn:E; [|reflexivity].
  apply existsb_exists in E. destruct E as (k & Hin & Heq).
  apply String.eqb_eq in Heq. subst k. contradiction.
Qed.

(** The translation falls back on [fpx] for a code that the table does
    not have, unless an object inherits a property of that name. *)
Lemma mapPaymentMethod_default code :
  ~ In code supported -> ~ In code object_prototype ->
  Payment.mapPaymentMethod code = Str "fpx".
Proof.
  intros Hs Hp. unfold Payment.mapPaymentMethod, lookup_prop.
  rewrite (own_methodMapping code Hs), (inherited_outside code Hp). reflexivity.
Qed.

(** Against C4 as first stated, for every code outside the table.  For a
    name that every object inherits, the table lookup finds the
    inherited property, which is truthy, and the fallback is not taken;
    and a checked method with an empty code is turned down as a missing
    method.  So not every code outside the table is translated to
    [fpx] by an accepted submission. *)
Lemma mapPaymentMethod_inherited_name :
  ~ In "constructor" supported
  /\ Payment.mapPaymentMethod "constructor" = Builtin "constructor"
  /\ ~ (forall code, ~ In code supported -> Payment.mapPaymentMethod code = Str "fpx")
  /\ ~ In "" supported
  /\ Payment.handlePaymentSubmit (H := Reference.browser) Pages.live Pages.no_method_code
     = (Ok tt, rejected MissingMethod Pages.no_method_code).
Proof.
  assert (Hout : ~ In "constructor" supported).
  { simpl. intros [E|[E|[E|[E|[]]]]]; discriminate. }
  split; [exact Hout|]. split; [reflexivity|]. split; [|split].
  - intros Hall. specialize (Hall "constructor" Hout). discriminate.
  - simpl. intros [E|[E|[E|[E|[]]]]]; discriminate.
  - rewrite (handlePaymentSubmit_run (H := Reference.browser) Pages.live
               Pages.no_method_code "150.00" eq_refl). reflexivity.
Qed.

Section Methods.
Context `{Platform}.

(** ** C4

    The translation maps [fpx] to [fpx], [card] to [card], [wallet] to
    [boost] and [qr] to [duitnow_qr].  For every other code that is not
    the name of a property objects inherit it gives [fpx], and a
    submission with such a code, when the code is not empty and the
    amount and e-mail tests pass, is accepted with [fpx] as the method
    of the payload. *)
Theorem mapPaymentMethod_table (this : SecurePayService) (w : world)
    (a code email : string) :
  ~ In code supported ->
  ~ In code object_prototype ->
  code <> "" ->
  field w "paymentAmount" = Some a ->
  amount_passes a = true ->
  checked w = Some code ->
  filled (field w "customerEmail") = Some email ->
  Payment.mapPaymentMethod "fpx" = Str "fpx"
  /\ Payment.mapPaymentMethod "card" = Str "card"
  /\ Payment.mapPaymentMethod "wallet" = Str "boost"
  /\ Payment.mapPaymentMethod "qr" = Str "duitnow_qr"
  /\ Payment.mapPaymentMethod code = Str "fpx"
  /\ Payment.handlePaymentSubmit this w
     = (Ok tt, submitted this a code (field w "customerName") (field w "customerPhone")
                 email w)
  /\ get_prop (Payment.payload a code (field w "customerName") (field w "customerPhone")
                 email (now w) (href (location w))) "payment"
     = Ok (Obj [("method", Str "fpx")]).
Proof.
  intros Hs Hp Hne Ha Hpass Hc He.
  pose proof (mapPaymentMethod_default code Hs Hp) as Hmap.
  repeat split; try reflexivity; try exact Hmap.
  - rewrite (handlePaymentSubmit_run this w a Ha), Hpass, Hc, He.
    rewrite (filled_text code Hne). reflexivity.
  - rewrite payload_method, Hmap. reflexivity.
Qed.
End Methods.

Lemma mapPaymentMethod_table_witness :
  ~ In "cash" supported
  /\ ~ In "cash" object_prototype
  /\ Payment.mapPaymentMethod "cash" = Str "fpx"
  /\ Payment.handlePaymentSubmit (H := Reference.browser) Pages.live Pages.other_code
     = (Ok tt, submitted (H := Reference.browser) Pages.live "150.00" "cash"
                 (Some "") (Some "") "a@b.com" Pages.other_code).
Proof.
  assert (Hs : ~ In "cash" supported).
  { simpl. intros [E|[E|[E|[E|[]]]]]; discriminate. }
  assert (Hp : ~ In "cash" object_prototype).
  { simpl. intuition discriminate. }
  split; [exact Hs|]. split; [exact Hp|].
  pose proof (mapPaymentMethod_table (H := Reference.browser) Pages.live Pages.other_code
                "150.00" "cash" "a@b.com" Hs Hp ltac:(discriminate) eq_refl eq_refl eq_refl
                eq_refl) as (_ & _ & _ & _ & Hmap & Hrun & _).
  split; [exact Hmap | exact Hrun].
Defined.

(** ** The answer of the gateway to a live submission *)

Section Session.
Context `{Platform}.

Lemma failure_handled text w :
  (showPaymentMessage "error" ("Pembayaran gagal: " +:+ text);;
   showPaymentProcessing false) w = (Ok tt, failed text w).
Proof.
  erewrite bind_ok by apply showPaymentMessage_run. apply showPaymentProcessing_run.
Qed.

Lemma catch_ok {A} (m : M A) h w a w' : m w = (Ok a, w') -> catch m h w = (Ok a, w').
Proof. intros E. unfold catch. rewrite E. reflexivity. Qed.

Lemma catch_throw {A} (m : M A) h w e w' : m w = (Throw e, w') -> catch m h w = h e w'.
Proof. intros E. unfold catch. rewrite E. reflexivity. Qed.

Lemma lift_ok {A} (o : outcome A) (a : A) w : o = Ok a -> lift o w = (Ok a, w).
Proof. intros ->. reflexivity. Qed.

Lemma sessionCreated_redirects response s c target w :
  get_prop response "success" = Ok s -> truthy s = true ->
  get_prop response "checkout_url" = Ok c -> truthy c = true ->
  ToString c = Ok target -> is_url target = true ->
  Payment.sessionCreated (Body response) w = (Ok tt, set_navigation target w).
Proof.
  intros Hs Ts Hc Tc Ht Hu. unfold Payment.sessionCreated. apply catch_ok.
  erewrite bind_ok by reflexivity.
  erewrite bind_ok by (apply lift_ok; exact Hs).
  rewrite Ts.
  erewrite bind_ok by (apply lift_ok; exact Hc).
  rewrite Tc.
  erewrite bind_ok by (apply lift_ok; exact Hc).
  erewrite bind_ok by (apply lift_ok; exact Ht).
  unfold Payment.assign_href. rewrite Hu. reflexivity.
Qed.

Lemma sessionCreated_refused response s both m text w :
  get_prop response "success" = Ok s ->
  (if truthy s then get_prop response "checkout_url" else Ok s) = Ok both ->
  truthy both = false ->
  get_prop response "message" = Ok m ->
  ToString (or_else m (Str "Payment creation failed")) = Ok text ->
  Payment.sessionCreated (Body response) w = (Ok tt, failed text w).
Proof.
  intros Hs Hb Tb Hm Ht. unfold Payment.sessionCreated.
  eapply eq_trans; [eapply catch_throw|].
  { erewrite bind_ok by reflexivity.
    erewrite bind_ok by (apply lift_ok; exact Hs).
    erewrite bind_ok by (apply lift_ok; exact Hb).
    rewrite Tb.
    erewrite bind_ok by (apply lift_ok; exact Hm).
    erewrite bind_ok by (apply lift_ok; exact Ht).
    reflexivity. }
  apply (failure_handled text w).
Qed.

Lemma sessionCreated_unreachable r w :
  r = NetworkFailure \/ r = NotJson ->
  Payment.sessionCreated r w = (Ok tt, failed network_error w).
Proof.
  intros [-> | ->]; unfold Payment.sessionCreated;
    (eapply eq_trans; [eapply catch_throw; reflexivity|]); apply (failure_handled _ w).
Qed.

Lemma failed_shows text w :
  is_Some (document w !! "paymentMessage") ->
  shows (failed text w) "error" ("Pembayaran gagal: " +:+ text).
Proof.
  intros Hel. destruct (message_shown_shows "error" ("Pembayaran gagal: " +:+ text) w Hel)
    as (el & Hlook & Hshown).
  exists el. split; [|exact Hshown]. unfold failed.
  rewrite processing_shown_document_other by done. exact Hlook.
Qed.

Lemma failed_frame text w :
  history (failed text w) = history w
  /\ navigation (failed text w) = navigation w
  /\ location (failed text w) = location w.
Proof.
  unfold failed. repeat split.
  - rewrite processing_shown_history. apply message_shown_history.
  - simpl. apply message_shown_navigation.
  - simpl. apply message_shown_location.
Qed.

(** After a failure the form is displayed again and the indicator is
    taken down. *)
Lemma failed_form text w el :
  document w !! "paymentForm" = Some el ->
  display <$> document (failed text w) !! "paymentForm" = Some "block".
Proof.
  intros Hel. unfold failed, processing_shown, restyle. simpl.
  rewrite lookup_alter_ne by done. rewrite lookup_alter_eq.
  rewrite lookup_alter_ne by done.
  assert (Hsame : document (message_shown "error" ("Pembayaran gagal: " +:+ text) w)
                  !! "paymentForm" = Some el).
  { unfold message_shown. destruct (document w !! "paymentMessage"); simpl; [|exact Hel].
    rewrite !lookup_alter_ne by done. exact Hel. }
  rewrite Hsame. reflexivity.
Qed.

(** Whatever the request comes to, the handler of the answer returns
    normally, and either the window was sent away or the page shows a
    failure; the log is not touched. *)
Lemma sessionCreated_total r w :
  exists w', Payment.sessionCreated r w = (Ok tt, w')
             /\ history w' = history w
             /\ ((exists target, is_url target = true /\ w' = set_navigation target w)
                 \/ (exists text, w' = failed text w)).
Proof.
  unfold Payment.sessionCreated.
  match goal with
  | |- context [catch ?m ?h] =>
      assert (Hbody : (exists target, is_url target = true
                                      /\ m w = (Ok tt, set_navigation target w))
                      \/ (exists e, m w = (Throw e, w)))
  end.
  { destruct r as [| |response]; [right; eexists; reflexivity..|].
    erewrite bind_ok by reflexivity.
    destruct (get_prop response "success") as [success|e] eqn:Es;
      [erewrite bind_ok by reflexivity
      |right; exists e; apply bind_throw; reflexivity].
    destruct (if truthy success then get_prop response "checkout_url" else Ok success)
      as [both|e] eqn:Eb;
      [erewrite bind_ok by reflexivity
      |right; exists e; apply bind_throw; reflexivity].
    destruct (truthy both).
    - destruct (get_prop response "checkout_url") as [checkout_url|e] eqn:Ec;
        [erewrite bind_ok by reflexivity
        |right; exists e; apply bind_throw; reflexivity].
      destruct (ToString checkout_url) as [target|e] eqn:Et;
        [erewrite bind_ok by reflexivity
        |right; exists e; apply bind_throw; reflexivity].
      unfold Payment.assign_href. destruct (is_url target) eqn:Hurl.
      + left. exists target. split; [exact Hurl | reflexivity].
      + right. eexists. reflexivity.
    - destruct (get_prop response "message") as [message|e] eqn:Em;
        [erewrite bind_ok by reflexivity
        |right; exists e; apply bind_throw; reflexivity].
      destruct (ToString (or_else message (Str "Payment creation failed")))
        as [text|e] eqn:Et;
        [erewrite bind_ok by reflexivity
        |right; exists e; apply bind_throw; reflexivity].
      right. eexists. reflexivity. }
  destruct Hbody as [(target & Hurl & Hrun) | (e & Hrun)].
  - exists (set_navigation target w). rewrite (catch_ok _ _ _ _ _ Hrun).
    split; [reflexivity|]. split; [reflexivity|]. left. eauto.
  - exists (failed (message_of e) w). rewrite (catch_throw _ _ _ _ _ Hrun).
    split; [apply failure_handled|]. split; [apply failed_frame|]. right. eauto.
Qed.

(** ** C5

    In live mode a submission that passes the three tests sends the
    payload to the gateway and writes nothing to the log.  When the
    answer has a truthy [success] and a non-empty [checkout_url] that
    is an address, the window is sent to it and the log is still as it
    was.
    When the answer lacks one of the two, the flow ends with the error
    message made of the gateway's [message] (or of "Payment creation
    failed" when the answer has none), the form is displayed again,
    and the window stays.  When the gateway cannot be reached or its
    answer cannot be read, the flow ends the same way with the network
    error message.  Whatever the answer, no record is written when it
    arrives. *)
Theorem live_submission (this : SecurePayService) (w : world) (a m email : string) :
  isTestMode this = false ->
  field w "paymentAmount" = Some a ->
  amount_passes a = true ->
  filled (checked w) = Some m ->
  filled (field w "customerEmail") = Some email ->
  let w' := submitted this a m (field w "customerName") (field w "customerPhone") email w in
  Payment.handlePaymentSubmit this w = (Ok tt, w')
  /\ (exists req, tasks w' = tasks w ++ [Fetch req SessionCreated]
                  /\ req_method req = "POST"
                  /\ req_url req = apiEndpoint this +:+ "/v1/payments"
                  /\ req_body req
                     = Some (JSON_stringify
                               (Payment.payload a m (field w "customerName")
                                  (field w "customerPhone") email (now w)
                                  (href (location w)))))
  /\ history w' = history w
  /\ navigation w' = navigation w
  /\ (forall w1 response s u,
        get_prop response "success" = Ok s -> truthy s = true ->
        get_prop response "checkout_url" = Ok (Str u) -> u <> "" ->
        is_url u = true ->
        Payment.sessionCreated (Body response) w1 = (Ok tt, set_navigation u w1)
        /\ navigation (set_navigation u w1) = Some u
        /\ history (set_navigation u w1) = history w1)
  /\ (forall w1 response s both message text,
        get_prop response "success" = Ok s ->
        (if truthy s then get_prop response "checkout_url" else Ok s) = Ok both ->
        truthy both = false ->
        get_prop response "message" = Ok message ->
        ToString (or_else message (Str "Payment creation failed")) = Ok text ->
        Payment.sessionCreated (Body response) w1 = (Ok tt, failed text w1)
        /\ (forall gateway_text, message = Str gateway_text -> gateway_text <> "" ->
                                 text = gateway_text)
        /\ (truthy message = false -> text = "Payment creation failed")
        /\ history (failed text w1) = history w1
        /\ navigation (failed text w1) = navigation w1
        /\ (is_Some (document w1 !! "paymentMessage") ->
            shows (failed text w1) "error" ("Pembayaran gagal: " +:+ text))
        /\ (forall el, document w1 !! "paymentForm" = Some el ->
              display <$> document (failed text w1) !! "paymentForm" = Some "block"))
  /\ (forall w1 r, r = NetworkFailure \/ r = NotJson ->
        Payment.sessionCreated r w1 = (Ok tt, failed network_error w1)
        /\ history (failed network_error w1) = history w1
        /\ navigation (failed network_error w1) = navigation w1
        /\ (is_Some (document w1 !! "paymentMessage") ->
            shows (failed network_error w1) "error"
                  ("Pembayaran gagal: " +:+ network_error)))
  /\ (forall w1 r, exists w2,
        Payment.sessionCreated r w1 = (Ok tt, w2)
        /\ history w2 = history w1
        /\ ((exists target, is_url target = true /\ w2 = set_navigation target w1)
            \/ (exists text, w2 = failed text w1))).
Proof.
  intros Hlive Ha Hpass Hm He w'. subst w'.
  split; [|split; [|split; [|split; [|split; [|split; [|split]]]]]];
    [| | | | | | |intros w1 r; apply sessionCreated_total].
  - rewrite (handlePaymentSubmit_run this w a Ha), Hpass, Hm, He. reflexivity.
  - unfold submitted, started. rewrite Hlive. eexists. split; [reflexivity|].
    repeat split.
  - reflexivity.
  - reflexivity.
  - intros w1 response s u Hs Ts Hu Hne Hurl. split; [|split; reflexivity].
    apply (sessionCreated_redirects response s (Str u) u w1 Hs Ts Hu);
      [|reflexivity|exact Hurl].
    simpl. destruct u; [congruence | reflexivity].
  - intros w1 response s both message text Hs Hb Tb Hmsg Ht.
    destruct (failed_frame text w1) as (Hh & Hn & _).
    split; [apply (sessionCreated_refused response s both message text w1); assumption|].
    split; [|split; [|split; [exact Hh|split; [exact Hn|split]]]].
    + intros g -> Hg. unfold or_else in Ht. simpl in Ht.
      destruct g; [congruence|]. simpl in Ht. congruence.
    + intros Tm. unfold or_else in Ht. rewrite Tm in Ht. simpl in Ht. congruence.
    + apply failed_shows.
    + apply failed_form.
  - intros w1 r Hr. destruct (failed_frame network_error w1) as (Hh & Hn & _).
    split; [apply sessionCreated_unreachable; exact Hr|].
    split; [exact Hh|]. split; [exact Hn|]. apply failed_shows.
Qed.
End Session.

Lemma live_submission_witness :
  amount_passes "150.00" = true
  /\ Payment.handlePaymentSubmit (H := Reference.browser) Pages.live Pages.card_150
     = (Ok tt, submitted (H := Reference.browser) Pages.live "150.00" "card"
                 (Some "") (Some "") "a@b.com" Pages.card_150)
  /\ history (H := Reference.browser)
       (submitted (H := Reference.browser) Pages.live "150.00" "card"
          (Some "") (Some "") "a@b.com" Pages.card_150) = Some []
  /\ navigation (snd (Payment.sessionCreated (H := Reference.browser)
                        (Body GatewayExample.checkout)
                        (submitted (H := Reference.browser) Pages.live "150.00" "card"
                           (Some "") (Some "") "a@b.com" Pages.card_150)))
     = Some "https://gw/x"
  /\ Payment.sessionCreated (H := Reference.browser) (Body GatewayExample.declined)
       Pages.card_150
     = (Ok tt, failed "Card declined" Pages.card_150).
Proof.
  pose proof (live_submission (H := Reference.browser) Pages.live Pages.card_150
                "150.00" "card" "a@b.com" eq_refl eq_refl eq_refl eq_refl eq_refl)
    as (Hrun & _ & Hlog & _ & Hgo & Hno & _ & _).
  split; [reflexivity|]. split; [exact Hrun|]. split; [exact (eq_trans Hlog eq_refl)|]. split.
  - destruct (Hgo (submitted (H := Reference.browser) Pages.live "150.00" "card"
                     (Some "") (Some "") "a@b.com" Pages.card_150)
                GatewayExample.checkout (Bool true) "https://gw/x"
                eq_refl eq_refl eq_refl ltac:(discriminate) eq_refl) as (-> & Hnav & _).
    exact Hnav.
  - apply (Hno Pages.card_150 GatewayExample.declined (Bool false) (Bool false)
             (Str "Card declined") "Card declined" eq_refl eq_refl eq_refl eq_refl eq_refl).
Defined.

(** ** Coming back from the gateway *)

Section Query.
Lemma searchParams_get_delete q name (u : url) :
  query u = q -> searchParams_get (query (searchParams_delete name u)) name = None.
Proof.
  intros <-. unfold searchParams_delete. simpl.
  induction (query u) as [|[k v] rest IH]; [reflexivity|]. simpl.
  destruct (String.eqb k name) eqn:E; simpl; [exact IH|]. rewrite E. exact IH.
Qed.

Lemma searchParams_get_delete_other name key (u : url) :
  key <> name ->
  searchParams_get (query (searchParams_delete name u)) key = searchParams_get (query u) key.
Proof.
  intros Hne. unfold searchParams_delete. simpl.
  induction (query u) as [|[k v] rest IH]; [reflexivity|]. simpl.
  destruct (String.eqb k name) eqn:E; simpl.
  - apply String.eqb_eq in E. subst k.
    destruct (String.eqb_spec name key) as [->|_]; [congruence | exact IH].
  - rewrite IH. reflexivity.
Qed.

Lemma strip_both_gone (u : url) :
  searchParams_get (query (Payment.strip_both u)) "payment_status" = None
  /\ searchParams_get (query (Payment.strip_both u)) "payment_id" = None.
Proof.
  unfold Payment.strip_both. split.
  - rewrite searchParams_get_delete_other by done.
    apply (searchParams_get_delete (query u)). reflexivity.
  - eapply searchParams_get_delete. reflexivity.
Qed.

Lemma strip_both_other (u : url) key :
  key <> "payment_status" -> key <> "payment_id" ->
  searchParams_get (query (Payment.strip_both u)) key = searchParams_get (query u) key.
Proof.
  intros H1 H2. unfold Payment.strip_both.
  rewrite !searchParams_get_delete_other by assumption. reflexivity.
Qed.
End Query.

Section Reconcile.
Context `{Platform}.

Lemma handle_present w id el : document w !! id = Some el -> handle w id = Some id.
Proof. unfold handle. intros ->. reflexivity. Qed.

Lemma ToString_primitive v :
  is_primitive v = true -> exists s, ToString v = Ok s.
Proof. destruct v as [| |[|]| | | | |]; simpl; try discriminate; eauto. Qed.

Lemma own_methods_text m v :
  own Payment.methods m = Some v -> exists s, v = Str s.
Proof.
  unfold Payment.methods. cbn [own].
  repeat match goal with
         | |- context [String.eqb ?k m] => destruct (String.eqb k m)
         end;
    intros E; try discriminate; injection E as <-; eauto.
Qed.

(** The summary renders for an answer whose date, identifiers and amount
    are primitive values and whose method is a text that is not the name
    of an inherited property. *)
Lemma summary_renders props m :
  is_primitive (lookup_prop props "date") = true ->
  is_primitive (lookup_prop props "transaction_id") = true ->
  is_primitive (lookup_prop props "id") = true ->
  is_primitive (lookup_prop props "amount") = true ->
  lookup_prop props "method" = Str m ->
  ~ In m object_prototype ->
  exists html, summary (Obj props) = Ok html.
Proof.
  intros Hdate Htid Hid Hamount Hmethod Hm. unfold summary, Payment.details.
  cbn [get_prop mbind outcome_bind]. unfold formatDate. rewrite Hdate.
  cbn [mbind outcome_bind].
  assert (Hshown : is_primitive
                     (or_else (or_else (lookup_prop props "transaction_id")
                                 (if truthy (lookup_prop props "transaction_id")
                                  then lookup_prop props "transaction_id"
                                  else lookup_prop props "id"))
                        (Str "N/A")) = true).
  { unfold or_else. destruct (truthy (lookup_prop props "transaction_id")) eqn:T.
    - rewrite T. exact Htid.
    - destruct (truthy (lookup_prop props "id")); [exact Hid | reflexivity]. }
  destruct (truthy (lookup_prop props "transaction_id")) eqn:T;
    cbn [mbind outcome_bind];
    destruct (ToString_primitive _ Hshown) as (shown & ->);
    destruct (ToString_primitive _ Hamount) as (amount & ->);
    cbn [mbind outcome_bind]; rewrite Hmethod;
    unfold Payment.formatPaymentMethod; cbn [ToString mbind outcome_bind];
    (assert (Hname : exists s, or_else (lookup_prop Payment.methods m) (Str m) = Str s);
     [ unfold lookup_prop;
       destruct (own Payment.methods m) as [v|] eqn:Eown;
       [ destruct (own_methods_text m v Eown) as (s & ->); unfold or_else;
         destruct (truthy (Str s)); eauto
       | rewrite (inherited_outside m Hm); unfold or_else; simpl; eauto ]
     | destruct Hname as (s & ->); cbn [ToString mbind outcome_bind]; eauto ]).
Qed.

Lemma showPaymentComplete_run paymentResult html h w el el' :
  document w !! "paymentSuccess" = Some el ->
  document w !! "paymentDetails" = Some el' ->
  summary paymentResult = Ok html ->
  history w = Some h ->
  Payment.showPaymentComplete paymentResult w = (Ok tt, completed paymentResult html h w).
Proof.
  intros Hs Hd Hsum Hh. unfold Payment.showPaymentComplete, getElementById, read.
  repeat (erewrite bind_ok by reflexivity).
  fold (handle w "paymentProcessing") (handle w "paymentForm")
       (handle w "paymentSuccess") (handle w "paymentDetails").
  erewrite bind_ok by (apply when_update; auto).
  erewrite bind_ok.
  2:{ apply when_update. unfold restyle; simpl. intros E.
      rewrite lookup_alter_ne by done. exact E. }
  rewrite (handle_present w _ _ Hs), (handle_present w _ _ Hd). simpl.
  erewrite bind_ok by reflexivity.
  unfold summary in Hsum.
  destruct (get_prop paymentResult "date") as [date|] eqn:Edate; [|discriminate].
  simpl in Hsum.
  destruct (formatDate date) as [formattedDate|] eqn:Eformat; [|discriminate].
  simpl in Hsum.
  erewrite bind_ok by reflexivity.
  erewrite bind_ok by (apply lift_ok; exact Eformat).
  erewrite bind_ok by (apply lift_ok; exact Hsum).
  erewrite bind_ok by reflexivity.
  apply savePaymentToHistory_run. exact Hh.
Qed.

Lemma statusChecked_paid result success status html h w el el' :
  get_prop result "success" = Ok success -> truthy success = true ->
  get_prop result "status" = Ok status -> is_string status "paid" = true ->
  document w !! "paymentSuccess" = Some el ->
  document w !! "paymentDetails" = Some el' ->
  summary result = Ok html ->
  history w = Some h ->
  Payment.statusChecked (Body result) w
  = (Ok tt, set_location (Payment.strip_both (location w)) (completed result html h w)).
Proof.
  intros Hs Ts Hst Tst Hel Hel' Hsum Hh. unfold Payment.statusChecked. apply catch_ok.
  erewrite bind_ok by reflexivity.
  erewrite bind_ok by (apply lift_ok; exact Hs).
  rewrite Ts, Hst. simpl. rewrite Tst.
  erewrite bind_ok by reflexivity. cbv iota.
  erewrite bind_ok by (eapply showPaymentComplete_run; eassumption).
  reflexivity.
Qed.

Lemma statusChecked_unpaid r w :
  paid r = false ->
  exists text,
    Payment.statusChecked r w = (Ok tt, message_shown "error" text w)
    /\ (text = verification_failed
        \/ exists e, text = "Ralat pengesahan: " +:+ message_of e).
Proof.
  intros Hp. unfold Payment.statusChecked.
  assert (Hcatch : forall e (m : M unit), m w = (Throw e, w) ->
            exists text,
              catch m (fun error =>
                         showPaymentMessage "error"
                           ("Ralat pengesahan: " +:+ message_of error)) w
              = (Ok tt, message_shown "error" text w)
              /\ (text = verification_failed
                  \/ exists e, text = "Ralat pengesahan: " +:+ message_of e)).
  { intros e m Hm. exists ("Ralat pengesahan: " +:+ message_of e). split; [|eauto].
    rewrite (catch_throw _ _ _ _ _ Hm). apply showPaymentMessage_run. }
  destruct r as [| |result]; try (eapply Hcatch; reflexivity).
  simpl in Hp.
  destruct (get_prop result "success") as [success|e] eqn:Es.
  2:{ eapply Hcatch. erewrite bind_ok by reflexivity.
      eapply bind_throw. unfold lift. rewrite Es. reflexivity. }
  destruct (truthy success) eqn:Ts.
  - destruct (get_prop result "status") as [status|e] eqn:Est.
    + simpl in Hp. exists verification_failed. split; [|auto].
      apply catch_ok.
      erewrite bind_ok by reflexivity.
      erewrite bind_ok by (apply lift_ok; exact Es).
      rewrite Ts, Est. simpl. rewrite Hp.
      erewrite bind_ok by reflexivity. cbv iota.
      apply showPaymentMessage_run.
    + eapply Hcatch. erewrite bind_ok by reflexivity.
      erewrite bind_ok by (apply lift_ok; exact Es).
      rewrite Ts, Est. reflexivity.
  - exists verification_failed. split; [|auto].
    apply catch_ok.
    erewrite bind_ok by reflexivity.
    erewrite bind_ok by (apply lift_ok; exact Es).
    rewrite Ts.
    erewrite bind_ok by reflexivity. cbv iota.
    apply showPaymentMessage_run.
Qed.

(** [checkPaymentStatusFromUrl], case by case. *)
Lemma checkPaymentStatusFromUrl_run this w :
  Payment.checkPaymentStatusFromUrl this w =
  (Ok tt,
   let paymentStatus := searchParams_get (query (location w)) "payment_status" in
   let paymentId := searchParams_get (query (location w)) "payment_id" in
   if same paymentStatus "completed" && present (filled paymentId) then
     add_task (Fetch (status_request this (default "" paymentId)) StatusChecked) w
   else if same paymentStatus "cancelled" then cancelled w
   else w).
Proof.
  unfold Payment.checkPaymentStatusFromUrl, read.
  repeat (erewrite bind_ok by reflexivity). cbv zeta.
  destruct (same _ "completed" && present _); [reflexivity|].
  destruct (same _ "cancelled"); [|reflexivity].
  erewrite bind_ok by apply showPaymentMessage_run.
  unfold cancelled, write. rewrite message_shown_location. reflexivity.
Qed.
End Reconcile.

Section ReconcileClaims.
Context `{Platform}.

Lemma completed_query w id :
  searchParams_get (query (location w)) "payment_status" = Some "completed" ->
  searchParams_get (query (location w)) "payment_id" = Some id ->
  id <> "" ->
  forall this,
    Payment.checkPaymentStatusFromUrl this w
    = (Ok tt, add_task (Fetch (status_request this id) StatusChecked) w).
Proof.
  intros Hst Hid Hne this. rewrite checkPaymentStatusFromUrl_run. cbv zeta.
  rewrite Hst, Hid, (filled_text id Hne). reflexivity.
Qed.

(** ** C2

    On a page whose query has [payment_status=completed] and a
    non-empty [payment_id], the handler sends the status lookup for
    that payment and does nothing else.  When the answer is truthy in
    [success] and has [status] equal to [paid], and the page has its
    success and details regions, the summary of the answer renders, and
    the log reads as an array [h] that the codec keeps, the log then
    reads as [h] followed by exactly one record, the answer with its
    time stamp, and the location has lost both parameters and kept the
    others.  For every other answer, and when the lookup fails, the
    log is as it was and the page shows an error message: that the
    verification failed, or the verification error. *)
Theorem completed_payment_reconciled (this : SecurePayService) (w : world) (id : string) :
  searchParams_get (query (location w)) "payment_status" = Some "completed" ->
  searchParams_get (query (location w)) "payment_id" = Some id ->
  id <> "" ->
  Payment.checkPaymentStatusFromUrl this w
  = (Ok tt, add_task (Fetch (status_request this id) StatusChecked) w)
  /\ (forall w1 result success status html h el el',
        get_prop result "success" = Ok success -> truthy success = true ->
        get_prop result "status" = Ok status -> is_string status "paid" = true ->
        document w1 !! "paymentSuccess" = Some el ->
        document w1 !! "paymentDetails" = Some el' ->
        summary result = Ok html ->
        history w1 = Some h ->
        stable (h ++ [stamped result (now w1)]) ->
        let w2 := set_location (Payment.strip_both (location w1))
                               (completed result html h w1) in
        Payment.statusChecked (Body result) w1 = (Ok tt, w2)
        /\ history w2 = Some (h ++ [stamped result (now w1)])
        /\ searchParams_get (query (location w2)) "payment_status" = None
        /\ searchParams_get (query (location w2)) "payment_id" = None
        /\ (forall key, key <> "payment_status" -> key <> "payment_id" ->
              searchParams_get (query (location w2)) key
              = searchParams_get (query (location w1)) key))
  /\ (forall w1 r, paid r = false ->
        exists text,
          Payment.statusChecked r w1 = (Ok tt, message_shown "error" text w1)
          /\ history (message_shown "error" text w1) = history w1
          /\ (text = verification_failed
              \/ exists e, text = "Ralat pengesahan: " +:+ message_of e)
          /\ (is_Some (document w1 !! "paymentMessage") ->
              shows (message_shown "error" text w1) "error" text)).
Proof.
  intros Hst Hid Hne. split; [|split].
  - apply completed_query; assumption.
  - intros w1 result success status html h el el' Hs Ts Hstat Tstat Hel Hel' Hsum Hh Hcodec w2.
    subst w2. split; [|split; [|split; [|split]]].
    + eapply statusChecked_paid; eassumption.
    + apply (history_saved result h
               (restyle "paymentDetails" (set_innerHTML html)
                  (restyle "paymentSuccess" (set_display "block")
                     (restyle "paymentForm" (set_display "none")
                        (restyle "paymentProcessing" (set_display "none") w1))))).
      exact Hcodec.
    + apply strip_both_gone.
    + apply strip_both_gone.
    + intros key H1 H2. apply strip_both_other; assumption.
  - intros w1 r Hr. destruct (statusChecked_unpaid r w1 Hr) as (text & Hrun & Htext).
    exists text. split; [exact Hrun|]. split; [apply message_shown_history|].
    split; [exact Htext|]. apply message_shown_shows.
Qed.

(** ** C7

    On a page whose query has [payment_status=cancelled], the handler
    sends nothing, leaves the log as it was, shows the information
    message when the page has a message region, and takes
    [payment_status] out of the location, keeping the other
    parameters. *)
Theorem cancelled_payment_reconciled (this : SecurePayService) (w : world) :
  searchParams_get (query (location w)) "payment_status" = Some "cancelled" ->
  Payment.checkPaymentStatusFromUrl this w = (Ok tt, cancelled w)
  /\ history (cancelled w) = history w
  /\ localStorage (cancelled w) = localStorage w
  /\ (forall req cb, In (Fetch req cb) (tasks (cancelled w)) -> In (Fetch req cb) (tasks w))
  /\ searchParams_get (query (location (cancelled w))) "payment_status" = None
  /\ (forall key, key <> "payment_status" ->
        searchParams_get (query (location (cancelled w))) key
        = searchParams_get (query (location w)) key)
  /\ (is_Some (document w !! "paymentMessage") ->
      shows (cancelled w) "info" "Pembayaran dibatalkan.").
Proof.
  intros Hst. repeat split.
  - rewrite checkPaymentStatusFromUrl_run. cbv zeta. rewrite Hst. reflexivity.
  - unfold cancelled, history. simpl. rewrite message_shown_storage. reflexivity.
  - unfold cancelled. simpl. apply message_shown_storage.
  - unfold cancelled. simpl. apply message_shown_no_request.
  - unfold cancelled, Payment.strip_status. simpl.
    apply (searchParams_get_delete (query (location w))). reflexivity.
  - intros key Hkey. unfold cancelled, Payment.strip_status. simpl.
    apply (searchParams_get_delete_other "payment_status" key (location w) Hkey).
  - intros Hel. destruct (message_shown_shows "info" "Pembayaran dibatalkan." w Hel)
      as (el & Hlook & Hshown).
    exists el. split; [exact Hlook | exact Hshown].
Qed.

(** ** C8

    On a page whose query has [payment_status=completed] and no
    [payment_id], or an empty one, the handler returns with the page
    as it found it: no lookup, no record, no message. *)
Theorem completed_without_id_ignored (this : SecurePayService) (w : world) :
  searchParams_get (query (location w)) "payment_status" = Some "completed" ->
  filled (searchParams_get (query (location w)) "payment_id") = None ->
  Payment.checkPaymentStatusFromUrl this w = (Ok tt, w)
  /\ tasks (snd (Payment.checkPaymentStatusFromUrl this w)) = tasks w
  /\ history (snd (Payment.checkPaymentStatusFromUrl this w)) = history w
  /\ document (snd (Payment.checkPaymentStatusFromUrl this w)) = document w
  /\ location (snd (Payment.checkPaymentStatusFromUrl this w)) = location w.
Proof.
  intros Hst Hid.
  assert (Hrun : Payment.checkPaymentStatusFromUrl this w = (Ok tt, w)).
  { rewrite checkPaymentStatusFromUrl_run. cbv zeta. rewrite Hst, Hid. reflexivity. }
  rewrite Hrun. auto.
Qed.

(** ** C10

    When the answer to the status lookup is not a paid one, or the
    lookup fails, the location is left as it is: the page shows an
    error message and both parameters are still in the query.  A
    page loaded at that location sends the status lookup for the same
    payment again. *)
Theorem unpaid_answer_keeps_markers (this : SecurePayService) (w : world)
    (r : fetched) (id : string) :
  searchParams_get (query (location w)) "payment_status" = Some "completed" ->
  searchParams_get (query (location w)) "payment_id" = Some id ->
  id <> "" ->
  paid r = false ->
  exists text,
    let w' := message_shown "error" text w in
    Payment.statusChecked r w = (Ok tt, w')
    /\ location w' = location w
    /\ searchParams_get (query (location w')) "payment_status" = Some "completed"
    /\ searchParams_get (query (location w')) "payment_id" = Some id
    /\ (forall again, location again = location w' ->
          Payment.checkPaymentStatusFromUrl this again
          = (Ok tt, add_task (Fetch (status_request this id) StatusChecked) again)).
Proof.
  intros Hst Hid Hne Hr. destruct (statusChecked_unpaid r w Hr) as (text & Hrun & _).
  exists text. cbv zeta. rewrite message_shown_location.
  split; [exact Hrun|]. split; [reflexivity|]. split; [exact Hst|]. split; [exact Hid|].
  intros again Hloc. apply completed_query; rewrite ?Hloc; assumption.
Qed.
End ReconcileClaims.

Lemma completed_payment_reconciled_witness :
  Payment.checkPaymentStatusFromUrl Pages.live
    Return.completed_with_id
  = (Ok tt, add_task (Fetch (status_request Pages.live "PAY123") StatusChecked)
                     Return.completed_with_id)
  /\ history (H := Reference.browser)
       (snd (Payment.statusChecked (H := Reference.browser) (Body Return.paid_answer)
               Return.completed_with_id))
     = Some [stamped Return.paid_answer 1700000000000]
  /\ query (location (snd (Payment.statusChecked (H := Reference.browser)
                             (Body Return.paid_answer) Return.completed_with_id)))
     = [("lang", "ms")]
  /\ Payment.statusChecked (H := Reference.browser) (Body Return.pending_answer)
       Return.completed_with_id
     = (Ok tt, message_shown "error" verification_failed Return.completed_with_id).
Proof.
  pose proof (completed_payment_reconciled (H := Reference.browser) Pages.live
                Return.completed_with_id "PAY123" eq_refl eq_refl ltac:(discriminate))
    as (Hsend & Hpaid & Hother).
  split; [exact Hsend|].
  assert (Hcodec : stable (H := Reference.browser)
                     ([] ++ [stamped Return.paid_answer (now Return.completed_with_id)])).
  { split; [vm_compute; discriminate | vm_compute; reflexivity]. }
  destruct (Hpaid Return.completed_with_id Return.paid_answer (Bool true) (Str "paid")
              Return.paid_html [] Pages.blank Pages.blank
              eq_refl eq_refl eq_refl eq_refl eq_refl eq_refl eq_refl eq_refl Hcodec)
    as (Hrun & Hlog & _).
  rewrite Hrun. split; [exact Hlog|]. split; [reflexivity|].
  destruct (Hother Return.completed_with_id (Body Return.pending_answer) eq_refl)
    as (text & Hrun' & _ & [-> | (e & ->)] & _); [exact Hrun'|].
  exfalso. apply (f_equal (fun p => document (snd p) !! "paymentMessage")) in Hrun'.
  vm_compute in Hrun'. discriminate.
Defined.

Lemma cancelled_payment_reconciled_witness :
  Payment.checkPaymentStatusFromUrl Pages.live
    Return.cancelled_page
  = (Ok tt, cancelled Return.cancelled_page)
  /\ query (location (cancelled Return.cancelled_page)) = [("lang", "ms")]
  /\ history (H := Reference.browser) (cancelled Return.cancelled_page) = Some []
  /\ shows (cancelled Return.cancelled_page) "info" "Pembayaran dibatalkan.".
Proof.
  pose proof (cancelled_payment_reconciled (H := Reference.browser) Pages.live
                Return.cancelled_page eq_refl)
    as (Hrun & Hlog & _ & _ & _ & _ & Hshown).
  split; [exact Hrun|]. split; [reflexivity|]. split; [rewrite Hlog; reflexivity|].
  apply Hshown. eexists. reflexivity.
Defined.

Lemma completed_without_id_ignored_witness :
  Payment.checkPaymentStatusFromUrl Pages.live
    Return.completed_bare
  = (Ok tt, Return.completed_bare)
  /\ Payment.checkPaymentStatusFromUrl Pages.live
       Return.completed_empty_id
     = (Ok tt, Return.completed_empty_id).
Proof.
  split.
  - apply (completed_without_id_ignored (H := Reference.browser) Pages.live
             Return.completed_bare eq_refl eq_refl).
  - apply (completed_without_id_ignored (H := Reference.browser) Pages.live
             Return.completed_empty_id eq_refl eq_refl).
Defined.

Lemma unpaid_answer_keeps_markers_witness :
  paid (Body Return.pending_answer) = false
  /\ exists text,
       Payment.statusChecked (H := Reference.browser) (Body Return.pending_answer)
         Return.completed_with_id
       = (Ok tt, message_shown "error" text Return.completed_with_id)
       /\ query (location (message_shown "error" text Return.completed_with_id))
          = [("lang", "ms"); ("payment_status", "completed"); ("payment_id", "PAY123")]
       /\ Payment.checkPaymentStatusFromUrl Pages.live
            (message_shown "error" text Return.completed_with_id)
          = (Ok tt, add_task (Fetch (status_request Pages.live "PAY123") StatusChecked)
                             (message_shown "error" text Return.completed_with_id)).
Proof.
  split; [reflexivity|].
  destruct (unpaid_answer_keeps_markers (H := Reference.browser) Pages.live
              Return.completed_with_id (Body Return.pending_answer) "PAY123"
              eq_refl eq_refl ltac:(discriminate) eq_refl)
    as (text & Hrun & Hloc & _ & _ & Hagain).
  exists text. split; [exact Hrun|]. split; [rewrite Hloc; reflexivity|].
  apply Hagain. reflexivity.
Defined.

Lemma savePaymentToHistory_appends_witness :
  history (H := Reference.browser) Pages.card_150 = Some []
  /\ exists w',
       save_each (H := Reference.browser)
         [(Return.first_payment, 1700000000000); (Return.paid_answer, 1700000360000)]
         Pages.card_150
       = (Ok tt, w')
       /\ history (H := Reference.browser) w'
          = Some [ stamped Return.first_payment 1700000000000;
                   stamped Return.paid_answer 1700000360000 ].
Proof.
  split; [reflexivity|].
  destruct (savePaymentToHistory_appends (H := Reference.browser) Pages.card_150 []
              [(Return.first_payment, 1700000000000); (Return.paid_answer, 1700000360000)]
              eq_refl) as ((w' & Hrun & Hlog & _) & _ & _).
  - intros k Hk. simpl in Hk.
    destruct k as [|[|[|k]]]; try lia;
      (split; [vm_compute; discriminate | vm_compute; reflexivity]).
  - reflexivity.
  - exists w'. split; [exact Hrun | exact Hlog].
Defined.


(** * What the functions leave alone, and when they return *)

Section FrameRules.
Context `{Platform}.
Context {B : Type} (f : world -> B).

Lemma preserves_ret {A} (a : A) : preserves f (mret a).
Proof. intros w. reflexivity. Qed.

Lemma preserves_throw {A} (e : exn) : preserves f (throw (A := A) e).
Proof. intros w. reflexivity. Qed.

Lemma preserves_lift {A} (o : outcome A) : preserves f (lift o).
Proof. intros w. reflexivity. Qed.

Lemma preserves_read {A} (g : world -> A) : preserves f (read g).
Proof. intros w. reflexivity. Qed.

Lemma preserves_bind {A C} (m : M A) (k : A -> M C) :
  preserves f m -> (forall a, preserves f (k a)) -> preserves f (m ≫= k).
Proof.
  intros Hm Hk w. unfold mbind, M_bind. specialize (Hm w).
  destruct (m w) as [[a|e] w1]; simpl in *; [|exact Hm].
  rewrite (Hk a w1). exact Hm.
Qed.

Lemma preserves_catch {A} (m : M A) (h : exn -> M A) :
  preserves f m -> (forall e, preserves f (h e)) -> preserves f (catch m h).
Proof.
  intros Hm Hh w. unfold catch. specialize (Hm w).
  destruct (m w) as [[a|e] w1]; simpl in *; [exact Hm|].
  rewrite (Hh e w1). exact Hm.
Qed.

Lemma preserves_when (b : bool) (m : M unit) :
  preserves f m -> preserves f (when b m).
Proof. intros Hm. destruct b; [exact Hm | apply preserves_ret]. Qed.

Lemma preserves_getElementById id : preserves f (getElementById id).
Proof. apply preserves_read. Qed.

Lemma preserves_update `{!OffDocument f} e g : preserves f (update e g).
Proof. destruct e; intros w; [apply off_document | reflexivity]. Qed.

Lemma preserves_setTimeout `{!OffTimers f} cb ms : preserves f (setTimeout cb ms).
Proof. intros w. apply off_timers. Qed.

Lemma preserves_showPaymentMessage `{!OffDocument f} `{!OffTimers f} type message :
  preserves f (showPaymentMessage type message).
Proof.
  unfold showPaymentMessage.
  apply preserves_bind; [apply preserves_getElementById|]. intros e.
  apply preserves_when.
  repeat (apply preserves_bind; [apply preserves_update|]; intros _).
  apply preserves_setTimeout.
Qed.

Lemma preserves_showPaymentProcessing `{!OffDocument f} isProcessing :
  preserves f (showPaymentProcessing isProcessing).
Proof.
  unfold showPaymentProcessing.
  repeat (apply preserves_bind; [apply preserves_getElementById|]; intros ?).
  repeat (apply preserves_bind; [apply preserves_when, preserves_update|]; intros _).
  apply preserves_when, preserves_update.
Qed.

Lemma preserves_savePaymentToHistory `{!OffStorage f} payment :
  preserves f (savePaymentToHistory payment).
Proof.
  unfold savePaymentToHistory, getItem_or, parse, push, setItem.
  apply preserves_bind; [apply preserves_read|]. intros text.
  apply preserves_bind; [destruct (JSON_parse text); [apply preserves_ret|apply preserves_throw]|].
  intros v. apply preserves_bind; [apply preserves_read|]. intros t.
  apply preserves_bind.
  { destruct v; first [apply preserves_ret | apply preserves_throw]. }
  intros a w. apply off_storage.
Qed.

Lemma preserves_showPaymentComplete `{!OffDocument f} `{!OffStorage f} paymentResult :
  preserves f (Payment.showPaymentComplete paymentResult).
Proof.
  unfold Payment.showPaymentComplete.
  repeat (apply preserves_bind; [apply preserves_getElementById|]; intros ?).
  repeat (apply preserves_bind; [apply preserves_when, preserves_update|]; intros _).
  apply preserves_when.
  apply preserves_bind; [apply preserves_update|]. intros _.
  repeat (apply preserves_bind; [apply preserves_lift|]; intros ?).
  apply preserves_bind; [apply preserves_update|]. intros _.
  apply preserves_savePaymentToHistory.
Qed.

Lemma preserves_demo_showPaymentComplete `{!OffDocument f} `{!OffStorage f} paymentResult :
  preserves f (Demo.showPaymentComplete paymentResult).
Proof.
  unfold Demo.showPaymentComplete.
  repeat (apply preserves_bind; [apply preserves_getElementById|]; intros ?).
  repeat (apply preserves_bind; [apply preserves_when, preserves_update|]; intros _).
  apply preserves_when.
  apply preserves_bind; [apply preserves_update|]. intros _.
  repeat (apply preserves_bind; [apply preserves_lift|]; intros ?).
  apply preserves_bind; [apply preserves_update|]. intros _.
  apply preserves_savePaymentToHistory.
Qed.
End FrameRules.

Lemma sent_timer ts cb ms : sent (ts ++ [Timeout cb ms]) = sent ts.
Proof.
  induction ts as [|[cb' ms'|req cb'] rest IH]; simpl; [reflexivity|exact IH|].
  rewrite IH. reflexivity.
Qed.

Lemma values_restyle_display id v w :
  values (restyle id (set_display v) w) = values w.
Proof.
  unfold values, restyle. simpl. apply map_eq. intros k.
  rewrite !lookup_fmap, lookup_alter.
  case_decide; [subst k|reflexivity]. destruct (document w !! id); reflexivity.
Qed.

#[export] Instance storage_off_document : OffDocument localStorage.
Proof. intros d w. reflexivity. Qed.
#[export] Instance storage_off_timers : OffTimers localStorage.
Proof. intros cb ms w. reflexivity. Qed.
#[export] Instance storage_off_location : OffLocation localStorage.
Proof. intros u w. reflexivity. Qed.
#[export] Instance location_off_document : OffDocument location.
Proof. intros d w. reflexivity. Qed.
#[export] Instance location_off_timers : OffTimers location.
Proof. intros cb ms w. reflexivity. Qed.
#[export] Instance location_off_storage : OffStorage location.
Proof. intros st w. reflexivity. Qed.
#[export] Instance navigation_off_document : OffDocument navigation.
Proof. intros d w. reflexivity. Qed.
#[export] Instance navigation_off_timers : OffTimers navigation.
Proof. intros cb ms w. reflexivity. Qed.
#[export] Instance navigation_off_storage : OffStorage navigation.
Proof. intros st w. reflexivity. Qed.
#[export] Instance navigation_off_location : OffLocation navigation.
Proof. intros u w. reflexivity. Qed.
#[export] Instance requests_off_document : OffDocument requests.
Proof. intros d w. reflexivity. Qed.
#[export] Instance requests_off_timers : OffTimers requests.
Proof. intros cb ms w. apply sent_timer. Qed.
#[export] Instance requests_off_storage : OffStorage requests.
Proof. intros st w. reflexivity. Qed.
#[export] Instance requests_off_location : OffLocation requests.
Proof. intros u w. reflexivity. Qed.
#[export] Instance tasks_off_document : OffDocument tasks.
Proof. intros d w. reflexivity. Qed.
#[export] Instance tasks_off_storage : OffStorage tasks.
Proof. intros st w. reflexivity. Qed.
#[export] Instance values_off_timers : OffTimers values.
Proof. intros cb ms w. reflexivity. Qed.
#[export] Instance values_off_storage : OffStorage values.
Proof. intros st w. reflexivity. Qed.
#[export] Instance values_off_location : OffLocation values.
Proof. intros u w. reflexivity. Qed.

Lemma values_message_shown type message w :
  values (message_shown type message w) = values w.
Proof.
  unfold message_shown. destruct (document w !! "paymentMessage"); [|reflexivity].
  unfold values. simpl. apply map_eq. intros k. rewrite !lookup_fmap, !lookup_alter.
  case_decide; [subst k|reflexivity].
  destruct (document w !! "paymentMessage"); reflexivity.
Qed.

Lemma values_processing_shown isProcessing w :
  values (processing_shown isProcessing w) = values w.
Proof. unfold processing_shown. rewrite !values_restyle_display. reflexivity. Qed.

Section SubmitFrame.
Context `{Platform}.

Lemma handlePaymentSubmit_without_field this w :
  document w !! "paymentAmount" = None ->
  Payment.handlePaymentSubmit this w = (Throw (TypeError "Cannot read properties of null"), w)
  /\ Demo.handlePaymentSubmit this w = (Throw (TypeError "Cannot read properties of null"), w).
Proof.
  intros Hnone.
  assert (Hthrow : value_of "paymentAmount" w
                   = (Throw (TypeError "Cannot read properties of null"), w)).
  { unfold value_of. rewrite Hnone. reflexivity. }
  split.
  - unfold Payment.handlePaymentSubmit. erewrite bind_ok by reflexivity.
    apply bind_throw. exact Hthrow.
  - unfold Demo.handlePaymentSubmit. erewrite bind_ok by reflexivity.
    apply bind_throw. exact Hthrow.
Qed.

(** ** X1

    Whatever the page, the submit handler of payment.js only touches the
    regions of the page and the pending tasks: storage, location and the
    window's address are as before, and so is what is typed in every
    field.  It throws exactly when the page has no amount field, and then
    the page is untouched altogether. *)
Theorem handlePaymentSubmit_frame (this : SecurePayService) (w : world) :
  let run := Payment.handlePaymentSubmit this w in
  localStorage (snd run) = localStorage w
  /\ location (snd run) = location w
  /\ navigation (snd run) = navigation w
  /\ values (snd run) = values w
  /\ (fst run = Ok tt <-> is_Some (document w !! "paymentAmount"))
  /\ (document w !! "paymentAmount" = None -> snd run = w).
Proof.
  cbv zeta. destruct (document w !! "paymentAmount") as [el|] eqn:Hel.
  - assert (Ha : field w "paymentAmount" = Some (value el)).
    { unfold field. rewrite Hel. reflexivity. }
    rewrite (handlePaymentSubmit_run this w (value el) Ha). cbn [fst snd].
    assert (Hrej : forall e, localStorage (rejected e w) = localStorage w
                             /\ location (rejected e w) = location w
                             /\ navigation (rejected e w) = navigation w
                             /\ values (rejected e w) = values w).
    { intros e. unfold rejected. split; [apply message_shown_storage|].
      split; [apply message_shown_location|].
      split; [apply message_shown_navigation | apply values_message_shown]. }
    assert (Hgoal : forall w', localStorage w' = localStorage w /\ location w' = location w
                               /\ navigation w' = navigation w /\ values w' = values w ->
                               localStorage w' = localStorage w /\ location w' = location w
                               /\ navigation w' = navigation w /\ values w' = values w
                               /\ (Ok tt = Ok tt <-> is_Some (Some el))
                               /\ (Some el = None -> w' = w)).
    { intros w' (H1 & H2 & H3 & H4). repeat split; eauto; discriminate. }
    apply Hgoal.
    destruct (amount_passes (value el)); [|apply Hrej].
    destruct (filled (checked w)) as [m|]; [|apply Hrej].
    destruct (filled (field w "customerEmail")) as [email|]; [|apply Hrej].
    unfold submitted. repeat split. apply (values_processing_shown true w).
  - destruct (handlePaymentSubmit_without_field this w Hel) as [-> _]. cbn [fst snd].
    repeat split; auto; try discriminate. intros [x Hx]. discriminate.
Qed.

Lemma handlePaymentSubmit_storage this w :
  localStorage (snd (Payment.handlePaymentSubmit this w)) = localStorage w.
Proof.
  destruct (document w !! "paymentAmount") as [el|] eqn:Hel.
  - assert (Ha : field w "paymentAmount" = Some (value el)).
    { unfold field. rewrite Hel. reflexivity. }
    rewrite (handlePaymentSubmit_run this w (value el) Ha). cbn [snd].
    destruct (amount_passes (value el)); [|apply message_shown_storage].
    destruct (filled (checked w)) as [m|]; [|apply message_shown_storage].
    destruct (filled (field w "customerEmail")) as [email|]; [|apply message_shown_storage].
    reflexivity.
  - destruct (handlePaymentSubmit_without_field this w Hel) as [-> _]. reflexivity.
Qed.

Lemma handlePaymentSubmit_requests this w :
  isTestMode this = true ->
  requests (snd (Payment.handlePaymentSubmit this w)) = requests w.
Proof.
  intros Htest. destruct (document w !! "paymentAmount") as [el|] eqn:Hel.
  - assert (Ha : field w "paymentAmount" = Some (value el)).
    { unfold field. rewrite Hel. reflexivity. }
    rewrite (handlePaymentSubmit_run this w (value el) Ha). cbn [snd].
    assert (Hrej : forall e, requests (rejected e w) = requests w).
    { intros e. unfold rejected, message_shown.
      destruct (document w !! "paymentMessage"); [|reflexivity].
      unfold requests. simpl. apply sent_timer. }
    destruct (amount_passes (value el)); [|apply Hrej].
    destruct (filled (checked w)) as [m|]; [|apply Hrej].
    destruct (filled (field w "customerEmail")) as [email|]; [|apply Hrej].
    unfold submitted, started. rewrite Htest. unfold requests. simpl. apply sent_timer.
  - destruct (handlePaymentSubmit_without_field this w Hel) as [-> _]. reflexivity.
Qed.

(** ** X2

    A service made by the constructor is in test mode, and in test mode no
    step of a submission contacts the gateway: the handler and the two
    timers leave the requests as they were, and the handler and the outer
    timer leave the storage as it was, so that only the inner timer can
    write the log. *)
Theorem constructor_never_contacts_gateway (key merchant paymentAmount paymentMethod : string)
    (r : number) (w : world) :
  isTestMode (Payment.constructor key merchant) = true
  /\ requests (snd (Payment.handlePaymentSubmit (Payment.constructor key merchant) w))
     = requests w
  /\ requests (snd (Payment.simulate paymentAmount paymentMethod r w)) = requests w
  /\ requests (snd (Payment.simulateComplete paymentAmount paymentMethod r w)) = requests w
  /\ localStorage (snd (Payment.handlePaymentSubmit (Payment.constructor key merchant) w))
     = localStorage w
  /\ localStorage (snd (Payment.simulate paymentAmount paymentMethod r w)) = localStorage w.
Proof.
  assert (Hsim : forall {B} (f : world -> B) `{!OffDocument f} `{!OffTimers f},
             preserves f (Payment.simulate paymentAmount paymentMethod r)).
  { intros B f Hd Ht. unfold Payment.simulate. destruct (Payment.lucky r).
    - apply preserves_bind; [apply preserves_showPaymentMessage; assumption|].
      intros _. apply preserves_setTimeout; assumption.
    - apply preserves_bind; [apply preserves_showPaymentMessage; assumption|].
      intros _. apply preserves_showPaymentProcessing; assumption. }
  split; [reflexivity|]. split; [apply handlePaymentSubmit_requests; reflexivity|].
  split; [apply (Hsim _ requests _ _)|]. split.
  - unfold Payment.simulateComplete.
    apply preserves_bind; [apply preserves_read|]. intros t.
    apply preserves_showPaymentComplete; apply _.
  - split; [apply handlePaymentSubmit_storage | apply (Hsim _ localStorage _ _)].
Qed.
End SubmitFrame.

(** ** X3

    The amount test of both handlers lets a text through exactly when it
    is not empty and [parseFloat] reads it as a positive number, as
    positive infinity, or as NaN; it turns down the empty text, both
    zeros, the negative numbers and negative infinity. *)
Theorem amount_test_passes_exactly (a : string) :
  amount_passes a = true
  <-> a <> ""
      /\ (parseFloat a = Number.NaN
          \/ parseFloat a = S754_infinity false
          \/ exists m e, parseFloat a = S754_finite false m e).
Proof.
  unfold amount_passes.
  destruct (String.eqb_spec a "") as [->|Hne]; simpl.
  { split; [discriminate | intros [Hne _]; congruence]. }
  destruct (parseFloat a) as [s|s| |s m e]; try destruct s; simpl.
  all: split.
  all: try (intros Hp; discriminate Hp).
  all: try (intros Hp; split; [exact Hne|]; eauto; fail).
  all: try (intros [_ [E | [E | (m' & e' & E)]]]; discriminate E).
  all: try reflexivity.
Qed.

Lemma own_methodMapping_cases code v :
  own Payment.methodMapping code = Some v ->
  In v [Str "fpx"; Str "card"; Str "boost"; Str "duitnow_qr"].
Proof.
  unfold Payment.methodMapping. cbn [own].
  repeat match goal with
         | |- context [String.eqb ?k code] => destruct (String.eqb k code)
         end;
    intros E; try discriminate; injection E as <-; simpl; tauto.
Qed.

Lemma mapPaymentMethod_outside code :
  ~ In code object_prototype ->
  In (Payment.mapPaymentMethod code) [Str "fpx"; Str "card"; Str "boost"; Str "duitnow_qr"].
Proof.
  intros Hout. unfold Payment.mapPaymentMethod, lookup_prop.
  destruct (own Payment.methodMapping code) as [v|] eqn:Eown.
  - pose proof (own_methodMapping_cases code v Eown) as Hin.
    assert (Htruthy : truthy v = true).
    { simpl in Hin. destruct Hin as [<-|[<-|[<-|[<-|[]]]]]; reflexivity. }
    unfold or_else. rewrite Htruthy. exact Hin.
  - rewrite (inherited_outside code Hout). simpl. tauto.
Qed.

(** ** X4

    The method that goes to the gateway is never empty or undefined: the
    translation always gives a truthy value.  For a code that is not a
    name objects inherit it is one of the four texts [fpx], [card],
    [boost] and [duitnow_qr]; for an inherited name it is the inherited
    property itself. *)
Theorem mapPaymentMethod_range (code : string) :
  truthy (Payment.mapPaymentMethod code) = true
  /\ (~ In code object_prototype ->
      In (Payment.mapPaymentMethod code) [Str "fpx"; Str "card"; Str "boost"; Str "duitnow_qr"])
  /\ (In code object_prototype -> Payment.mapPaymentMethod code = Builtin code).
Proof.
  unfold Payment.mapPaymentMethod, lookup_prop.
  destruct (own Payment.methodMapping code) as [v|] eqn:Eown.
  - pose proof (own_methodMapping_cases code v Eown) as Hin.
    assert (Htruthy : truthy v = true).
    { simpl in Hin. destruct Hin as [<-|[<-|[<-|[<-|[]]]]]; reflexivity. }
    unfold or_else. rewrite Htruthy. split; [exact Htruthy|]. split; [auto|].
    intros Hproto. exfalso. revert Eown. unfold Payment.methodMapping. cbn [own].
    simpl in Hproto.
    repeat destruct Hproto as [<-|Hproto]; try contradiction; vm_compute; discriminate.
  - unfold inherited. destruct (existsb (String.eqb code) object_prototype) eqn:Ex.
    + split; [reflexivity|]. split; [|reflexivity].
      intros Hout. exfalso. apply Hout. apply existsb_exists in Ex.
      destruct Ex as (k & Hin & Heq). apply String.eqb_eq in Heq. subst k. exact Hin.
    + split; [reflexivity|]. split; [simpl; tauto|].
      intros Hin. exfalso.
      assert (Hex : existsb (String.eqb code) object_prototype = true).
      { apply existsb_exists. exists code. split; [exact Hin | apply String.eqb_refl]. }
      congruence.
Qed.

Section MethodNames.
Context `{Platform}.

(** ** X5

    Every method that the translation sends to the gateway has a display
    name in the table of payment.js: for a code that is not an inherited
    name, [formatPaymentMethod] of the translated method returns an entry
    of the table and not the method itself.  The table of part_000 has no
    entry for [boost] and [duitnow_qr] and displays these two as they
    are. *)
Theorem mapped_method_has_name (code : string) :
  ~ In code object_prototype ->
  (exists method name,
      Payment.mapPaymentMethod code = Str method
      /\ Payment.formatPaymentMethod (Str method) = Ok (Str name)
      /\ own Payment.methods method = Some (Str name)
      /\ name <> method)
  /\ Demo.formatPaymentMethod (Str "boost") = Ok (Str "boost")
  /\ Demo.formatPaymentMethod (Str "duitnow_qr") = Ok (Str "duitnow_qr").
Proof.
  intros Hout. split; [|split; reflexivity].
  pose proof (mapPaymentMethod_outside code Hout) as Hin.
  simpl in Hin. destruct Hin as [<-|[<-|[<-|[<-|[]]]]].
  - exists "fpx", "FPX Online Banking". repeat split; discriminate.
  - exists "card", "Kad Kredit/Debit". repeat split; discriminate.
  - exists "boost", "Boost e-Wallet". repeat split; discriminate.
  - exists "duitnow_qr", "DuitNow QR". repeat split; discriminate.
Qed.

(** ** X6

    When an e-mail address is given, the handlers of the two files take
    the same decision on every page: both turn the submission down with
    the same message, or both accept it, leave the same document and put
    up one task each, the request or simulation of payment.js and the
    simulation of part_000. *)
Theorem handlers_agree_with_email (this : SecurePayService) (w : world) (a email : string) :
  field w "paymentAmount" = Some a ->
  filled (field w "customerEmail") = Some email ->
  let p := snd (Payment.handlePaymentSubmit this w) in
  let d := snd (Demo.handlePaymentSubmit this w) in
  fst (Payment.handlePaymentSubmit this w) = Ok tt
  /\ fst (Demo.handlePaymentSubmit this w) = Ok tt
  /\ document p = document d
  /\ localStorage p = localStorage d
  /\ ((p = d /\ (amount_passes a = false \/ filled (checked w) = None))
      \/ (exists m, amount_passes a = true /\ filled (checked w) = Some m
                    /\ tasks p = tasks w ++ [started this a m (field w "customerName")
                                               (field w "customerPhone") email w]
                    /\ tasks d = tasks w ++ [Timeout (DemoSimulate a m) 2000])).
Proof.
  intros Ha He. cbv zeta.
  rewrite (handlePaymentSubmit_run this w a Ha), (demo_handlePaymentSubmit_run this w a Ha).
  rewrite He. cbn [fst snd].
  destruct (amount_passes a); [|repeat split; left; auto].
  destruct (filled (checked w)) as [m|]; [|repeat split; left; auto].
  repeat split. right. exists m. repeat split.
Qed.
End MethodNames.

Lemma mapped_method_has_name_witness :
  ~ In "wallet" object_prototype
  /\ exists method name,
       Payment.mapPaymentMethod "wallet" = Str method
       /\ Payment.formatPaymentMethod (H := Reference.browser) (Str method) = Ok (Str name)
       /\ own Payment.methods method = Some (Str name)
       /\ name <> method.
Proof.
  assert (Hout : ~ In "wallet" object_prototype) by (simpl; intuition discriminate).
  split; [exact Hout|].
  apply (mapped_method_has_name (H := Reference.browser) "wallet" Hout).
Defined.

Lemma handlers_agree_with_email_witness :
  filled (field Pages.card_150 "customerEmail") = Some "a@b.com"
  /\ document (snd (Payment.handlePaymentSubmit (H := Reference.browser) Pages.test
                      Pages.card_150))
     = document (snd (Demo.handlePaymentSubmit Pages.test Pages.card_150)).
Proof.
  split; [reflexivity|].
  apply (handlers_agree_with_email (H := Reference.browser) Pages.test Pages.card_150
           "150.00" "a@b.com" eq_refl eq_refl).
Defined.

(** * Messages and regions *)

Section Regions.
Context `{Platform}.

Lemma message_shown_present type message w el :
  document w !! "paymentMessage" = Some el ->
  message_shown type message w
  = add_task (Timeout HideMessage 5000)
      (set_document
         (<["paymentMessage" :=
              mk_element (value el) "block" message ("payment-message " +:+ type)
                         (innerHTML el)]> (document w)) w).
Proof.
  intros Hel. unfold message_shown. rewrite Hel. f_equal. f_equal.
  apply map_eq. intros k. rewrite !lookup_alter, lookup_insert.
  case_decide; [subst k|reflexivity]. rewrite Hel. reflexivity.
Qed.

(** ** X7

    A message does not cancel the timer of the message before it.  After
    two messages on a page with a message region, two timers are pending
    and the region shows the second message; when the first timer fires,
    it is the second message that is hidden, its text and style still in
    place. *)
Theorem earlier_timer_hides_later_message (type1 message1 type2 message2 : string)
    (w : world) :
  is_Some (document w !! "paymentMessage") ->
  let w2 := snd ((showPaymentMessage type1 message1;;
                  showPaymentMessage type2 message2) w) in
  tasks w2 = tasks w ++ [Timeout HideMessage 5000; Timeout HideMessage 5000]
  /\ shows w2 type2 message2
  /\ fire HideMessage Elapsed = Some hideMessage
  /\ fst (hideMessage w2) = Ok tt
  /\ exists el, document (snd (hideMessage w2)) !! "paymentMessage" = Some el
                /\ display el = "none"
                /\ textContent el = message2
                /\ className el = "payment-message " +:+ type2.
Proof.
  intros [el Hel]. cbv zeta.
  erewrite bind_ok by apply showPaymentMessage_run.
  rewrite showPaymentMessage_run. cbn [snd].
  rewrite (message_shown_present type1 message1 w el Hel).
  erewrite message_shown_present by (simpl; apply lookup_insert_eq).
  split; [simpl; rewrite <- app_assoc; reflexivity|].
  split.
  { eexists. split; [simpl; apply lookup_insert_eq|]. simpl. auto. }
  split; [reflexivity|]. split; [reflexivity|].
  eexists. split.
  - unfold hideMessage. simpl. rewrite lookup_alter_eq, lookup_insert_eq. reflexivity.
  - simpl. auto.
Qed.

Lemma processing_shown_twice b b' w :
  processing_shown b' (processing_shown b w) = processing_shown b' w.
Proof.
  unfold processing_shown, restyle, set_document. simpl. f_equal.
  apply map_eq. intros k. rewrite !lookup_alter.
  repeat case_decide; simplify_eq;
    repeat match goal with
           | |- context [document w !! ?i] => destruct (document w !! i)
           end;
    reflexivity.
Qed.

(** ** X8

    Of two calls of [showPaymentProcessing] the last one decides: the
    page is the one that the last call alone would leave, so that calling
    it twice is calling it once.  After a call the indicator is displayed
    exactly when the form is not, the success region is hidden, and no
    other element, no field value and no other part of the page has
    changed. *)
Theorem showPaymentProcessing_last_call_decides (first last : bool) (w : world) :
  (showPaymentProcessing first;; showPaymentProcessing last) w = showPaymentProcessing last w
  /\ showPaymentProcessing last w = (Ok tt, processing_shown last w)
  /\ display <$> document (processing_shown last w) !! "paymentProcessing"
     = (fun _ => if last then "block" else "none") <$> document w !! "paymentProcessing"
  /\ display <$> document (processing_shown last w) !! "paymentForm"
     = (fun _ => if last then "none" else "block") <$> document w !! "paymentForm"
  /\ display <$> document (processing_shown last w) !! "paymentSuccess"
     = (fun _ => "none") <$> document w !! "paymentSuccess"
  /\ (forall id, id <> "paymentProcessing" -> id <> "paymentForm" -> id <> "paymentSuccess" ->
        document (processing_shown last w) !! id = document w !! id)
  /\ values (processing_shown last w) = values w
  /\ tasks (processing_shown last w) = tasks w
  /\ localStorage (processing_shown last w) = localStorage w.
Proof.
  split; [|split; [apply showPaymentProcessing_run|]].
  - erewrite bind_ok by apply showPaymentProcessing_run.
    rewrite !showPaymentProcessing_run, processing_shown_twice. reflexivity.
  - unfold processing_shown, restyle. simpl.
    split; [|split; [|split; [|split; [|split; [|split]]]]]; try reflexivity.
    + rewrite !lookup_alter_ne by done. rewrite lookup_alter_eq.
      destruct (document w !! "paymentProcessing"); reflexivity.
    + rewrite lookup_alter_ne by done. rewrite lookup_alter_eq.
      rewrite lookup_alter_ne by done. destruct (document w !! "paymentForm"); reflexivity.
    + rewrite lookup_alter_eq. rewrite !lookup_alter_ne by done.
      destruct (document w !! "paymentSuccess"); reflexivity.
    + intros id H1 H2 H3. rewrite !lookup_alter_ne by congruence. reflexivity.
    + apply (values_processing_shown last w).
Qed.
End Regions.

Lemma earlier_timer_hides_later_message_witness :
  is_Some (document Pages.card_150 !! "paymentMessage")
  /\ tasks (snd ((showPaymentMessage "info" "Mengalihkan ke gateway pembayaran...";;
                  showPaymentMessage "error" "Pembayaran gagal. Sila cuba lagi.")
                   Pages.card_150))
     = [Timeout HideMessage 5000; Timeout HideMessage 5000].
Proof.
  assert (Hregion : is_Some (document Pages.card_150 !! "paymentMessage")).
  { eexists. reflexivity. }
  split; [exact Hregion|].
  apply (earlier_timer_hides_later_message (H := Reference.browser)
           "info" "Mengalihkan ke gateway pembayaran..."
           "error" "Pembayaran gagal. Sila cuba lagi." Pages.card_150 Hregion).
Defined.

(** * The success summary and the log *)

Section Summary.
Context `{Platform}.

Lemma regions_hidden_run w (k : option string -> option string -> M unit) :
  (processingIndicator ← getElementById "paymentProcessing";
   paymentForm ← getElementById "paymentForm";
   paymentSuccess ← getElementById "paymentSuccess";
   paymentDetails ← getElementById "paymentDetails";
   when (present processingIndicator) (update processingIndicator (set_display "none"));;
   when (present paymentForm) (update paymentForm (set_display "none"));;
   k paymentSuccess paymentDetails) w
  = k (handle w "paymentSuccess") (handle w "paymentDetails") (regions_hidden w).
Proof.
  unfold getElementById, read.
  repeat (erewrite bind_ok by reflexivity).
  fold (handle w "paymentProcessing") (handle w "paymentForm")
       (handle w "paymentSuccess") (handle w "paymentDetails").
  erewrite bind_ok by (apply when_update; auto).
  erewrite bind_ok.
  2:{ apply when_update. unfold restyle; simpl. intros E.
      rewrite lookup_alter_ne by done. exact E. }
  reflexivity.
Qed.

Lemma showPaymentComplete_without_success paymentResult w :
  document w !! "paymentSuccess" = None ->
  Payment.showPaymentComplete paymentResult w = (Ok tt, regions_hidden w).
Proof.
  intros Hnone. unfold Payment.showPaymentComplete.
  rewrite (regions_hidden_run w (fun paymentSuccess paymentDetails => when _ _)).
  unfold handle at 1. rewrite Hnone. reflexivity.
Qed.

(** ** X9

    The record is saved from inside the test for the success region.  On
    a page without that region [showPaymentComplete] of either file hides
    the indicator and the form, returns normally and saves nothing,
    whatever the result it is given, be it [null]. *)
Theorem showPaymentComplete_needs_success_region (paymentResult : js) (w : world) :
  document w !! "paymentSuccess" = None ->
  Payment.showPaymentComplete paymentResult w = (Ok tt, regions_hidden w)
  /\ Demo.showPaymentComplete paymentResult w = (Ok tt, regions_hidden w)
  /\ localStorage (regions_hidden w) = localStorage w
  /\ history (regions_hidden w) = history w.
Proof.
  intros Hnone. split; [|split; [|split; reflexivity]].
  - apply showPaymentComplete_without_success, Hnone.
  - unfold Demo.showPaymentComplete.
    rewrite (regions_hidden_run w (fun paymentSuccess paymentDetails => when _ _)).
    unfold handle at 1. rewrite Hnone. reflexivity.
Qed.

(** The page on which the success region was displayed and nothing more. *)
Lemma details_missing_run (render : outcome string) (paymentResult : js) w w1 :
  document w !! "paymentDetails" = None ->
  exists e,
    (html ← lift render;
     update (handle w "paymentDetails") (set_innerHTML html);;
     savePaymentToHistory paymentResult) w1 = (Throw e, w1)
    /\ (forall html, render = Ok html -> e = TypeError "Cannot set properties of null").
Proof.
  intros Hnone. unfold handle. rewrite Hnone. destruct render as [html|e].
  - exists (TypeError "Cannot set properties of null"). split; [reflexivity|auto].
  - exists e. split; [reflexivity|]. intros html E. discriminate.
Qed.

Lemma showPaymentComplete_without_details paymentResult w :
  is_Some (document w !! "paymentSuccess") ->
  document w !! "paymentDetails" = None ->
  exists e, Payment.showPaymentComplete paymentResult w
            = (Throw e, restyle "paymentSuccess" (set_display "block") (regions_hidden w))
            /\ (forall html, summary paymentResult = Ok html ->
                  e = TypeError "Cannot set properties of null").
Proof.
  intros [el Hel] Hnone. unfold Payment.showPaymentComplete.
  rewrite (regions_hidden_run w (fun paymentSuccess paymentDetails => when _ _)).
  rewrite (handle_present w _ _ Hel). cbn [present when].
  erewrite bind_ok by reflexivity. unfold summary.
  destruct (get_prop paymentResult "date") as [date|e] eqn:Edate;
    [erewrite bind_ok by reflexivity
    |exists e; split; [reflexivity | intros html E; cbn in E; discriminate]].
  destruct (formatDate date) as [formattedDate|e] eqn:Eformat;
    [erewrite bind_ok by reflexivity
    |exists e; split;
     [reflexivity
     |intros html E; cbn [mbind outcome_bind] in E; rewrite Eformat in E; discriminate]].
  cbn [mbind outcome_bind]. rewrite Eformat.
  apply (details_missing_run (Payment.details paymentResult formattedDate)
           paymentResult w _ Hnone).
Qed.

(** ** X10

    On a page with the success region and without the details region,
    [showPaymentComplete] of either file throws after it displayed the
    success region, and saves nothing: the page it leaves differs from
    the one it found in the three regions only.  When the summary
    renders, what is thrown is the TypeError of the assignment to the
    missing region. *)
Theorem showPaymentComplete_needs_details_region (paymentResult : js) (w : world) :
  is_Some (document w !! "paymentSuccess") ->
  document w !! "paymentDetails" = None ->
  let shown := restyle "paymentSuccess" (set_display "block") (regions_hidden w) in
  (exists e, Payment.showPaymentComplete paymentResult w = (Throw e, shown)
             /\ (forall html, summary paymentResult = Ok html ->
                   e = TypeError "Cannot set properties of null"))
  /\ (exists e, Demo.showPaymentComplete paymentResult w = (Throw e, shown)
                /\ (forall html, demo_summary paymentResult = Ok html ->
                      e = TypeError "Cannot set properties of null"))
  /\ localStorage shown = localStorage w
  /\ display <$> document shown !! "paymentSuccess" = Some "block".
Proof.
  intros Hsuccess Hnone. cbv zeta. split; [|split; [|split]].
  - apply showPaymentComplete_without_details; assumption.
  - destruct Hsuccess as [el Hel]. unfold Demo.showPaymentComplete.
    rewrite (regions_hidden_run w (fun paymentSuccess paymentDetails => when _ _)).
    rewrite (handle_present w _ _ Hel). cbn [present when].
    erewrite bind_ok by reflexivity. unfold demo_summary.
    destruct (get_prop paymentResult "date") as [date|e] eqn:Edate;
      [erewrite bind_ok by reflexivity
      |exists e; split; [reflexivity | intros html E; cbn in E; discriminate]].
    destruct (formatDate date) as [formattedDate|e] eqn:Eformat;
      [erewrite bind_ok by reflexivity
      |exists e; split;
       [reflexivity
       |intros html E; cbn [mbind outcome_bind] in E; rewrite Eformat in E; discriminate]].
    cbn [mbind outcome_bind]. rewrite Eformat.
    apply (details_missing_run (Demo.details paymentResult formattedDate)
             paymentResult w _ Hnone).
  - reflexivity.
  - destruct Hsuccess as [el Hel].
    unfold restyle. simpl. rewrite lookup_alter_eq, !lookup_alter_ne by done.
    rewrite Hel. reflexivity.
Qed.

Lemma savePaymentToHistory_throws payment w :
  history w = None -> exists e, savePaymentToHistory payment w = (Throw e, w).
Proof.
  unfold history. intros Hbad.
  unfold savePaymentToHistory, getItem_or, parse, read.
  erewrite bind_ok by reflexivity.
  destruct (JSON_parse (default "[]" (filled (localStorage w !! historyKey)))) as [v|].
  - erewrite bind_ok by reflexivity. erewrite bind_ok by reflexivity.
    destruct v; try discriminate; eexists; reflexivity.
  - eexists. reflexivity.
Qed.

(** ** X11

    A stored log that does not read as an array is neither repaired nor
    overwritten: [savePaymentToHistory] throws and leaves the page,
    storage included, as it found it.  It throws a SyntaxError when the
    stored text is not JSON and a TypeError when it is JSON for something
    else than an array. *)
Theorem savePaymentToHistory_bad_log (payment : js) (w : world) :
  history w = None ->
  let text := default "[]" (filled (localStorage w !! historyKey)) in
  exists e, savePaymentToHistory payment w = (Throw e, w)
            /\ match JSON_parse text with
               | None => e = SyntaxError text
               | Some _ => exists detail, e = TypeError detail
               end.
Proof.
  unfold history. intros Hbad. cbv zeta.
  unfold savePaymentToHistory, getItem_or, parse, read.
  erewrite bind_ok by reflexivity.
  destruct (JSON_parse (default "[]" (filled (localStorage w !! historyKey))))
    as [v|] eqn:Eparse.
  - erewrite bind_ok by reflexivity. erewrite bind_ok by reflexivity.
    destruct v; try discriminate; eexists; (split; [reflexivity | eauto]).
  - eexists. split; reflexivity.
Qed.
End Summary.

Lemma own_set_prop_same props key v : own (set_prop props key v) key = Some v.
Proof.
  induction props as [|[k old] rest IH]; simpl.
  - rewrite String.eqb_refl. reflexivity.
  - destruct (String.eqb k key) eqn:E; simpl; rewrite E; [reflexivity | exact IH].
Qed.

Lemma own_set_prop_other props key v other :
  other <> key -> own (set_prop props key v) other = own props other.
Proof.
  intros Hne. induction props as [|[k old] rest IH]; simpl.
  - destruct (String.eqb_spec key other); [congruence | reflexivity].
  - destruct (String.eqb_spec k key) as [->|Hk]; simpl.
    + destruct (String.eqb_spec key other); [congruence | reflexivity].
    + destruct (String.eqb k other); [reflexivity | exact IH].
Qed.

Lemma set_prop_keys props key v :
  map fst (set_prop props key v)
  = match own props key with
    | Some _ => map fst props
    | None => map fst props ++ [key]
    end.
Proof.
  induction props as [|[k old] rest IH]; simpl; [reflexivity|].
  destruct (String.eqb k key); simpl; [reflexivity|].
  rewrite IH. destruct (own rest key); reflexivity.
Qed.

(** ** X12

    The record that is saved is the payment with the time of saving under
    [timestamp]: every other property is the payment's, in the payment's
    order.  A payment that already has a [timestamp] keeps the property
    where it is and loses its value to the clock; otherwise the property
    comes last. *)
Theorem stamped_record (payment : js) (t : Z) :
  exists props,
    stamped payment t = Obj props
    /\ own props "timestamp" = Some (Num (Number.of_Z t))
    /\ (forall key, key <> "timestamp" -> own props key = own (spread payment) key)
    /\ map fst props
       = match own (spread payment) "timestamp" with
         | Some _ => map fst (spread payment)
         | None => map fst (spread payment) ++ ["timestamp"]
         end.
Proof.
  eexists. split; [reflexivity|]. split; [apply own_set_prop_same|].
  split; [intros key Hkey; apply own_set_prop_other; exact Hkey | apply set_prop_keys].
Qed.

Lemma showPaymentComplete_needs_success_region_witness :
  document (Calculator.drop "paymentSuccess" Pages.card_150) !! "paymentSuccess" = None
  /\ Payment.showPaymentComplete (H := Reference.browser) Return.paid_answer
       (Calculator.drop "paymentSuccess" Pages.card_150)
     = (Ok tt, regions_hidden (Calculator.drop "paymentSuccess" Pages.card_150))
  /\ Payment.showPaymentComplete (H := Reference.browser) Null
       (Calculator.drop "paymentSuccess" Pages.card_150)
     = (Ok tt, regions_hidden (Calculator.drop "paymentSuccess" Pages.card_150)).
Proof.
  split; [reflexivity|]. split.
  - apply (showPaymentComplete_needs_success_region (H := Reference.browser)
             Return.paid_answer (Calculator.drop "paymentSuccess" Pages.card_150) eq_refl).
  - apply (showPaymentComplete_needs_success_region (H := Reference.browser)
             Null (Calculator.drop "paymentSuccess" Pages.card_150) eq_refl).
Defined.

Lemma showPaymentComplete_needs_details_region_witness :
  document (Calculator.drop "paymentDetails" Pages.card_150) !! "paymentDetails" = None
  /\ exists e,
       Payment.showPaymentComplete (H := Reference.browser) Return.paid_answer
         (Calculator.drop "paymentDetails" Pages.card_150)
       = (Throw e, restyle "paymentSuccess" (set_display "block")
                     (regions_hidden (Calculator.drop "paymentDetails" Pages.card_150)))
       /\ (forall html, summary (H := Reference.browser) Return.paid_answer = Ok html ->
             e = TypeError "Cannot set properties of null").
Proof.
  split; [reflexivity|].
  apply (showPaymentComplete_needs_details_region (H := Reference.browser)
           Return.paid_answer (Calculator.drop "paymentDetails" Pages.card_150)).
  - eexists. reflexivity.
  - reflexivity.
Defined.

Lemma savePaymentToHistory_bad_log_witness :
  history (H := Reference.browser) (Calculator.store "{}" Pages.card_150) = None
  /\ history (H := Reference.browser) (Calculator.store "oops" Pages.card_150) = None
  /\ (exists e, savePaymentToHistory (H := Reference.browser) Return.first_payment
                  (Calculator.store "{}" Pages.card_150)
                = (Throw e, Calculator.store "{}" Pages.card_150)
                /\ exists detail, e = TypeError detail)
  /\ (exists e, savePaymentToHistory (H := Reference.browser) Return.first_payment
                  (Calculator.store "oops" Pages.card_150)
                = (Throw e, Calculator.store "oops" Pages.card_150)
                /\ e = SyntaxError "oops").
Proof.
  split; [reflexivity|]. split; [reflexivity|]. split.
  - apply (savePaymentToHistory_bad_log (H := Reference.browser) Return.first_payment
             (Calculator.store "{}" Pages.card_150) eq_refl).
  - apply (savePaymentToHistory_bad_log (H := Reference.browser) Return.first_payment
             (Calculator.store "oops" Pages.card_150) eq_refl).
Defined.

(** * The answers, handled on the page *)

Section Contained.
Context `{Platform}.

Lemma preserves_statusChecked {B} (f : world -> B)
    `{!OffDocument f} `{!OffTimers f} `{!OffStorage f} `{!OffLocation f} r :
  preserves f (Payment.statusChecked r).
Proof.
  unfold Payment.statusChecked. apply preserves_catch.
  - repeat (apply preserves_bind; [apply preserves_lift|]; intros ?).
    destruct a1.
    + apply preserves_bind; [apply preserves_showPaymentComplete; assumption|].
      intros _ w. apply off_location.
    + apply preserves_showPaymentMessage; assumption.
  - intros e. apply preserves_showPaymentMessage; assumption.
Qed.

Lemma preserves_sessionCreated {B} (f : world -> B)
    `{!OffDocument f} `{!OffTimers f} r :
  (forall a w, f (set_navigation a w) = f w) ->
  preserves f (Payment.sessionCreated r).
Proof.
  intros Hnav. unfold Payment.sessionCreated. apply preserves_catch.
  - repeat (apply preserves_bind; [apply preserves_lift|]; intros ?).
    destruct (truthy a1).
    + repeat (apply preserves_bind; [apply preserves_lift|]; intros ?).
      unfold Payment.assign_href. destruct (is_url a3); [|apply preserves_throw].
      intros w. apply Hnav.
    + repeat (apply preserves_bind; [apply preserves_lift|]; intros ?).
      apply preserves_throw.
  - intros e. apply preserves_bind; [apply preserves_showPaymentMessage; assumption|].
    intros _. apply preserves_showPaymentProcessing; assumption.
Qed.

Lemma catch_returns (m : M unit) (h : exn -> M unit) w :
  (forall e w1, exists w2, h e w1 = (Ok tt, w2)) ->
  exists w', catch m h w = (Ok tt, w').
Proof.
  intros Hh. unfold catch. destruct (m w) as [[[]|e] w1]; [eauto | apply Hh].
Qed.

(** ** X13

    No exception escapes the two promise chains, and what they do stays
    on the page.  Whatever the request came to, the handler of the
    status answer returns normally, sends no request and does not send
    the window anywhere; the handler of the session answer returns
    normally, sends no request and changes neither the storage nor the
    location of the page. *)
Theorem answers_handled_on_the_page (r : fetched) (w : world) :
  (exists w', Payment.statusChecked r w = (Ok tt, w')
              /\ requests w' = requests w
              /\ navigation w' = navigation w)
  /\ (exists w', Payment.sessionCreated r w = (Ok tt, w')
                 /\ requests w' = requests w
                 /\ localStorage w' = localStorage w
                 /\ location w' = location w).
Proof.
  split.
  - destruct (catch_returns
                (result ← lift (Payment.checkPaymentStatus_settled r);
                 success ← lift (get_prop result "success");
                 paid ← lift (if truthy success
                              then status ← get_prop result "status";
                                   Ok (is_string status "paid")
                              else Ok false);
                 if (paid : bool) then
                   Payment.showPaymentComplete result;;
                   write (fun w => set_location (Payment.strip_both (location w)) w)
                 else
                   showPaymentMessage "error"
                     "Pengesahan pembayaran gagal. Sila hubungi pihak pentadbir.")
                (fun error => showPaymentMessage "error"
                                ("Ralat pengesahan: " +:+ message_of error)) w)
      as (w' & Hrun).
    { intros e w1. eexists. apply showPaymentMessage_run. }
    exists w'. split; [exact Hrun|].
    pose proof (preserves_statusChecked requests r w) as Hreq.
    pose proof (preserves_statusChecked navigation r w) as Hnav.
    unfold Payment.statusChecked in Hreq, Hnav. rewrite Hrun in Hreq, Hnav.
    split; [exact Hreq | exact Hnav].
  - destruct (sessionCreated_total r w) as (w' & Hrun & _).
    exists w'. split; [exact Hrun|].
    pose proof (preserves_sessionCreated requests r (fun _ _ => eq_refl) w) as Hreq.
    pose proof (preserves_sessionCreated localStorage r (fun _ _ => eq_refl) w) as Hst.
    pose proof (preserves_sessionCreated location r (fun _ _ => eq_refl) w) as Hloc.
    rewrite Hrun in Hreq, Hst, Hloc. auto.
Qed.

Lemma paid_fields result :
  paid (Body result) = true ->
  exists success status,
    get_prop result "success" = Ok success /\ truthy success = true
    /\ get_prop result "status" = Ok status /\ is_string status "paid" = true.
Proof.
  unfold paid. destruct (get_prop result "success") as [success|]; [|discriminate].
  destruct (get_prop result "status") as [status|]; [|discriminate].
  intros Hp. apply andb_true_iff in Hp. destruct Hp as [Ts Tst].
  exists success, status. auto.
Qed.

Lemma statusChecked_paid_run result w :
  paid (Body result) = true ->
  Payment.statusChecked (Body result) w
  = catch (Payment.showPaymentComplete result;;
           write (fun w => set_location (Payment.strip_both (location w)) w))
          (fun error => showPaymentMessage "error"
                          ("Ralat pengesahan: " +:+ message_of error)) w.
Proof.
  intros Hp. destruct (paid_fields result Hp) as (success & status & Hs & Ts & Hst & Tst).
  unfold Payment.statusChecked, catch.
  erewrite bind_ok by reflexivity.
  erewrite bind_ok by (apply lift_ok; exact Hs).
  rewrite Ts, Hst. cbn [mbind outcome_bind]. rewrite Tst.
  erewrite bind_ok by reflexivity. reflexivity.
Qed.

(** ** X14

    On a page without the success region a paid answer is taken as
    settled although nothing is saved: the handler of the status answer
    hides the indicator and the form, takes both parameters out of the
    location, and leaves the log as it was. *)
Theorem paid_answer_without_success_region (result : js) (w : world) :
  paid (Body result) = true ->
  document w !! "paymentSuccess" = None ->
  let w' := set_location (Payment.strip_both (location w)) (regions_hidden w) in
  Payment.statusChecked (Body result) w = (Ok tt, w')
  /\ localStorage w' = localStorage w
  /\ history w' = history w
  /\ searchParams_get (query (location w')) "payment_status" = None
  /\ searchParams_get (query (location w')) "payment_id" = None.
Proof.
  intros Hp Hnone. cbv zeta.
  split; [|split; [reflexivity|split; [reflexivity|apply strip_both_gone]]].
  rewrite (statusChecked_paid_run result w Hp). apply catch_ok.
  erewrite bind_ok by (apply showPaymentComplete_without_success; exact Hnone).
  reflexivity.
Qed.

Lemma showPaymentComplete_throws result w :
  is_Some (document w !! "paymentSuccess") ->
  document w !! "paymentDetails" = None \/ history w = None ->
  exists e w1, Payment.showPaymentComplete result w = (Throw e, w1)
               /\ localStorage w1 = localStorage w
               /\ location w1 = location w
               /\ (is_Some (document w !! "paymentMessage") ->
                   is_Some (document w1 !! "paymentMessage")).
Proof.
  intros Hsuccess Hbroken.
  assert (Hkeep : forall html,
             is_Some (document w !! "paymentMessage") ->
             is_Some (document
                        (restyle "paymentDetails" (set_innerHTML html)
                           (restyle "paymentSuccess" (set_display "block")
                              (regions_hidden w))) !! "paymentMessage")).
  { intros html Hm. unfold regions_hidden, restyle. simpl.
    rewrite !lookup_alter_ne by done. exact Hm. }
  assert (Hkeep' : is_Some (document w !! "paymentMessage") ->
                   is_Some (document
                              (restyle "paymentSuccess" (set_display "block")
                                 (regions_hidden w)) !! "paymentMessage")).
  { intros Hm. unfold regions_hidden, restyle. simpl.
    rewrite !lookup_alter_ne by done. exact Hm. }
  destruct (document w !! "paymentDetails") as [details|] eqn:Hdetails.
  2:{ destruct (showPaymentComplete_without_details result w Hsuccess Hdetails)
        as (e & Hrun & _).
      exists e. eexists. split; [exact Hrun|]. split; [reflexivity|].
      split; [reflexivity | exact Hkeep']. }
  destruct Hbroken as [Hd|Hlog]; [discriminate|].
  destruct Hsuccess as [el Hel].
  unfold Payment.showPaymentComplete.
  rewrite (regions_hidden_run w (fun paymentSuccess paymentDetails => when _ _)).
  rewrite (handle_present w _ _ Hel), (handle_present w _ _ Hdetails). cbn [present when].
  erewrite bind_ok by reflexivity.
  destruct (get_prop result "date") as [date|e];
    [erewrite bind_ok by reflexivity
    |exists e; eexists; split; [reflexivity | split; [reflexivity|split; [reflexivity|exact Hkeep']]]].
  destruct (formatDate date) as [formattedDate|e];
    [erewrite bind_ok by reflexivity
    |exists e; eexists; split; [reflexivity | split; [reflexivity|split; [reflexivity|exact Hkeep']]]].
  destruct (Payment.details result formattedDate) as [html|e];
    [erewrite bind_ok by reflexivity
    |exists e; eexists; split; [reflexivity | split; [reflexivity|split; [reflexivity|exact Hkeep']]]].
  erewrite bind_ok by reflexivity.
  match goal with
  | |- context [savePaymentToHistory result ?w2] =>
      destruct (savePaymentToHistory_throws result w2 Hlog) as (e & Hsave);
      exists e, w2; split; [exact Hsave|];
      split; [reflexivity|]; split; [reflexivity | exact (Hkeep html)]
  end.
Qed.

(** ** X15

    When a paid answer arrives on a page that has the success region but
    lacks the details region, or whose stored log does not read as an
    array, nothing is saved and nothing is settled: the handler returns
    normally, the storage and the location, both parameters included,
    are as before, and the page shows the verification error when it has
    a message region. *)
Theorem paid_answer_on_broken_page (result : js) (w : world) :
  paid (Body result) = true ->
  is_Some (document w !! "paymentSuccess") ->
  document w !! "paymentDetails" = None \/ history w = None ->
  exists e w',
    Payment.statusChecked (Body result) w = (Ok tt, w')
    /\ localStorage w' = localStorage w
    /\ location w' = location w
    /\ (is_Some (document w !! "paymentMessage") ->
        shows w' "error" ("Ralat pengesahan: " +:+ message_of e)).
Proof.
  intros Hp Hsuccess Hbroken.
  destruct (showPaymentComplete_throws result w Hsuccess Hbroken)
    as (e & w1 & Hrun & Hst & Hloc & Hregion).
  exists e, (message_shown "error" ("Ralat pengesahan: " +:+ message_of e) w1).
  split; [|split; [|split]].
  - rewrite (statusChecked_paid_run result w Hp).
    erewrite catch_throw by (apply bind_throw; exact Hrun).
    apply showPaymentMessage_run.
  - rewrite message_shown_storage. exact Hst.
  - rewrite message_shown_location. exact Hloc.
  - intros Hm. apply message_shown_shows, Hregion, Hm.
Qed.

Lemma checkPaymentStatusFromUrl_without_status (this : SecurePayService) w :
  searchParams_get (query (location w)) "payment_status" = None ->
  Payment.checkPaymentStatusFromUrl this w = (Ok tt, w).
Proof.
  intros Hnone. rewrite checkPaymentStatusFromUrl_run. cbv zeta. rewrite Hnone. reflexivity.
Qed.

(** ** X16

    A status that is neither [completed] nor [cancelled], or no status at
    all, is ignored: the handler returns with the page as it found it,
    whatever the other parameters are.  The comparison is exact, so that
    [Completed] or [failed] are among the statuses ignored. *)
Theorem other_status_ignored (this : SecurePayService) (w : world) :
  same (searchParams_get (query (location w)) "payment_status") "completed" = false ->
  same (searchParams_get (query (location w)) "payment_status") "cancelled" = false ->
  Payment.checkPaymentStatusFromUrl this w = (Ok tt, w).
Proof.
  intros Hc Hx. rewrite checkPaymentStatusFromUrl_run. cbv zeta. rewrite Hc, Hx.
  reflexivity.
Qed.

(** ** X17

    A settled return is not handled twice.  The page that the cancelled
    branch leaves, and any page at the location that the paid branch
    leaves, has no status parameter any more, whatever the query held
    and however often a parameter occurred in it: the handler run again
    returns with the page as it is. *)
Theorem settled_return_runs_once (this : SecurePayService) (w w0 : world) :
  Payment.checkPaymentStatusFromUrl this (cancelled w) = (Ok tt, cancelled w)
  /\ Payment.checkPaymentStatusFromUrl this
       (set_location (Payment.strip_both (location w)) w0)
     = (Ok tt, set_location (Payment.strip_both (location w)) w0).
Proof.
  assert (Hcancelled : searchParams_get (query (location (cancelled w))) "payment_status"
                       = None).
  { unfold cancelled, Payment.strip_status. simpl.
    apply (searchParams_get_delete (query (location w))). reflexivity. }
  assert (Hpaid : searchParams_get
                    (query (location (set_location (Payment.strip_both (location w)) w0)))
                    "payment_status" = None).
  { simpl. apply strip_both_gone. }
  split; apply checkPaymentStatusFromUrl_without_status; assumption.
Qed.
End Contained.

Lemma paid_answer_without_success_region_witness :
  paid (Body Return.paid_answer) = true
  /\ document (Calculator.drop "paymentSuccess" Return.completed_with_id) !! "paymentSuccess"
     = None
  /\ Payment.statusChecked (H := Reference.browser) (Body Return.paid_answer)
       (Calculator.drop "paymentSuccess" Return.completed_with_id)
     = (Ok tt, set_location (mk_url "https://zakatnow.example/kalkulator" [("lang", "ms")] "")
                 (regions_hidden (Calculator.drop "paymentSuccess" Return.completed_with_id)))
  /\ history (H := Reference.browser)
       (snd (Payment.statusChecked (H := Reference.browser) (Body Return.paid_answer)
               (Calculator.drop "paymentSuccess" Return.completed_with_id)))
     = Some [].
Proof.
  destruct (paid_answer_without_success_region (H := Reference.browser) Return.paid_answer
              (Calculator.drop "paymentSuccess" Return.completed_with_id) eq_refl eq_refl)
    as (Hrun & _ & Hlog & _).
  split; [reflexivity|]. split; [reflexivity|]. split; [exact Hrun|].
  rewrite Hrun. exact Hlog.
Defined.

Lemma paid_answer_on_broken_page_witness :
  history (H := Reference.browser) (Calculator.store "{}" Return.completed_with_id) = None
  /\ exists e w',
       Payment.statusChecked (H := Reference.browser) (Body Return.paid_answer)
         (Calculator.store "{}" Return.completed_with_id)
       = (Ok tt, w')
       /\ localStorage w' = localStorage (Calculator.store "{}" Return.completed_with_id)
       /\ location w' = location Return.completed_with_id
       /\ shows w' "error"
            ("Ralat pengesahan: " +:+ message_of (H := Reference.browser) e).
Proof.
  split; [reflexivity|].
  destruct (paid_answer_on_broken_page (H := Reference.browser) Return.paid_answer
              (Calculator.store "{}" Return.completed_with_id) eq_refl
              ltac:(eexists; reflexivity) (or_intror eq_refl))
    as (e & w' & Hrun & Hst & Hloc & Hshown).
  exists e, w'. split; [exact Hrun|]. split; [exact Hst|]. split; [exact Hloc|].
  apply Hshown. eexists. reflexivity.
Defined.

Lemma other_status_ignored_witness :
  Payment.checkPaymentStatusFromUrl Pages.live
    (Pages.page "" (Some "") None [("payment_status", "failed"); ("payment_id", "PAY123")])
  = (Ok tt, Pages.page "" (Some "") None
              [("payment_status", "failed"); ("payment_id", "PAY123")])
  /\ Payment.checkPaymentStatusFromUrl Pages.live
       (Pages.page "" (Some "") None [("payment_status", "Completed"); ("payment_id", "PAY123")])
     = (Ok tt, Pages.page "" (Some "") None
                 [("payment_status", "Completed"); ("payment_id", "PAY123")])
  /\ Payment.checkPaymentStatusFromUrl Pages.live Pages.card_150 = (Ok tt, Pages.card_150).
Proof.
  split; [|split].
  - apply (other_status_ignored Pages.live
             (Pages.page "" (Some "") None
                [("payment_status", "failed"); ("payment_id", "PAY123")]) eq_refl eq_refl).
  - apply (other_status_ignored Pages.live
             (Pages.page "" (Some "") None
                [("payment_status", "Completed"); ("payment_id", "PAY123")]) eq_refl eq_refl).
  - apply (other_status_ignored Pages.live Pages.card_150 eq_refl eq_refl).
Defined.

(** * The simulated payment *)

Section Simulated.
Context `{Platform}.

Lemma own_demo_methods_text m v :
  own Demo.methods m = Some v -> exists s, v = Str s.
Proof.
  unfold Demo.methods. cbn [own].
  repeat match goal with
         | |- context [String.eqb ?k m] => destruct (String.eqb k m)
         end;
    intros E; try discriminate; injection E as <-; eauto.
Qed.

Lemma method_name_is_text (table : list (string * js)) m :
  (forall v, own table m = Some v -> exists s, v = Str s) ->
  ~ In m object_prototype ->
  exists s, or_else (lookup_prop table m) (Str m) = Str s.
Proof.
  intros Htext Hout. unfold lookup_prop.
  destruct (own table m) as [v|] eqn:Eown.
  - destruct (Htext v eq_refl) as (s & ->). unfold or_else.
    destruct (truthy (Str s)); eauto.
  - rewrite (inherited_outside m Hout). unfold or_else. simpl. eauto.
Qed.

Lemma simulated_summary paymentAmount paymentMethod r t :
  ~ In paymentMethod object_prototype ->
  exists html, summary (simulated paymentAmount paymentMethod r t) = Ok html.
Proof.
  intros Hout. unfold simulated.
  apply (summary_renders _ paymentMethod); try reflexivity. exact Hout.
Qed.

Lemma demo_simulated_summary paymentAmount paymentMethod r' t :
  ~ In paymentMethod object_prototype ->
  exists html, demo_summary (demo_simulated paymentAmount paymentMethod r' t) = Ok html.
Proof.
  intros Hout. unfold demo_summary, demo_simulated, Demo.details, Demo.formatPaymentMethod.
  cbn. destruct (method_name_is_text Demo.methods paymentMethod
                   (own_demo_methods_text paymentMethod) Hout) as (s & ->).
  cbn. eauto.
Qed.

Lemma demo_showPaymentComplete_run paymentResult html h w el el' :
  document w !! "paymentSuccess" = Some el ->
  document w !! "paymentDetails" = Some el' ->
  demo_summary paymentResult = Ok html ->
  history w = Some h ->
  Demo.showPaymentComplete paymentResult w = (Ok tt, completed paymentResult html h w).
Proof.
  intros Hs Hd Hsum Hh. unfold Demo.showPaymentComplete.
  rewrite (regions_hidden_run w (fun paymentSuccess paymentDetails => when _ _)).
  rewrite (handle_present w _ _ Hs), (handle_present w _ _ Hd). cbn [present when].
  erewrite bind_ok by reflexivity.
  unfold demo_summary in Hsum.
  destruct (get_prop paymentResult "date") as [date|] eqn:Edate; [|discriminate].
  cbn [mbind outcome_bind] in Hsum.
  destruct (formatDate date) as [formattedDate|] eqn:Eformat; [|discriminate].
  cbn [mbind outcome_bind] in Hsum.
  erewrite bind_ok by reflexivity.
  erewrite bind_ok by (apply lift_ok; exact Eformat).
  erewrite bind_ok by (apply lift_ok; exact Hsum).
  erewrite bind_ok by reflexivity.
  apply savePaymentToHistory_run. exact Hh.
Qed.

(** ** X18

    The inner timer of the test mode saves the payment as it was typed,
    not as it would have been sent: on a page with its regions and a log
    that reads as [h], the log then reads as [h] followed by one record
    whose amount is the text of the amount field, not normalised to two
    decimals, and whose method is the code of the page, not the
    gateway's; its status is [success] and its identifier starts with
    [SPM]. *)
Theorem simulated_payment_saved (paymentAmount paymentMethod : string) (r : number)
    (w : world) (h : list js) :
  is_Some (document w !! "paymentSuccess") ->
  is_Some (document w !! "paymentDetails") ->
  ~ In paymentMethod object_prototype ->
  history w = Some h ->
  let record := stamped (simulated paymentAmount paymentMethod r (now w)) (now w) in
  stable (h ++ [record]) ->
  exists html,
    Payment.simulateComplete paymentAmount paymentMethod r w
    = (Ok tt, completed (simulated paymentAmount paymentMethod r (now w)) html h w)
    /\ history (completed (simulated paymentAmount paymentMethod r (now w)) html h w)
       = Some (h ++ [record])
    /\ get_prop record "amount" = Ok (Str paymentAmount)
    /\ get_prop record "method" = Ok (Str paymentMethod)
    /\ get_prop record "status" = Ok (Str "success")
    /\ (exists digits, get_prop record "transaction_id" = Ok (Str ("SPM" +:+ digits)))
    /\ get_prop record "timestamp" = Ok (Num (Number.of_Z (now w))).
Proof.
  intros [el Hel] [el' Hel'] Hout Hh record Hcodec.
  destruct (simulated_summary paymentAmount paymentMethod r (now w) Hout) as (html & Hsum).
  exists html. split; [|split; [|repeat split; eauto]].
  - unfold Payment.simulateComplete. erewrite bind_ok by reflexivity.
    apply (showPaymentComplete_run _ html h w el el' Hel Hel' Hsum Hh).
  - apply (history_saved _ h
             (restyle "paymentDetails" (set_innerHTML html)
                (restyle "paymentSuccess" (set_display "block")
                   (restyle "paymentForm" (set_display "none")
                      (restyle "paymentProcessing" (set_display "none") w))))).
    exact Hcodec.
Qed.

(** ** X19

    The timer of part_000 either saves or leaves the log alone.  With a
    first draw above 0.2, on a page with its regions and a log that
    reads as [h], the log then reads as [h] followed by one record with
    the amount and the method of the page as they were typed and an
    identifier that starts with [TRX].  With any other first draw the
    page shows the failure message and the form again, and the storage
    is as it was.  In both cases no request is sent. *)
Theorem demo_simulation (paymentAmount paymentMethod : string) (r r' : number)
    (w : world) (h : list js) :
  is_Some (document w !! "paymentSuccess") ->
  is_Some (document w !! "paymentDetails") ->
  ~ In paymentMethod object_prototype ->
  history w = Some h ->
  let record := stamped (demo_simulated paymentAmount paymentMethod r' (now w)) (now w) in
  stable (h ++ [record]) ->
  (Demo.lucky r = true ->
   exists html,
     Demo.simulate paymentAmount paymentMethod r r' w
     = (Ok tt, completed (demo_simulated paymentAmount paymentMethod r' (now w)) html h w)
     /\ history (completed (demo_simulated paymentAmount paymentMethod r' (now w)) html h w)
        = Some (h ++ [record])
     /\ get_prop record "amount" = Ok (Str paymentAmount)
     /\ get_prop record "method" = Ok (Str paymentMethod)
     /\ (exists digits, get_prop record "transactionId" = Ok (Str ("TRX" +:+ digits))))
  /\ (Demo.lucky r = false ->
      Demo.simulate paymentAmount paymentMethod r r' w
      = (Ok tt, processing_shown false
                  (message_shown "error" "Pembayaran gagal. Sila cuba lagi." w))
      /\ localStorage (processing_shown false
                         (message_shown "error" "Pembayaran gagal. Sila cuba lagi." w))
         = localStorage w)
  /\ requests (snd (Demo.simulate paymentAmount paymentMethod r r' w)) = requests w.
Proof.
  intros [el Hel] [el' Hel'] Hout Hh record Hcodec. split; [|split].
  - intros Hlucky.
    destruct (demo_simulated_summary paymentAmount paymentMethod r' (now w) Hout)
      as (html & Hsum).
    exists html. split; [|split; [|repeat split; eauto]].
    + unfold Demo.simulate. rewrite Hlucky. erewrite bind_ok by reflexivity.
      apply (demo_showPaymentComplete_run _ html h w el el' Hel Hel' Hsum Hh).
    + apply (history_saved _ h
               (restyle "paymentDetails" (set_innerHTML html)
                  (restyle "paymentSuccess" (set_display "block")
                     (restyle "paymentForm" (set_display "none")
                        (restyle "paymentProcessing" (set_display "none") w))))).
      exact Hcodec.
  - intros Hunlucky. split.
    + unfold Demo.simulate. rewrite Hunlucky.
      erewrite bind_ok by apply showPaymentMessage_run. apply showPaymentProcessing_run.
    + simpl. apply message_shown_storage.
  - unfold Demo.simulate. destruct (Demo.lucky r).
    + apply preserves_bind; [apply preserves_read|]. intros t.
      apply preserves_demo_showPaymentComplete; apply _.
    + apply preserves_bind; [apply preserves_showPaymentMessage; apply _|].
      intros _. apply preserves_showPaymentProcessing; apply _.
Qed.
End Simulated.

(** * The listeners of the load handler *)

Section Pattern.
Import Listeners.

Lemma span_all p s : all_chars p (fst (span p s)) = true.
Proof.
  induction s as [|c r IH]; [reflexivity|]. simpl.
  destruct (p c) eqn:Ec; [|reflexivity].
  destruct (span p r) as [taken rest]. simpl in *. rewrite Ec, IH. reflexivity.
Qed.

(** A run of characters of the class followed by a character outside of
    it, or by nothing, is what [span] takes. *)
Lemma span_run p run rest :
  all_chars p run = true ->
  match rest with String c _ => p c = false | EmptyString => True end ->
  span p (run +:+ rest) = (run, rest).
Proof.
  intros Hrun Hrest. induction run as [|c r IH]; simpl.
  - destruct rest as [|c r]; [reflexivity|]. simpl. rewrite Hrest. reflexivity.
  - simpl in Hrun. apply andb_true_iff in Hrun. destruct Hrun as [Hc Hr].
    rewrite Hc, (IH Hr). reflexivity.
Qed.

Lemma match_here_elsewhere c r : c <> "R"%char -> match_here (String c r) = None.
Proof.
  intros Hc. destruct c as [[] [] [] [] [] [] [] []]; try reflexivity. congruence.
Qed.

Lemma search_skips pre rest :
  without "R" pre = true -> search (pre +:+ rest) = search rest.
Proof.
  intros Hpre. induction pre as [|c r IH]; [reflexivity|].
  simpl in Hpre. apply andb_true_iff in Hpre. destruct Hpre as [Hc Hr].
  apply negb_true_iff, Ascii.eqb_neq in Hc.
  change (String c r +:+ rest) with (String c (r +:+ rest)).
  cbn [search]. rewrite (match_here_elsewhere c _ Hc). apply IH, Hr.
Qed.

Lemma digit_not_white c : is_digit c = true -> Number.is_white c = false.
Proof.
  unfold is_digit, Number.digit_of, Number.is_white.
  destruct ((48 <=? N_of_ascii c)%N && (N_of_ascii c <=? 57)%N) eqn:E; [|discriminate].
  intros _. apply andb_true_iff in E. destruct E as [Hlo Hhi].
  apply N.leb_le in Hlo. apply N.leb_le in Hhi.
  assert (H13 : (N_of_ascii c <=? 13)%N = false) by (apply N.leb_gt; lia).
  assert (H32 : (N_of_ascii c =? 32)%N = false) by (apply N.eqb_neq; lia).
  assert (H160 : (N_of_ascii c =? 160)%N = false) by (apply N.eqb_neq; lia).
  rewrite H13, H32, H160, andb_false_r. reflexivity.
Qed.

Lemma digit_or_comma_not_white c : digit_or_comma c = true -> Number.is_white c = false.
Proof.
  unfold digit_or_comma. intros Hc. apply orb_true_iff in Hc. destruct Hc as [Hd|Hcomma].
  - apply digit_not_white, Hd.
  - apply Ascii.eqb_eq in Hcomma. subst c. reflexivity.
Qed.

Lemma first_of_run p run rest (q : ascii -> Prop) :
  run <> "" -> all_chars p run = true -> (forall c, p c = true -> q c) ->
  match run +:+ rest with String c _ => q c | EmptyString => True end.
Proof.
  intros Hne Hrun Hq. destruct run as [|c r]; [congruence|]. simpl in *.
  apply andb_true_iff in Hrun. apply Hq, Hrun.
Qed.

(** The pattern at the start of a text that begins with [RM], blanks, a
    run of digits and commas, a point and two digits. *)
Lemma match_here_amount blanks body d1 d2 post :
  blanks <> "" -> all_chars Number.is_white blanks = true ->
  body <> "" -> all_chars digit_or_comma body = true ->
  is_digit d1 = true -> is_digit d2 = true ->
  match_here ("RM" +:+ blanks +:+ body +:+ String "." (String d1 (String d2 post)))
  = Some (body +:+ String "." (String d1 (String d2 EmptyString))).
Proof.
  intros Hb Hblanks Hbody Hrun H1 H2.
  change ("RM" +:+ blanks +:+ body +:+ String "." (String d1 (String d2 post)))
    with (String "R" (String "M"
            (blanks +:+ (body +:+ String "." (String d1 (String d2 post)))))).
  cbn [match_here].
  rewrite (span_run Number.is_white blanks _ Hblanks).
  2:{ apply (first_of_run digit_or_comma body _ (fun c => Number.is_white c = false)
               Hbody Hrun digit_or_comma_not_white). }
  destruct (String.eqb_spec blanks ""); [congruence|].
  rewrite (span_run digit_or_comma body _ Hrun) by reflexivity.
  destruct (String.eqb_spec body ""); [congruence|].
  rewrite H1, H2. reflexivity.
Qed.

(** What the pattern captures is a run of digits and commas, a point and
    two digits. *)
Lemma match_here_shape s group :
  match_here s = Some group ->
  exists body d1 d2,
    group = body +:+ String "." (String d1 (String d2 EmptyString))
    /\ body <> "" /\ all_chars digit_or_comma body = true
    /\ is_digit d1 = true /\ is_digit d2 = true.
Proof.
  unfold match_here.
  destruct s as [|c0 [|c1 r]]; try discriminate;
    try (destruct c0 as [[] [] [] [] [] [] [] []]; discriminate).
  destruct c0 as [[] [] [] [] [] [] [] []]; try discriminate.
  destruct c1 as [[] [] [] [] [] [] [] []]; try discriminate.
  destruct (span Number.is_white r) as [blanks r1].
  destruct (String.eqb blanks ""); [discriminate|].
  pose proof (span_all digit_or_comma r1) as Hall.
  destruct (span digit_or_comma r1) as [body r2]. simpl in Hall.
  destruct (String.eqb_spec body ""); [discriminate|].
  destruct r2 as [|p [|d1 [|d2 post]]]; try discriminate;
    try (destruct p as [[] [] [] [] [] [] [] []]; discriminate).
  destruct p as [[] [] [] [] [] [] [] []]; try discriminate.
  destruct (is_digit d1) eqn:H1; [|discriminate].
  destruct (is_digit d2) eqn:H2; [|discriminate].
  intros [= <-]. exists body, d1, d2. auto.
Qed.

Lemma search_shape text group :
  search text = Some group ->
  exists body d1 d2,
    group = body +:+ String "." (String d1 (String d2 EmptyString))
    /\ body <> "" /\ all_chars digit_or_comma body = true
    /\ is_digit d1 = true /\ is_digit d2 = true.
Proof.
  induction text as [|c r IH]; cbn [search].
  - destruct (match_here "") eqn:E; [|discriminate].
    intros [= <-]. eapply match_here_shape, E.
  - destruct (match_here (String c r)) eqn:E; [|exact IH].
    intros [= <-]. eapply match_here_shape, E.
Qed.
End Pattern.

Section PayButton.
Import Listeners.

Lemma search_not_empty text group : search text = Some group -> group <> "".
Proof.
  intros Hs. destruct (search_shape text group Hs) as (body & d1 & d2 & -> & Hne & _).
  destruct body; [congruence | discriminate].
Qed.

Lemma zakatAmount_found w el group :
  document w !! "zakatResult" = Some el -> search (textContent el) = Some group ->
  zakatAmount w = Some group.
Proof.
  intros Hel Hs. unfold zakatAmount. rewrite Hel, Hs.
  apply filled_text. eapply search_not_empty, Hs.
Qed.

(** ** X20

    The click on the pay button, case by case.  Without a result region,
    or without an amount of the form [RM 1,234.56] in its text, the click
    changes nothing.  With an amount, it writes the amount into the
    amount field first and opens the modal second: a page without the
    amount field gets the TypeError of the assignment and no change, and
    a page with the field but without the modal gets the amount and then
    the TypeError of the reading of [style]. *)
Theorem pay_button_click (w : world) :
  match zakatAmount w with
  | None => payZakatButton_click w = (Ok tt, w)
  | Some amount =>
      match document w !! "paymentAmount", document w !! "paymentModal" with
      | None, _ =>
          payZakatButton_click w = (Throw (TypeError "Cannot set properties of null"), w)
      | Some _, None =>
          payZakatButton_click w
          = (Throw (TypeError "Cannot read properties of null"),
             restyle "paymentAmount" (set_value (remove_commas amount)) w)
      | Some _, Some _ => payZakatButton_click w = (Ok tt, prefilled amount w)
      end
  end.
Proof.
  unfold payZakatButton_click, read. erewrite bind_ok by reflexivity.
  fold (zakatAmount w). destruct (zakatAmount w) as [amount|]; [|reflexivity].
  unfold getElementById, read. erewrite bind_ok by reflexivity.
  destruct (document w !! "paymentAmount") as [field|] eqn:Hfield; [|reflexivity].
  erewrite bind_ok by reflexivity. erewrite bind_ok by reflexivity.
  assert (Hmodal : document (restyle "paymentAmount" (set_value (remove_commas amount)) w)
                   !! "paymentModal" = document w !! "paymentModal").
  { unfold restyle. simpl. apply lookup_alter_ne. done. }
  fold (restyle "paymentAmount" (set_value (remove_commas amount)) w).
  rewrite Hmodal. destruct (document w !! "paymentModal"); reflexivity.
Qed.

Lemma payZakatButton_click_run w amount :
  zakatAmount w = Some amount ->
  is_Some (document w !! "paymentAmount") ->
  is_Some (document w !! "paymentModal") ->
  payZakatButton_click w = (Ok tt, prefilled amount w).
Proof.
  intros Hfound [fe Hfe] [me Hme].
  unfold payZakatButton_click, read. erewrite bind_ok by reflexivity.
  fold (zakatAmount w). rewrite Hfound.
  unfold getElementById, read. erewrite bind_ok by reflexivity. rewrite Hfe.
  erewrite bind_ok by reflexivity. erewrite bind_ok by reflexivity.
  fold (restyle "paymentAmount" (set_value (remove_commas amount)) w).
  assert (Hmodal : document (restyle "paymentAmount" (set_value (remove_commas amount)) w)
                   !! "paymentModal" = Some me).
  { unfold restyle. simpl. rewrite lookup_alter_ne by done. exact Hme. }
  rewrite Hmodal. reflexivity.
Qed.

Lemma remove_commas_append a b : remove_commas (a +:+ b) = remove_commas a +:+ remove_commas b.
Proof.
  induction a as [|c r IH]; [reflexivity|]. simpl.
  destruct (Ascii.eqb c ","); [exact IH|]. simpl. rewrite IH. reflexivity.
Qed.

Lemma digit_not_comma c : is_digit c = true -> Ascii.eqb c "," = false.
Proof.
  intros Hd. destruct (Ascii.eqb_spec c ","); [|reflexivity]. subst c. discriminate.
Qed.

Lemma remove_commas_tail d1 d2 :
  is_digit d1 = true -> is_digit d2 = true ->
  remove_commas (String "." (String d1 (String d2 EmptyString)))
  = String "." (String d1 (String d2 EmptyString)).
Proof.
  intros H1 H2. cbn [remove_commas].
  rewrite (digit_not_comma d1 H1), (digit_not_comma d2 H2). reflexivity.
Qed.

(** ** X21

    The pay button finds the first amount of the result text and fills it
    in without its separators.  When the text has no [R] before an [RM]
    that is followed by blanks, a run of digits and commas, a point and
    two digits, the click on a page with the amount field and the modal
    writes the run without its commas, the point and the two digits into
    the amount field, displays the modal, and leaves every other field
    and the rest of the page as they were. *)
Theorem pay_button_fills_amount (w : world) (el : element)
    (pre blanks body post : string) (d1 d2 : ascii) :
  document w !! "zakatResult" = Some el ->
  textContent el
  = pre +:+ "RM" +:+ blanks +:+ body +:+ String "." (String d1 (String d2 post)) ->
  without "R" pre = true ->
  blanks <> "" -> all_chars Number.is_white blanks = true ->
  body <> "" -> all_chars digit_or_comma body = true ->
  is_digit d1 = true -> is_digit d2 = true ->
  is_Some (document w !! "paymentAmount") ->
  is_Some (document w !! "paymentModal") ->
  let amount := body +:+ String "." (String d1 (String d2 EmptyString)) in
  let w' := prefilled amount w in
  payZakatButton_click w = (Ok tt, w')
  /\ field w' "paymentAmount"
     = Some (remove_commas body +:+ String "." (String d1 (String d2 EmptyString)))
  /\ display <$> document w' !! "paymentModal" = Some "block"
  /\ (forall id, id <> "paymentAmount" -> field w' id = field w id)
  /\ localStorage w' = localStorage w
  /\ tasks w' = tasks w
  /\ location w' = location w.
Proof.
  intros Hel Htext Hpre Hb Hblanks Hbody Hrun H1 H2 [fe Hfe] [me Hme]. cbv zeta.
  assert (Hfound : zakatAmount w
                   = Some (body +:+ String "." (String d1 (String d2 EmptyString)))).
  { apply (zakatAmount_found w el _ Hel). rewrite Htext.
    rewrite (search_skips pre _ Hpre).
    assert (Hhere := match_here_amount blanks body d1 d2 post Hb Hblanks Hbody Hrun H1 H2).
    destruct ("RM" +:+ blanks +:+ body +:+ String "." (String d1 (String d2 post)));
      cbn [search]; rewrite Hhere; reflexivity. }
  split; [apply payZakatButton_click_run; eauto|]. unfold prefilled, restyle, field. simpl.
  split; [|split; [|split; [|repeat split]]].
  - rewrite lookup_alter_ne by done. rewrite lookup_alter_eq, Hfe. simpl.
    rewrite remove_commas_append, (remove_commas_tail d1 d2 H1 H2). reflexivity.
  - rewrite lookup_alter_eq. rewrite lookup_alter_ne by done. rewrite Hme. reflexivity.
  - intros id Hid.
    destruct (decide ("paymentModal" = id)) as [<-|Hne].
    + rewrite lookup_alter_eq. rewrite lookup_alter_ne by done.
      destruct (document w !! "paymentModal"); reflexivity.
    + rewrite lookup_alter_ne by exact Hne. rewrite lookup_alter_ne by congruence.
      reflexivity.
Qed.

(** ** X22

    The two ways to close the modal differ on a page without it.  With
    the modal, the close button and a click on the modal itself hide it
    and change nothing else, and a click anywhere else leaves the page
    as it is.  Without the modal, the click in the window still does
    nothing, while the click on the close button throws a TypeError. *)
Theorem modal_closing (w : world) (target : option string) :
  match document w !! "paymentModal" with
  | Some _ =>
      closePayment_click w = (Ok tt, restyle "paymentModal" (set_display "none") w)
      /\ window_click (Some "paymentModal") w
         = (Ok tt, restyle "paymentModal" (set_display "none") w)
      /\ (target <> Some "paymentModal" -> window_click target w = (Ok tt, w))
      /\ values (restyle "paymentModal" (set_display "none") w) = values w
      /\ display <$> document (restyle "paymentModal" (set_display "none") w) !! "paymentModal"
         = Some "none"
  | None =>
      closePayment_click w = (Throw (TypeError "Cannot read properties of null"), w)
      /\ window_click target w = (Ok tt, w)
  end.
Proof.
  unfold closePayment_click, window_click, getElementById, read.
  destruct (document w !! "paymentModal") as [modal|] eqn:Hmodal.
  - split; [|split; [|split; [|split]]].
    + erewrite bind_ok by reflexivity. rewrite Hmodal. reflexivity.
    + erewrite bind_ok by reflexivity. rewrite Hmodal. reflexivity.
    + intros Hother. erewrite bind_ok by reflexivity. rewrite Hmodal.
      destruct target as [t|]; [|reflexivity].
      destruct (String.eqb_spec "paymentModal" t); [congruence | reflexivity].
    + apply values_restyle_display.
    + unfold restyle. simpl. rewrite lookup_alter_eq, Hmodal. reflexivity.
  - split.
    + erewrite bind_ok by reflexivity. rewrite Hmodal. reflexivity.
    + erewrite bind_ok by reflexivity. rewrite Hmodal. reflexivity.
Qed.
End PayButton.

Section PrefilledAmount.
Import Listeners.

Lemma shr_1_sign mrs : 0 <= shr_m mrs -> 0 <= shr_m (shr_1 mrs).
Proof.
  destruct mrs as [m r s]. simpl. destruct m as [|[p|p|]|p]; simpl; lia.
Qed.

Lemma iter_shr_1_sign p : forall mrs, 0 <= shr_m mrs -> 0 <= shr_m (SpecFloat.iter_pos shr_1 p mrs).
Proof.
  induction p as [p IH|p IH|]; intros mrs Hm; simpl.
  - apply IH, IH, shr_1_sign, Hm.
  - apply IH, IH, Hm.
  - apply shr_1_sign, Hm.
Qed.

Lemma shr_fexp_sign m e l :
  0 <= m -> 0 <= shr_m (fst (shr_fexp Number.prec Number.emax m e l)).
Proof.
  intros Hm. unfold shr_fexp, shr.
  assert (Hrec : 0 <= shr_m (shr_record_of_loc m l)).
  { destruct l as [|[]]; exact Hm. }
  destruct (fexp Number.prec Number.emax (Zdigits2 m + e) - e); simpl;
    [exact Hrec | apply iter_shr_1_sign, Hrec | exact Hrec].
Qed.

Lemma round_nearest_even_sign m l : 0 <= m -> 0 <= round_nearest_even m l.
Proof.
  intros Hm. unfold round_nearest_even.
  destruct l as [|[]]; try destruct (Z.even m); lia.
Qed.

(** Rounding a mantissa that is not negative gives a zero, a finite
    number or an infinity of the given sign. *)
Lemma binary_round_aux_sign sx m e l :
  0 <= m ->
  binary_round_aux Number.prec Number.emax sx m e l = S754_zero sx
  \/ binary_round_aux Number.prec Number.emax sx m e l = S754_infinity sx
  \/ exists m' e', binary_round_aux Number.prec Number.emax sx m e l = S754_finite sx m' e'.
Proof.
  intros Hm. unfold binary_round_aux.
  pose proof (shr_fexp_sign m e l Hm) as H1.
  destruct (shr_fexp Number.prec Number.emax m e l) as [mrs' e1]. simpl in H1.
  pose proof (shr_fexp_sign _ e1 loc_Exact
                (round_nearest_even_sign _ (loc_of_shr_record mrs') H1)) as H2.
  destruct (shr_fexp Number.prec Number.emax
              (round_nearest_even (shr_m mrs') (loc_of_shr_record mrs')) e1 loc_Exact)
    as [mrs'' e2]. simpl in H2.
  destruct (shr_m mrs'') as [|p|p]; [auto | | lia].
  destruct (e2 <=? Number.emax - Number.prec); eauto.
Qed.

Lemma SFdiv_sign mx ex my ey :
  let q := SFdiv Number.prec Number.emax (S754_finite false mx ex) (S754_finite false my ey) in
  q = S754_zero false \/ q = S754_infinity false \/ exists m e, q = S754_finite false m e.
Proof.
  cbv zeta. unfold SFdiv.
  destruct (SFdiv_core_binary Number.prec Number.emax (Z.pos mx) ex (Z.pos my) ey)
    as [[mz ez] lz] eqn:Hcore.
  apply binary_round_aux_sign.
  unfold SFdiv_core_binary in Hcore.
  set (s := ex - ey - _) in Hcore.
  set (m' := match s with Z0 => Z.pos mx | Z.pos _ => Z.shiftl (Z.pos mx) s | Z.neg _ => 0 end)
    in Hcore.
  assert (Hm' : 0 <= m').
  { subst m'. destruct s; [lia | | lia]. apply Z.shiftl_nonneg. lia. }
  pose proof (Z_div_mod m' (Z.pos my) ltac:(lia)) as Hdiv.
  destruct (Z.div_eucl m' (Z.pos my)) as [q r]. injection Hcore as <- _ _.
  destruct Hdiv as [Heq Hr]. nia.
Qed.

(** A number of hundredths that is not negative. *)
Lemma of_decimal_hundredths v :
  0 <= v ->
  Number.of_decimal false v (-2) = S754_zero false
  \/ Number.of_decimal false v (-2) = S754_infinity false
  \/ exists m e, Number.of_decimal false v (-2) = S754_finite false m e.
Proof.
  intros Hv. unfold Number.of_decimal.
  destruct (v =? 0); [auto|]. cbv [Z.leb Z.compare]. apply SFdiv_sign.
Qed.

Lemma is_digit_value c : is_digit c = true -> exists d, Number.digit_of c = Some d /\ 0 <= d.
Proof.
  unfold is_digit, Number.digit_of.
  destruct ((48 <=? N_of_ascii c)%N && (N_of_ascii c <=? 57)%N) eqn:E; [|discriminate].
  intros _. apply andb_true_iff in E as [E _]. apply N.leb_le in E.
  eexists. split; [reflexivity | lia].
Qed.

(** [take_digits] reads a whole run of digits when no digit follows it. *)
Lemma take_digits_run ds rest :
  all_chars is_digit ds = true ->
  match rest with String c _ => Number.digit_of c = None | EmptyString => True end ->
  forall acc len, 0 <= acc ->
  exists v, Number.take_digits (ds +:+ rest) acc len = (v, len + Z.of_nat (String.length ds), rest)
            /\ 0 <= v.
Proof.
  intros Hds Hrest. induction ds as [|c r IH]; intros acc len Hacc.
  - exists acc. split; [|exact Hacc]. simpl. rewrite Z.add_0_r.
    destruct rest as [|c r]; [reflexivity|]. simpl. rewrite Hrest. reflexivity.
  - simpl in Hds. apply andb_true_iff in Hds as [Hc Hr].
    destruct (is_digit_value c Hc) as (d & Hd & Hd0).
    destruct (IH Hr (10 * acc + d) (len + 1)) as (v & Hv & Hv0); [lia|].
    exists v. split; [|exact Hv0].
    change (String c r +:+ rest) with (String c (r +:+ rest)).
    cbn [Number.take_digits String.length]. rewrite Hd, Hv. f_equal. f_equal. lia.
Qed.

Lemma remove_commas_digits body :
  all_chars digit_or_comma body = true -> all_chars is_digit (remove_commas body) = true.
Proof.
  induction body as [|c r IH]; [reflexivity|]. simpl. intros H.
  apply andb_true_iff in H as [Hc Hr]. unfold digit_or_comma in Hc.
  destruct (Ascii.eqb c ","); [exact (IH Hr)|]. simpl.
  rewrite orb_false_r in Hc. rewrite Hc. exact (IH Hr).
Qed.

Lemma digit_plain c :
  is_digit c = true ->
  Number.is_white c = false /\ c <> "+"%char /\ c <> "-"%char /\ Ascii.eqb "I" c = false.
Proof.
  intros Hc. repeat split.
  - apply digit_not_white, Hc.
  - intros ->. discriminate.
  - intros ->. discriminate.
  - destruct (Ascii.eqb_spec "I" c); [subst c; discriminate | reflexivity].
Qed.

Lemma append_empty s : s +:+ "" = s.
Proof.
  induction s as [|c r IH]; [reflexivity|].
  change (String c (r +:+ "") = String c r). rewrite IH. reflexivity.
Qed.

(** What [parseFloat] makes of digits, a point and two digits. *)
Lemma parseFloat_digits_point ds d1 d2 :
  all_chars is_digit ds = true -> is_digit d1 = true -> is_digit d2 = true ->
  exists v, 0 <= v
    /\ Number.parseFloat (ds +:+ String "." (String d1 (String d2 EmptyString)))
       = Number.of_decimal false v (-2).
Proof.
  intros Hds H1 H2.
  destruct (take_digits_run ds (String "." (String d1 (String d2 EmptyString))) Hds
              eq_refl 0 0 ltac:(lia)) as (ip & Hip & Hip0).
  destruct (take_digits_run (String d1 (String d2 EmptyString)) EmptyString
              ltac:(simpl; rewrite H1, H2; reflexivity) I ip
              (0 + Z.of_nat (String.length ds)) Hip0) as (v & Hv & Hv0).
  exists v. split; [exact Hv0|]. unfold Number.parseFloat.
  assert (Hhead : Number.take_sign
                    (Number.trim_start (ds +:+ String "." (String d1 (String d2 EmptyString))))
                  = (false, ds +:+ String "." (String d1 (String d2 EmptyString)))
                  /\ Number.starts_with "Infinity"
                       (ds +:+ String "." (String d1 (String d2 EmptyString))) = false).
  { destruct ds as [|c r]; [split; reflexivity|].
    simpl in Hds. apply andb_true_iff in Hds as [Hc _].
    destruct (digit_plain c Hc) as (Hw & Hplus & Hminus & HI).
    change (String c r +:+ ?x) with (String c (r +:+ x)).
    cbn [Number.trim_start]. rewrite Hw. split.
    - unfold Number.take_sign.
      destruct c as [[] [] [] [] [] [] [] []]; try reflexivity; congruence.
    - cbn [Number.starts_with]. rewrite HI. reflexivity. }
  destruct Hhead as [-> ->]. rewrite Hip.
  rewrite append_empty in Hv. rewrite Hv.
  replace (0 + Z.of_nat (String.length ds)
           + Z.of_nat (String.length (String d1 (String d2 EmptyString))) =? 0) with false
    by (symmetry; apply Z.eqb_neq; simpl; lia).
  f_equal. simpl. lia.
Qed.

(** ** X23

    The amount that the pay button writes into the form is one that the
    submit handler can read.  Whatever the result text, the amount found
    in it is, once its commas are gone, a text that is not empty and
    that [parseFloat] reads as zero, as a positive number or as positive
    infinity: never as NaN and never as a negative number.  So the
    amount test of the handlers lets it through unless it reads as
    zero. *)
Theorem prefilled_amount_is_a_number (text amount : string) :
  search text = Some amount ->
  remove_commas amount <> ""
  /\ (parseFloat (remove_commas amount) = S754_zero false
      \/ parseFloat (remove_commas amount) = S754_infinity false
      \/ exists m e, parseFloat (remove_commas amount) = S754_finite false m e)
  /\ (amount_passes (remove_commas amount) = true
      <-> parseFloat (remove_commas amount) <> S754_zero false).
Proof.
  intros Hs.
  destruct (search_shape text amount Hs) as (body & d1 & d2 & -> & _ & Hbody & H1 & H2).
  rewrite remove_commas_append, (remove_commas_tail d1 d2 H1 H2).
  destruct (parseFloat_digits_point (remove_commas body) d1 d2
              (remove_commas_digits body Hbody) H1 H2) as (v & Hv & Hparse).
  assert (Hne : remove_commas body +:+ String "." (String d1 (String d2 EmptyString)) <> "").
  { destruct (remove_commas body); discriminate. }
  split; [exact Hne|].
  unfold parseFloat in *. rewrite Hparse.
  split; [apply of_decimal_hundredths, Hv|].
  unfold amount_passes. unfold parseFloat. rewrite Hparse.
  destruct (String.eqb_spec
              (remove_commas body +:+ String "." (String d1 (String d2 EmptyString))) "")
    as [E|_]; [congruence|].
  destruct (of_decimal_hundredths v Hv) as [-> | [-> | (m & e & ->)]]; simpl.
  - split; [discriminate | congruence].
  - split; [discriminate | reflexivity].
  - split; [discriminate | reflexivity].
Qed.
End PrefilledAmount.

(** * The simulations and the pay button on the reference browser *)

Lemma simulated_payment_saved_witness :
  history (H := Reference.browser) Pages.card_150 = Some []
  /\ ~ In "card" object_prototype
  /\ exists html,
       Payment.simulateComplete (H := Reference.browser) "150.00" "card"
         (parseFloat "0.5") Pages.card_150
       = (Ok tt, completed (H := Reference.browser)
                   (simulated (H := Reference.browser) "150.00" "card" (parseFloat "0.5")
                      1700000000000) html [] Pages.card_150)
       /\ get_prop (stamped (simulated (H := Reference.browser) "150.00" "card"
                               (parseFloat "0.5") 1700000000000) 1700000000000)
            "transaction_id" = Ok (Str "SPM500000").
Proof.
  assert (Hout : ~ In "card" object_prototype) by (simpl; intuition discriminate).
  split; [reflexivity|]. split; [exact Hout|].
  destruct (simulated_payment_saved (H := Reference.browser) "150.00" "card"
              (parseFloat "0.5") Pages.card_150 []
              ltac:(eexists; reflexivity) ltac:(eexists; reflexivity) Hout eq_refl
              ltac:(split; [vm_compute; discriminate | vm_compute; reflexivity]))
    as (html & Hrun & _).
  exists html. split; [exact Hrun | reflexivity].
Defined.

Lemma demo_simulation_witness :
  history (H := Reference.browser) Pages.no_email = Some []
  /\ Demo.lucky (parseFloat "0.5") = true
  /\ exists html,
       Demo.simulate (H := Reference.browser) "150.00" "card"
         (parseFloat "0.5") (parseFloat "0.25") Pages.no_email
       = (Ok tt, completed (H := Reference.browser)
                   (demo_simulated (H := Reference.browser) "150.00" "card" (parseFloat "0.25")
                      1700000000000) html [] Pages.no_email).
Proof.
  assert (Hout : ~ In "card" object_prototype) by (simpl; intuition discriminate).
  assert (Hlucky : Demo.lucky (parseFloat "0.5") = true) by (vm_compute; reflexivity).
  split; [reflexivity|]. split; [exact Hlucky|].
  destruct (demo_simulation (H := Reference.browser) "150.00" "card"
              (parseFloat "0.5") (parseFloat "0.25") Pages.no_email []
              ltac:(eexists; reflexivity) ltac:(eexists; reflexivity) Hout eq_refl
              ltac:(split; [vm_compute; discriminate | vm_compute; reflexivity]))
    as (Hsaved & _).
  destruct (Hsaved Hlucky) as (html & Hrun & _).
  exists html. exact Hrun.
Defined.

Lemma pay_button_fills_amount_witness :
  document Calculator.with_result !! "zakatResult"
  = Some (Calculator.result "Zakat anda: RM 1,234.56 setahun")
  /\ Listeners.payZakatButton_click Calculator.with_result
     = (Ok tt, prefilled "1,234.56" Calculator.with_result)
  /\ field (prefilled "1,234.56" Calculator.with_result) "paymentAmount" = Some "1234.56".
Proof.
  split; [reflexivity|].
  pose proof (pay_button_fills_amount Calculator.with_result
                (Calculator.result "Zakat anda: RM 1,234.56 setahun")
                "Zakat anda: " " " "1,234" " setahun" "5" "6"
                eq_refl eq_refl eq_refl ltac:(discriminate) eq_refl ltac:(discriminate)
                eq_refl eq_refl eq_refl
                ltac:(eexists; reflexivity) ltac:(eexists; reflexivity)) as Hclick.
  cbv zeta in Hclick. destruct Hclick as (Hrun & Hfield & _).
  split; [exact Hrun | exact Hfield].
Defined.

Lemma prefilled_amount_is_a_number_witness :
  Listeners.search "Zakat anda: RM 1,234.56 setahun" = Some "1,234.56"
  /\ Listeners.remove_commas "1,234.56" <> ""
  /\ (amount_passes (Listeners.remove_commas "1,234.56") = true
      <-> parseFloat (Listeners.remove_commas "1,234.56") <> S754_zero false).
Proof.
  split; [reflexivity|].
  destruct (prefilled_amount_is_a_number "Zakat anda: RM 1,234.56 setahun" "1,234.56" eq_refl)
    as (Hne & _ & Hpass).
  split; [exact Hne | exact Hpass].
Defined.
